(** * datasets-server: the orchestration core and the first-rows job runner

    A shallow embedding of the Python sources into Rocq.  Part I holds the
    definitions, one module per source file; Part II holds the theorems.

    Conventions.  A Python [int] is a [Z], a [str] a [string], [None]-able
    values are [option]s, a [dict] used as a JSON payload is a [json]
    association list, the cache collection is a [gmap] indexed by the unique
    key of a cached response.  A Python call that may raise returns an
    [outcome]; a call that also touches the outside world threads a state. *)

From Stdlib Require Import ZArith Lia Qcanon.
From stdpp Require Import base numbers option list gmap sets strings pretty sorting.

Set Warnings "-register-all".

(* ===================================================================== *)
(** * Part I.  Definitions                                                *)
(* ===================================================================== *)

(** ** Python values, exceptions and outcomes *)
Module Py.

(** JSON-like payloads ([Mapping[str, Any]], cache contents). *)
Inductive json : Type :=
| JNull
| JBool (b : bool)
| JInt (n : Z)
| JStr (s : string)
| JList (xs : list json)
| JDict (kvs : list (string * json)).

(** The exceptions the sources raise or catch.  [CustomError] is
    libcommon's structured error (message, HTTP status, code, cause,
    disclose flag); [RuntimeError]'s second field is [__cause__].  An
    exception of any other class is an [OtherException]: it carries the
    [__name__] of its class and the classes of its [__mro__], a built-in
    class being listed by its name and any other class by the name of its
    module followed by its own. *)
Inductive exn : Type :=
| ConnectionError (msg : string)
| TypeError (msg : string)
| ValueError (msg : string)
| KeyError (key : string)
| IndexError (msg : string)
| RuntimeError (msg : string) (cause : option exn)
| DoesNotExist
| CustomError (message : string) (status_code : Z) (code : string)
              (cause : option exn) (disclose_cause : bool)
| OtherException (name : string) (classes : list string) (msg : string).

(** [type(e).__mro__].  For a structured error the list holds CustomError
    and the built-in classes above it: its subclasses and the classes of
    libcommon in between are not part of the sources at hand, and the
    [except] clauses that name one of them are modelled by a predicate of
    their own.  [DoesNotExist] stands for mongoengine's class, of which the
    exception raised for a document class is an instance. *)
Definition mro (e : exn) : list string :=
  match e with
  | ConnectionError _ => ["ConnectionError"; "OSError"; "Exception"; "BaseException"; "object"]
  | TypeError _ => ["TypeError"; "Exception"; "BaseException"; "object"]
  | ValueError _ => ["ValueError"; "Exception"; "BaseException"; "object"]
  | KeyError _ => ["KeyError"; "LookupError"; "Exception"; "BaseException"; "object"]
  | IndexError _ => ["IndexError"; "LookupError"; "Exception"; "BaseException"; "object"]
  | RuntimeError _ _ => ["RuntimeError"; "Exception"; "BaseException"; "object"]
  | DoesNotExist =>
      ["mongoengine.errors.DoesNotExist"; "Exception"; "BaseException"; "object"]
  | CustomError _ _ _ _ _ =>
      ["libcommon.exceptions.CustomError"; "Exception"; "BaseException"; "object"]
  | OtherException _ classes _ => classes
  end.

(** [isinstance(e, cls)]: what an [except cls] clause tests. *)
Definition isinstance (e : exn) (cls : string) : bool := bool_decide (cls ∈ mro e).

(** [except ConnectionError], [except Exception] and [except DoesNotExist]. *)
Definition is_ConnectionError (e : exn) : bool := isinstance e "ConnectionError".
Definition is_Exception (e : exn) : bool := isinstance e "Exception".
Definition is_DoesNotExist (e : exn) : bool := isinstance e "mongoengine.errors.DoesNotExist".

(** The [__mro__] of some classes that the libraries raise. *)
Definition FileNotFoundError_mro : list string :=
  ["FileNotFoundError"; "OSError"; "Exception"; "BaseException"; "object"].
Definition AttributeError_mro : list string :=
  ["AttributeError"; "Exception"; "BaseException"; "object"].

(** [sys.maxsize] on a 64-bit build of CPython. *)
Definition sys_maxsize : Z := 9223372036854775807.

Inductive outcome (A : Type) : Type :=
| Return (v : A)
| Raise (e : exn).
Arguments Return {A} v.
Arguments Raise {A} e.

Definition bind {A B} (x : outcome A) (k : A -> outcome B) : outcome B :=
  match x with Return v => k v | Raise e => Raise e end.

(** [e.status_code] and [e.code] of a structured error. *)
Definition status_code_of (e : exn) : option Z :=
  match e with CustomError _ status_code _ _ _ => Some status_code | _ => None end.
Definition code_of (e : exn) : option string :=
  match e with CustomError _ _ code _ _ => Some code | _ => None end.

(** [http.HTTPStatus] members used by the sources. *)
Definition HTTP_OK : Z := 200.
Definition HTTP_NOT_FOUND : Z := 404.
Definition HTTP_INTERNAL_SERVER_ERROR : Z := 500.
Definition HTTP_NOT_IMPLEMENTED : Z := 501.

(** A status denotes an error when it is a 4xx or 5xx code. *)
Definition is_error_status (s : Z) : bool := (400 <=? s)%Z.

(** [d[key]] on a JSON value with a string key.  The messages of the
    TypeError are those of CPython 3.9 and 3.10. *)
Fixpoint assoc (key : string) (kvs : list (string * json)) : option json :=
  match kvs with
  | [] => None
  | (k, v) :: rest => if String.eqb k key then Some v else assoc key rest
  end.

Definition getitem (v : json) (key : string) : outcome json :=
  match v with
  | JDict kvs =>
      match assoc key kvs with
      | Some x => Return x
      | None => Raise (KeyError key)
      end
  | JList _ => Raise (TypeError "list indices must be integers or slices, not str")
  | JStr _ => Raise (TypeError "string indices must be integers")
  | JNull => Raise (TypeError "'NoneType' object is not subscriptable")
  | JBool _ => Raise (TypeError "'bool' object is not subscriptable")
  | JInt _ => Raise (TypeError "'int' object is not subscriptable")
  end.

(** [l[:stop]] on a list. *)
Definition slice_to {A} (l : list A) (stop : Z) : list A :=
  if (0 <=? stop)%Z then firstn (Z.to_nat stop) l
  else firstn (Z.to_nat (Z.of_nat (length l) + stop)) l.

End Py.
Import Py.

(** ** worker/job_runners/split/first_rows_from_streaming.py: [retry] *)
Module Retry.

Definition SLEEPS : list Z := [1; 7; 70; 7 * 60; 70 * 60]%Z.
Definition MAX_ATTEMPTS : nat := length SLEEPS.

Section decorator.
Context {St A : Type}.
(** [time.sleep] acting on the world. *)
Variable sleep : Z -> St -> St.
(** The wrapped function, already applied to its arguments. *)
Variable func : St -> outcome A * St.

(** The [while attempt < MAX_ATTEMPTS] loop.  [fuel] bounds the number of
    iterations; [None] means the bound was too small. *)
Fixpoint loop (fuel attempt : nat) (last_err : option exn) (st : St)
  : option (outcome A * St) :=
  if (attempt <? MAX_ATTEMPTS)%nat then
    match fuel with
    | O => None
    | S fuel' =>
        match SLEEPS !! attempt with
        | None => Some (Raise (IndexError "list index out of range"), st)
        | Some duration =>
            let st1 := sleep duration st in
            match func st1 with
            | (Return v, st2) => Some (Return v, st2)
            | (Raise err, st2) =>
                if is_ConnectionError err
                then loop fuel' (S attempt) (Some err) st2
                else Some (Raise err, st2)
            end
        end
    end
  else
    Some (Raise (RuntimeError
                   ("Give up after " +:+ pretty attempt +:+ " attempts with ConnectionError")
                   last_err), st).

Definition decorator (st : St) : option (outcome A * St) :=
  loop MAX_ATTEMPTS 0 None st.

(** [failed n st errs st']: starting in [st], the first [n] attempts each
    slept for the scheduled duration and then raised an instance of
    ConnectionError; [errs] lists the errors in order and [st'] is the state
    reached. *)
Inductive failed : nat -> St -> list exn -> St -> Prop :=
| failed_O st : failed 0 st [] st
| failed_S n st errs st1 d e st2 :
    failed n st errs st1 ->
    SLEEPS !! n = Some d ->
    func (sleep d st1) = (Raise e, st2) ->
    "ConnectionError" ∈ mro e ->
    failed (S n) st (errs ++ [e]) st2.

End decorator.

End Retry.

(** ** libcommon.simple_cache: the cache of responses *)
Module Cache.

(** The unique key of a cached response: (kind, dataset, config, split). *)
Abbreviation Key := (string * string * option string * option string)%type.

Record CacheEntry : Type := {
  content : json;
  http_status : Z;
  error_code : option string;
  details : option json;
  job_runner_version : option Z;
  dataset_git_revision : option string;
  progress : option Qc;
}.

Abbreviation Store := (gmap Key CacheEntry).

(** Modelled from the spec: libcommon.simple_cache is not part of the
    sources at hand.  [upsert(key, entry)] writes a full replacement under
    the unique key (at most one entry per key). *)
Definition upsert_response (kind dataset : string) (config split : option string)
    (e : CacheEntry) (store : Store) : Store :=
  <[(kind, dataset, config, split) := e]> store.

(** Modelled from the spec: [get(key) -> entry | NotFound]; the tests name
    the exception [DoesNotExist]. *)
Definition get_response (kind dataset : string) (config split : option string)
    (store : Store) : outcome CacheEntry :=
  match store !! (kind, dataset, config, split) with
  | Some e => Return e
  | None => Raise DoesNotExist
  end.

(** Modelled from the spec: [delete(key)]. *)
Definition delete_response (kind dataset : string) (config split : option string)
    (store : Store) : Store :=
  delete (kind, dataset, config, split) store.

(** An entry is valid when its [http_status] denotes success. *)
Definition is_valid_entry (e : CacheEntry) : bool := (http_status e =? HTTP_OK)%Z.

(** Modelled from the spec: [find_valid_keys(step_kind)], restricted to the
    dataset component as the caller in api/routes/valid.py uses it: the set
    of datasets that have a valid entry of that kind. *)
Definition get_valid_datasets (kind : string) (store : Store) : gset string :=
  list_to_set
    (omap (fun ke : Key * CacheEntry =>
             if String.eqb ke.1.1.1.1 kind && is_valid_entry ke.2
             then Some ke.1.1.1.2 else None)
          (map_to_list store)).

End Cache.

(** ** libcommon.processing_graph: the static graph of processing steps *)
Module Graph.

Inductive InputType : Type := dataset_level | config_level | split_level.

#[global] Instance InputType_eq_dec : EqDecision InputType.
Proof. solve_decision. Defined.

(** Modelled from the spec: libcommon.processing_graph is not part of the
    sources at hand.  A step has the attributes of section 3 of the
    specification, and the flag that puts it in the subset returned by
    [get_processing_steps_required_by_dataset_viewer]. *)
Record ProcessingStep : Type := {
  name : string;
  input_type : InputType;
  triggered_by : list string;
  job_runner_version : Z;
  parallel : option string;
  required_by_dataset_viewer : bool;
}.

(** Modelled from the spec: the attributes [job_type] and [cache_kind] of a
    step, which libcommon.processing_graph derives from its name
    (test_job_manager.py builds jobs of type "dummy" for the step "dummy"). *)
Definition job_type (step : ProcessingStep) : string := name step.
Definition cache_kind (step : ProcessingStep) : string := name step.

(** Modelled from the spec: the graph is the list of its steps, kept in
    topological order. *)
Abbreviation ProcessingGraph := (list ProcessingStep).

(** Modelled from the spec: [get_processing_step(name)], which fails when
    the name is unknown. *)
Fixpoint get_processing_step (n : string) (graph : ProcessingGraph) : option ProcessingStep :=
  match graph with
  | [] => None
  | step :: rest => if String.eqb (name step) n then Some step else get_processing_step n rest
  end.

(** Modelled from the spec: [get_steps_triggered_by(name)]. *)
Definition get_steps_triggered_by (n : string) (graph : ProcessingGraph) : list ProcessingStep :=
  filter (fun step => n ∈ triggered_by step) graph.

(** Modelled from the spec: the named subset used to decide whether a
    dataset is visible in the viewer. *)
Definition get_processing_steps_required_by_dataset_viewer (graph : ProcessingGraph)
  : list ProcessingStep :=
  filter (fun step => required_by_dataset_viewer step = true) graph.

(** Modelled from the spec: the transitive ancestors of a step (section 3),
    here the names reached from [names] by following [triggered_by];
    [fuel] bounds the depth, and the number of steps suffices in an acyclic
    graph. *)
Fixpoint ancestors_upto (fuel : nat) (graph : ProcessingGraph) (names : list string)
  : list string :=
  match fuel with
  | O => []
  | S fuel' =>
      let parents :=
        flat_map (fun n => match get_processing_step n graph with
                           | Some step => triggered_by step
                           | None => []
                           end) names in
      parents ++ ancestors_upto fuel' graph parents
  end.

Definition ancestors (graph : ProcessingGraph) (step : ProcessingStep) : list string :=
  ancestors_upto (length graph) graph [name step].

End Graph.

(** ** services/api/src/api/routes/valid.py *)
Module Valid.
Import Cache Graph.

(** The order of [sorted] on strings: lexicographic on code points. *)
Definition str_le (s1 s2 : string) : Prop := String.leb s1 s2 = true.

#[global] Instance str_le_dec : RelDecision str_le.
Proof. intros s1 s2. unfold str_le. apply _. Defined.

Definition sorted (datasets : gset string) : list string :=
  merge_sort str_le (elements datasets).

(** [get_valid]: the loop keeps [datasets : Optional[Set[str]]]; the first
    iteration fills it, the next ones intersect it in place.  Every call of
    [get_valid_datasets] builds a fresh set, so the update in place is not
    seen elsewhere. *)
Definition get_valid (processing_graph : ProcessingGraph) (store : Store) : list string :=
  let datasets : option (gset string) :=
    fold_left
      (fun (datasets : option (gset string)) processing_step =>
         let kind_datasets := get_valid_datasets (cache_kind processing_step) store in
         match datasets with
         | None => Some kind_datasets
         | Some ds => Some (ds ∩ kind_datasets)
         end)
      (get_processing_steps_required_by_dataset_viewer processing_graph)
      None in
  match datasets with
  | None => []
  | Some ds => sorted ds
  end.

(** [is_valid(dataset)]: membership in the list computed by [get_valid]. *)
Definition is_valid (dataset : string) (processing_graph : ProcessingGraph) (store : Store)
  : bool :=
  bool_decide (dataset ∈ get_valid processing_graph store).

End Valid.

(** ** mongodb_migration/migrations/_20230323155000_cache_dataset_info.py *)
Module Migration.

(** A document of the collection of cached responses.  The schema makes
    [kind] a required string; [fields] holds the other fields by name. *)
Record Document : Type := {
  kind : string;
  fields : gmap string json;
}.

Definition set_kind (k : string) (doc : Document) : Document :=
  {| kind := k; fields := fields doc |}.

(** [collection.update_many({"kind": old}, {"$set": {"kind": new}})] *)
Definition update_many (filter_kind set_to : string) (collection : list Document)
  : list Document :=
  map (fun doc => if String.eqb (kind doc) filter_kind then set_kind set_to doc else doc)
      collection.

Definition dataset_info : string := "/dataset-info".
Definition dataset_info_updated : string := "dataset-info".

(** [MigrationCacheUpdateDatasetInfo.up] and [.down], acting on
    [db[CACHE_COLLECTION_RESPONSES]]. *)
Definition up (responses : list Document) : list Document :=
  update_many dataset_info dataset_info_updated responses.

Definition down (responses : list Document) : list Document :=
  update_many dataset_info_updated dataset_info responses.

End Migration.

(** ** The parallel-step guard shared by the job runners *)
Module JobRunnerBase.
Import Cache.

(** Modelled from the spec: the error of the parallel-step guard, defined
    outside the sources at hand; status and code are those asserted by
    test_raise_if_parallel_response_exists. *)
Definition ResponseAlreadyComputedError (message : string) : exn :=
  CustomError message HTTP_INTERNAL_SERVER_ERROR "ResponseAlreadyComputedError" None true.

(** [JobRunnerInfo]: the job type and the version of a parallel runner. *)
Record JobRunnerInfo : Type := {
  job_runner_version : Z;
  job_type : string;
}.

(** Modelled from the spec: [raise_if_parallel_response_exists] is called by
    the sources at hand but defined elsewhere.  It looks for a response of
    the parallel kind under the same (dataset, config, split), with a
    matching [dataset_git_revision] and a version at least the required
    one. *)
Definition raise_if_parallel_response_exists (store : Store)
    (dataset : string) (config split : option string)
    (dataset_git_revision : option string)
    (parallel_cache_kind : string) (parallel_job_version : Z) : outcome unit :=
  match store !! (parallel_cache_kind, dataset, config, split) with
  | None => Return tt
  | Some existing_response =>
      if match dataset_git_revision, Cache.dataset_git_revision existing_response with
         | Some current, Some computed => String.eqb computed current
         | _, _ => false
         end
         && match Cache.job_runner_version existing_response with
            | Some version => (parallel_job_version <=? version)%Z
            | None => false
            end
      then Raise (ResponseAlreadyComputedError
                    ("Response has already been computed and stored in cache kind: "
                     +:+ parallel_cache_kind +:+ ". Compute will be skipped."))
      else Return tt
  end.

End JobRunnerBase.

(** ** worker/job_runners/split/first_rows_from_streaming.py *)
Module FirstRows.
Import Retry Cache.

(** [Row = Mapping[str, Any]] *)
Abbreviation Row := (list (string * json)).
(** [datasets.Features]: column name to feature type, in order. *)
Abbreviation Features := (list (string * json)).

(** What iterating a dataset object yields: [items] in order, and then
    [failure] is raised if the consumer asks for one more item. *)
Record RowStream : Type := { items : list Row; failure : option exn }.

(** The result of [IterableDataset._resolve_features()]. *)
Inductive Resolved : Type :=
| ResolvedIterableDataset (features : option Features)
| ResolvedOther.

(** The objects [datasets.load_dataset] may return. *)
Inductive DatasetObj : Type :=
| IterableDataset (rows : RowStream) (resolve_features : outcome Resolved)
| Dataset (rows : RowStream)
| OtherDatasetObj.

(** [datasets.DatasetInfo], the two attributes that are read. *)
Record DatasetInfo : Type := {
  info_features : option Features;
  size_in_bytes : option Z;
}.

Record SplitFirstRowsResponse : Type := {
  r_dataset : string;
  r_config : string;
  r_split : string;
  r_features : list json;
  r_rows : list json;
}.

(** The part of the outside world the module acts on: the log of
    [time.sleep] calls and the number of calls made to the Hub so far. *)
Record World : Type := { slept : list Z; hub_calls : nat }.

Definition time_sleep (d : Z) (w : World) : World :=
  {| slept := slept w ++ [d]; hub_calls := hub_calls w |}.

(** Computations on the world that may raise; [None] is reserved for a
    loop that exhausts its bound. *)
Definition M (A : Type) : Type := World -> option (outcome A * World).

Definition ret {A} (v : A) : M A := fun w => Some (Return v, w).
Definition raise {A} (e : exn) : M A := fun w => Some (Raise e, w).
Definition lift {A} (o : outcome A) : M A := fun w => Some (o, w).
Definition mbind {A B} (m : M A) (k : A -> M B) : M B :=
  fun w =>
    match m w with
    | None => None
    | Some (Return v, w') => k v w'
    | Some (Raise e, w') => Some (Raise e, w')
    end.
(** [try: m except Exception as err: handler(err)]: an exception that is
    not an instance of [Exception] (SystemExit, KeyboardInterrupt, ...) is
    not caught. *)
Definition try_except {A} (m : M A) (handler : exn -> M A) : M A :=
  fun w =>
    match m w with
    | Some (Raise e, w') => if is_Exception e then handler e w' else Some (Raise e, w')
    | r => r
    end.

(** A computation that never sleeps. *)
Definition quiet {A} (m : M A) : Prop :=
  forall w r w', m w = Some (r, w') -> slept w' = slept w.

(** stdpp's monad notation: [x ← m; k]. *)
#[global] Instance M_ret : MRet M := @ret.
#[global] Instance M_bind : MBind M := fun A B k m => mbind m k.

(** The error classes of the module: all carry INTERNAL_SERVER_ERROR. *)
Definition SplitFirstRowsFromStreamingJobRunnerError
    (message : string) (status_code : Z) (code : string)
    (cause : option exn) (disclose_cause : bool) : exn :=
  CustomError message status_code code cause disclose_cause.

Definition SplitsNamesError message cause :=
  SplitFirstRowsFromStreamingJobRunnerError message HTTP_INTERNAL_SERVER_ERROR "SplitsNamesError" cause true.
Definition EmptyDatasetError message cause :=
  SplitFirstRowsFromStreamingJobRunnerError message HTTP_INTERNAL_SERVER_ERROR "EmptyDatasetError" cause true.
Definition InfoError message cause :=
  SplitFirstRowsFromStreamingJobRunnerError message HTTP_INTERNAL_SERVER_ERROR "InfoError" cause true.
Definition FeaturesError message cause :=
  SplitFirstRowsFromStreamingJobRunnerError message HTTP_INTERNAL_SERVER_ERROR "FeaturesError" cause true.
Definition StreamingRowsError message cause :=
  SplitFirstRowsFromStreamingJobRunnerError message HTTP_INTERNAL_SERVER_ERROR "StreamingRowsError" cause true.
Definition NormalRowsError message cause :=
  SplitFirstRowsFromStreamingJobRunnerError message HTTP_INTERNAL_SERVER_ERROR "NormalRowsError" cause true.
Definition RowsPostProcessingError message cause :=
  SplitFirstRowsFromStreamingJobRunnerError message HTTP_INTERNAL_SERVER_ERROR "RowsPostProcessingError" cause false.
Definition TooManyColumnsError message cause :=
  SplitFirstRowsFromStreamingJobRunnerError message HTTP_INTERNAL_SERVER_ERROR "TooManyColumnsError" cause true.
Definition TooBigContentError message cause :=
  SplitFirstRowsFromStreamingJobRunnerError message HTTP_INTERNAL_SERVER_ERROR "TooBigContentError" cause false.
Definition PreviousStepStatusError message cause :=
  SplitFirstRowsFromStreamingJobRunnerError message HTTP_INTERNAL_SERVER_ERROR "PreviousStepStatusError" cause false.
Definition PreviousStepFormatError message cause :=
  SplitFirstRowsFromStreamingJobRunnerError message HTTP_INTERNAL_SERVER_ERROR "PreviousStepFormatError" cause false.

(** [itertools.islice(ds, stop)] consumed by [list(...)]. *)
Definition islice (ds : RowStream) (stop : Z) : outcome (list Row) :=
  if (stop <? 0)%Z || (sys_maxsize <? stop)%Z then
    Raise (ValueError "Stop argument for islice() must be None or an integer: 0 <= x <= sys.maxsize.")
  else if (Z.to_nat stop <=? length (items ds))%nat then
    Return (firstn (Z.to_nat stop) (items ds))
  else
    match failure ds with
    | Some e => Raise e
    | None => Return (items ds)
    end.

(** Truthiness of an optional [Features] (None and the empty mapping are
    falsy). *)
Definition truthy (features : option Features) : bool :=
  match features with
  | Some (_ :: _) => true
  | _ => false
  end.

(** [len(features)] *)
Definition len (features : option Features) : Z :=
  match features with
  | Some fs => Z.of_nat (length fs)
  | None => 0
  end.

(** Iterating a JSON value: a list yields its items, a mapping its keys, a
    string its characters; anything else is not iterable. *)
Definition iter_json (v : json) : outcome (list json) :=
  match v with
  | JList xs => Return xs
  | JDict kvs => Return (map (fun kv => JStr kv.1) kvs)
  | JStr s => Return (map (fun c => JStr (String c EmptyString)) (String.list_ascii_of_string s))
  | _ => Raise (TypeError "object is not iterable")
  end.

(** [[split_item["split"] for split_item in splits_content]] *)
Fixpoint split_names (split_items : list json) : outcome (list json) :=
  match split_items with
  | [] => Return []
  | split_item :: rest =>
      bind (getitem split_item "split") (fun n =>
      bind (split_names rest) (fun ns => Return (n :: ns)))
  end.

(** [split == v] for a JSON value [v]. *)
Definition str_eq (split : string) (v : json) : bool :=
  match v with JStr s => String.eqb split s | _ => false end.

Definition MAX_SIZE_FALLBACK : Z := 100000000.

Section hub.
(** The Hub, as seen through the [datasets] library: the outcome of the
    [n]-th call made to it.  Arguments of [load_dataset]: path, name,
    split, streaming, use_auth_token ([None] stands for [False]). *)
Variable load_dataset :
  nat -> string -> string -> string -> bool -> option string -> outcome DatasetObj.
Variable get_dataset_config_info :
  nat -> string -> string -> option string -> outcome DatasetInfo.
(** Helpers of worker.utils and worker.features, and the two error
    classes of worker.job_runner, which the module imports. *)
Variable to_features_list : option Features -> outcome (list json).
Variable get_json_size : SplitFirstRowsResponse -> outcome Z.
Variable get_cell_value :
  string -> string -> string -> nat -> json -> string -> json -> string -> string ->
  outcome json.
Variable create_truncated_row_items : list Row -> Z -> Z -> Z -> outcome (list json).
Variable ConfigNotFoundError : string -> option exn -> exn.
Variable SplitNotFoundError : string -> option exn -> exn.
(** The cache collection, which the function only reads. *)
Variable store : Store.

Definition call_hub {A} (f : nat -> outcome A) : M A :=
  fun w => Some (f (hub_calls w), {| slept := slept w; hub_calls := S (hub_calls w) |}).

(** The body of [get_rows], before decoration. *)
Definition get_rows_body (dataset config split : string) (streaming : bool)
    (rows_max_number : Z) (use_auth_token : option string)
    (w : World) : outcome (list Row) * World :=
  let w1 := {| slept := slept w; hub_calls := S (hub_calls w) |} in
  match load_dataset (hub_calls w) dataset config split streaming use_auth_token with
  | Raise e => (Raise e, w1)
  | Return ds =>
      let checked : outcome RowStream :=
        if streaming then
          match ds with
          | IterableDataset rows _ => Return rows
          | _ => Raise (TypeError "load_dataset should return an IterableDataset in streaming mode")
          end
        else
          match ds with
          | Dataset rows => Return rows
          | _ => Raise (TypeError "load_dataset should return a Dataset in normal mode")
          end in
      (bind checked (fun rows =>
       bind (islice rows (rows_max_number + 1)) (fun rows_plus_one =>
       Return (slice_to rows_plus_one rows_max_number))), w1)
  end.

(** [@retry def get_rows(...)] *)
Definition get_rows (dataset config split : string) (streaming : bool)
    (rows_max_number : Z) (use_auth_token : option string) : M (list Row) :=
  decorator time_sleep
    (get_rows_body dataset config split streaming rows_max_number use_auth_token).

(** [upstream_response = get_response(kind, dataset, config);
     splits_content = upstream_response["content"]["splits"]] *)
Definition read_splits (kind dataset config : string) : outcome (CacheEntry * json) :=
  bind (get_response kind dataset (Some config) None store) (fun upstream_response =>
  bind (getitem (content upstream_response) "splits") (fun splits_content =>
  Return (upstream_response, splits_content))).

(** The two nested [try] blocks that look the split names up: the outer
    one has [except Exception], the inner one [except DoesNotExist] and then
    [except Exception]. *)
Definition upstream_splits (dataset config : string) : outcome (CacheEntry * json) :=
  match read_splits "/split-names-from-streaming" dataset config with
  | Return r => Return r
  | Raise e0 =>
      if is_Exception e0 then
        match read_splits "/split-names-from-dataset-info" dataset config with
        | Return r => Return r
        | Raise e =>
            if is_DoesNotExist e then
              Raise (ConfigNotFoundError
                       ("The config '" +:+ config +:+ "' does not exist for the dataset.'")
                       (Some e))
            else if is_Exception e then
              Raise (PreviousStepFormatError
                       "Previous step did not return the expected content." (Some e))
            else Raise e
        end
      else Raise e0
  end.

(** One row of [transform_rows]: the dict comprehension over
    [features.items()]. *)
Fixpoint transform_cells (dataset config split : string) (row_idx : nat) (row : Row)
    (features : Features) (assets_base_url assets_directory : string) : outcome Row :=
  match features with
  | [] => Return []
  | (featureName, fieldType) :: rest =>
      bind (get_cell_value dataset config split row_idx
              (match assoc featureName row with Some cell => cell | None => JNull end)
              featureName fieldType assets_base_url assets_directory) (fun cell =>
      bind (transform_cells dataset config split row_idx row rest
              assets_base_url assets_directory) (fun cells =>
      Return ((featureName, cell) :: cells)))
  end.

Fixpoint transform_rows_from (row_idx : nat) (dataset config split : string)
    (rows : list Row) (features : option Features)
    (assets_base_url assets_directory : string) : outcome (list Row) :=
  match rows with
  | [] => Return []
  | row :: rest =>
      match features with
      | None =>
          Raise (OtherException "AttributeError" AttributeError_mro
                   "'NoneType' object has no attribute 'items'")
      | Some fs =>
          bind (transform_cells dataset config split row_idx row fs
                  assets_base_url assets_directory) (fun r =>
          bind (transform_rows_from (S row_idx) dataset config split rest features
                  assets_base_url assets_directory) (fun rs =>
          Return (r :: rs)))
      end
  end.

Definition transform_rows (dataset config split : string) (rows : list Row)
    (features : option Features) (assets_base_url assets_directory : string)
  : outcome (list Row) :=
  transform_rows_from 0 dataset config split rows features assets_base_url assets_directory.

(** The streaming fallback that resolves the features when the config
    info has none. *)
Definition resolve_features (dataset config split : string)
    (use_auth_token : option string) : M (option Features) :=
  iterable_dataset ← call_hub (fun n => load_dataset n dataset config split true use_auth_token);
  match iterable_dataset with
  | IterableDataset _ resolved =>
      r ← lift resolved;
      match r with
      | ResolvedIterableDataset features => ret features
      | ResolvedOther => raise (TypeError "load_dataset should return an IterableDataset.")
      end
  | _ => raise (TypeError "load_dataset should return an IterableDataset.")
  end.

(** The first half of [compute_first_rows_response], up to the point
    where [info] and [features] are bound. *)
Definition get_features (dataset config split : string) (hf_token : option string)
  : M (DatasetInfo * option Features) :=
  let use_auth_token := hf_token in
  (* first ensure the tuple (dataset, config, split) exists on the Hub *)
  upstream ← lift (upstream_splits dataset config);
  let upstream_response := upstream.1 in
  let splits_content := upstream.2 in
  _ ← (if negb (http_status upstream_response =? HTTP_OK)%Z then
         raise (PreviousStepStatusError
                  ("Previous step gave an error: " +:+ pretty (http_status upstream_response)
                   +:+ ". This job should not have been created.") None)
       else ret tt);
  names ← lift (bind (iter_json splits_content) split_names);
  _ ← (if negb (existsb (str_eq split) names) then
         raise (SplitNotFoundError
                  ("The split '" +:+ split +:+ "' does not exist for the config '"
                   +:+ config +:+ "' of the dataset.") None)
       else ret tt);
  (* get the features *)
  info ← try_except
           (call_hub (fun n => get_dataset_config_info n dataset config use_auth_token))
           (fun err => raise (InfoError
              ("The info cannot be fetched for the config '" +:+ config +:+ "' of the dataset.")
              (Some err)));
  features ← (if negb (truthy (info_features info)) then
                try_except (resolve_features dataset config split use_auth_token)
                  (fun err => raise (FeaturesError
                     ("Cannot extract the features (columns) for the split '" +:+ split
                      +:+ "' of the config '" +:+ config +:+ "' of the dataset.")
                     (Some err)))
              else ret (info_features info));
  ret (info, features).

(** The response without the rows, whose size is validated first. *)
Definition response_features_only (dataset config split : string)
    (features_list : list json) : SplitFirstRowsResponse :=
  {| r_dataset := dataset; r_config := config; r_split := split;
     r_features := features_list; r_rows := [] |}.

Definition compute_first_rows_response
    (dataset config split assets_base_url : string) (hf_token : option string)
    (min_cell_bytes rows_max_bytes rows_max_number rows_min_number columns_max_number : Z)
    (assets_directory : string) (max_size_fallback : option Z)
  : M SplitFirstRowsResponse :=
  let use_auth_token := hf_token in
  info_features ← get_features dataset config split hf_token;
  let info := info_features.1 in
  let features := info_features.2 in
  _ ← (if truthy features && (columns_max_number <? len features)%Z then
         raise (TooManyColumnsError
                  ("The number of columns (" +:+ pretty (len features)
                   +:+ ") exceeds the maximum supported number of columns ("
                   +:+ pretty columns_max_number
                   +:+ "). This is a current limitation of the datasets viewer. You can reduce the number"
                   +:+ " of columns if you want the viewer to work.") None)
       else ret tt);
  (* validate size of response without the rows *)
  features_list ← lift (to_features_list features);
  surrounding_json_size ←
    lift (get_json_size (response_features_only dataset config split features_list));
  _ ← (if (rows_max_bytes <? surrounding_json_size)%Z then
         raise (TooBigContentError
                  ("The size of the content of the first rows (" +:+ pretty surrounding_json_size
                   +:+ " B) exceeds the maximum supported size (" +:+ pretty rows_max_bytes
                   +:+ " B) even after truncation. Please report the issue.") None)
       else ret tt);
  (* get the rows; the deprecation warning for max_size_fallback has no
     effect on the result *)
  rows ← try_except
           (get_rows dataset config split true rows_max_number use_auth_token)
           (fun err =>
              if match size_in_bytes info with
                 | None => true
                 | Some size => (MAX_SIZE_FALLBACK <? size)%Z
                 end
              then raise (StreamingRowsError
                     "Cannot load the dataset split (in streaming mode) to extract the first rows."
                     (Some err))
              else try_except
                     (get_rows dataset config split false rows_max_number use_auth_token)
                     (fun err => raise (NormalRowsError
                        "Cannot load the dataset split (in normal download mode) to extract the first rows."
                        (Some err))));
  (* transform the rows, if needed *)
  transformed_rows ← try_except
           (lift (transform_rows dataset config split rows features
                    assets_base_url assets_directory))
           (fun err => raise (RowsPostProcessingError
              "Server error while post-processing the split rows. Please report the issue."
              (Some err)));
  (* truncate the rows to fit within the restrictions *)
  row_items ← lift (create_truncated_row_items transformed_rows min_cell_bytes
                      (rows_max_bytes - surrounding_json_size) rows_min_number);
  ret {| r_dataset := dataset; r_config := config; r_split := split;
         r_features := features_list; r_rows := row_items |}.

(** [FirstRowsConfig] *)
Record FirstRowsConfig : Type := {
  max_bytes : Z;
  max_number : Z;
  min_cell_bytes : Z;
  min_number : Z;
  columns_max_number : Z;
}.

(** The attributes of a [SplitFirstRowsFromStreamingJobRunner] that
    [compute] reads; [current_git_revision] is what
    [get_dataset_git_revision()] answers for the dataset. *)
Record SplitFirstRowsFromStreamingJobRunner : Type := {
  dataset : string;
  config : option string;
  split : option string;
  current_git_revision : option string;
  hf_token : option string;
  assets_base_url : string;
  assets_directory : string;
  first_rows_config : FirstRowsConfig;
}.

Variable PROCESSING_STEP_SPLIT_FIRST_ROWS_FROM_PARQUET_VERSION : Z.

(** [SplitFirstRowsFromStreamingJobRunner.compute] *)
Definition compute (self : SplitFirstRowsFromStreamingJobRunner) : M SplitFirstRowsResponse :=
  match config self, split self with
  | Some config, Some split =>
      _ ← lift (JobRunnerBase.raise_if_parallel_response_exists store (dataset self)
                  (Some config) (Some split) (current_git_revision self)
                  "split-first-rows-from-parquet"
                  PROCESSING_STEP_SPLIT_FIRST_ROWS_FROM_PARQUET_VERSION);
      compute_first_rows_response (dataset self) config split (assets_base_url self)
        (hf_token self)
        (min_cell_bytes (first_rows_config self)) (max_bytes (first_rows_config self))
        (max_number (first_rows_config self)) (min_number (first_rows_config self))
        (columns_max_number (first_rows_config self))
        (assets_directory self) None
  | _, _ => raise (ValueError "config and split are required")
  end.

End hub.

End FirstRows.

(** ** libcommon.queue: the queue of jobs *)
Module Queue.

Inductive Priority : Type := LOW | NORMAL.
(** Modelled from the spec: libcommon.queue is not part of the sources at
    hand.  The non-terminal statuses; a finished job is removed from the
    queue. *)
Inductive Status : Type := WAITING | STARTED.

#[global] Instance Status_eq_dec : EqDecision Status.
Proof. solve_decision. Defined.

(** The unique key of a job:
    (job_type, dataset, config, split, dataset_git_revision). *)
Abbreviation JobKey := (string * string * option string * option string * string)%type.

Record Job : Type := {
  type : string;
  dataset : string;
  config : option string;
  split : option string;
  revision : string;
  priority : Priority;
  status : Status;
}.

Definition unique_key (job : Job) : JobKey :=
  (type job, dataset job, config job, split job, revision job).

Definition has_key (key : JobKey) (job : Job) : bool :=
  bool_decide (unique_key job = key).

Definition waiting_job (key : JobKey) (p : Priority) : Job :=
  {| type := key.1.1.1.1; dataset := key.1.1.1.2; config := key.1.1.2; split := key.1.2;
     revision := key.2; priority := p; status := WAITING |}.

(** Modelled from the spec: [create_job(unique_key, priority)] inserts a
    WAITING job, and is a no-op when a non-terminal job with the same key
    exists.  The second component tells whether a job was inserted. *)
Definition create_job (key : JobKey) (p : Priority) (queue : list Job) : list Job * bool :=
  if existsb (has_key key) queue then (queue, false)
  else (queue ++ [waiting_job key p], true).

(** Modelled from the spec: [finish_job] removes the job. *)
Definition finish_job (key : JobKey) (queue : list Job) : list Job :=
  filter (fun job => has_key key job = false) queue.

(** Modelled from the spec: [Queue.get_dump_with_status(job_type, status)]
    of libcommon.queue, as test_backfill uses it. *)
Definition get_dump_with_status (job_type : string) (st : Status) (queue : list Job)
  : list Job :=
  filter (fun job => type job = job_type /\ status job = st) queue.

End Queue.

(** ** libcommon.state: the backfill planner *)
Module State.
Import Cache Graph.

(** Modelled from the spec: libcommon.state is not part of the sources at
    hand.  The two shared stores. *)
Record System : Type := {
  cache : Store;
  queue : list Queue.Job;
}.

(** The report of a backfill pass. *)
Record Plan : Type := {
  jobs_created : list Queue.Job;
  entries_deleted : list Key;
}.

Definition empty_plan : Plan := {| jobs_created := []; entries_deleted := [] |}.

Inductive Class : Type := UpToDate | Stale | Missing | ErroredRetry | ErroredFatal.

Section planner.
(** How a payload enumerates configs or splits belongs to the step that
    computes it, and which error codes are never retried to the
    configuration: the planner takes them as given. *)
Variable configs_of : json -> list string.
Variable splits_of : json -> list string.
Variable non_retryable : option string -> bool.

(** Modelled from the spec (section 3): an entry is stale if its version is
    older than the step's, or its revision differs from the current one.  An
    entry that records no version or no revision counts as stale. *)
Definition is_stale (step : ProcessingStep) (revision : string) (e : CacheEntry) : bool :=
  match Cache.job_runner_version e with
  | Some version => (version <? Graph.job_runner_version step)%Z
  | None => true
  end
  || match dataset_git_revision e with
     | Some computed => negb (String.eqb computed revision)
     | None => true
     end.

(** Modelled from the spec: the classification of a reachable triple
    against its cache entry (section 4.2, step 2). *)
Definition classify (step : ProcessingStep) (revision : string) (entry : option CacheEntry)
  : Class :=
  match entry with
  | None => Missing
  | Some e =>
      if is_stale step revision e then Stale
      else if is_valid_entry e then UpToDate
      else if non_retryable (error_code e) then ErroredFatal
      else ErroredRetry
  end.

(** Modelled from the spec (section 4.2, step 4): the payload of a valid,
    current entry, if there is one under the key. *)
Definition valid_current_content (store : Store) (step : ProcessingStep)
    (dataset : string) (config split : option string) (revision : string) : option json :=
  match store !! (cache_kind step, dataset, config, split) with
  | Some e =>
      if negb (is_stale step revision e) && is_valid_entry e then Some (content e) else None
  | None => None
  end.

(** Modelled from the spec: the ancestors of a step that run at a given
    level. *)
Definition ancestors_at (level : InputType) (graph : ProcessingGraph) (step : ProcessingStep)
  : list ProcessingStep :=
  omap (fun n => match get_processing_step n graph with
                 | Some a => if decide (input_type a = level) then Some a else None
                 | None => None
                 end)
       (ancestors graph step).

(** Modelled from the spec (section 4.2, steps 1 and 4): the configs known
    for a step are those enumerated by the valid, current entries of its
    dataset-level ancestors. *)
Definition known_configs (graph : ProcessingGraph) (store : Store) (dataset revision : string)
    (step : ProcessingStep) : list string :=
  flat_map (fun a => match valid_current_content store a dataset None None revision with
                     | Some payload => configs_of payload
                     | None => []
                     end)
           (ancestors_at dataset_level graph step).

(** Modelled from the spec (section 4.2, steps 1 and 4): the
    (config, split) pairs known for a step are, for each known config, the
    splits enumerated by the valid, current entries of its config-level
    ancestors. *)
Definition known_splits (graph : ProcessingGraph) (store : Store) (dataset revision : string)
    (step : ProcessingStep) : list (string * string) :=
  flat_map (fun a =>
    flat_map (fun config =>
      match valid_current_content store a dataset (Some config) None revision with
      | Some payload => map (fun split => (config, split)) (splits_of payload)
      | None => []
      end)
      (known_configs graph store dataset revision a))
    (ancestors_at config_level graph step).

(** Modelled from the spec (section 4.2, step 1): the reachable
    (config, split) pairs of a step. *)
Definition reachable (graph : ProcessingGraph) (store : Store) (dataset revision : string)
    (step : ProcessingStep) : list (option string * option string) :=
  match input_type step with
  | dataset_level => [(None, None)]
  | config_level =>
      map (fun config => (Some config, None)) (known_configs graph store dataset revision step)
  | split_level =>
      map (fun cs => (Some cs.1, Some cs.2)) (known_splits graph store dataset revision step)
  end.

Definition enqueue (key : Queue.JobKey) (p : Queue.Priority) (st : System * Plan)
  : System * Plan :=
  let (queue', created) := Queue.create_job key p (queue st.1) in
  ({| cache := cache st.1; queue := queue' |},
   if created
   then {| jobs_created := jobs_created st.2 ++ [Queue.waiting_job key p];
           entries_deleted := entries_deleted st.2 |}
   else st.2).

Definition delete_entry (key : Key) (st : System * Plan) : System * Plan :=
  ({| cache := delete key (cache st.1); queue := queue st.1 |},
   {| jobs_created := jobs_created st.2; entries_deleted := entries_deleted st.2 ++ [key] |}).

(** Modelled from the spec (section 4.2, steps 2 and 3): the action taken
    for one reachable triple.  A stale entry is deleted and a job created; a
    missing entry or a retryable error gets a job; the queue makes the
    creation a no-op when a job with the key is in progress. *)
Definition plan_triple (step : ProcessingStep) (dataset revision : string)
    (p : Queue.Priority) (st : System * Plan) (triple : option string * option string)
  : System * Plan :=
  let key := (cache_kind step, dataset, triple.1, triple.2) in
  let job_key := (job_type step, dataset, triple.1, triple.2, revision) in
  match classify step revision (cache st.1 !! key) with
  | UpToDate => st
  | ErroredFatal => st
  | Missing => enqueue job_key p st
  | ErroredRetry => enqueue job_key p st
  | Stale => enqueue job_key p (delete_entry key st)
  end.

Definition plan_step (graph : ProcessingGraph) (dataset revision : string)
    (p : Queue.Priority) (st : System * Plan) (step : ProcessingStep) : System * Plan :=
  fold_left (plan_triple step dataset revision p)
            (reachable graph (cache st.1) dataset revision step) st.

(** Modelled from the spec (section 4.2): one pass of the planner over the
    graph, in topological order. *)
Definition plan (graph : ProcessingGraph) (dataset revision : string)
    (p : Queue.Priority) (sys : System) : System * Plan :=
  fold_left (plan_step graph dataset revision p) graph (sys, empty_plan).

End planner.

(** *** Bookkeeping for the proofs about a pass *)

(** The jobs of a list that have a given unique key. *)
Definition with_key (key : Queue.JobKey) (jobs : list Queue.Job) : list Queue.Job :=
  filter (fun job => Queue.unique_key job = key) jobs.

(** [grows P st st']: from [st] to [st'] the cache only lost entries, and
    the same list of new jobs, which satisfies [P] with respect to the queue
    of [st], was appended to the queue and to the report. *)
Definition grows (P : list Queue.Job -> list Queue.Job -> Prop) (st st' : System * Plan)
  : Prop :=
  cache st'.1 ⊆ cache st.1 /\
  exists new,
    queue st'.1 = queue st.1 ++ new /\
    jobs_created st'.2 = jobs_created st.2 ++ new /\
    P (queue st.1) new.

(** The properties of new jobs that survive the composition of two
    passes. *)
Definition composable (P : list Queue.Job -> list Queue.Job -> Prop) : Prop :=
  (forall q, P q []) /\
  (forall q new new', P q new -> P (q ++ new) new' -> P q (new ++ new')).

(** At most one new job has the key, a WAITING one at priority [p], and
    only if the queue had none. *)
Definition at_most_one (key : Queue.JobKey) (p : Queue.Priority)
    (q new : list Queue.Job) : Prop :=
  with_key key new = [] \/
  (with_key key q = [] /\ with_key key new = [Queue.waiting_job key p]).

(** No new job has the type [n]. *)
Definition none_of_type (n : string) (q new : list Queue.Job) : Prop :=
  Forall (fun job => Queue.type job <> n) new.

End State.

(** ** worker.job_manager: the life cycle of one job *)
Module Manager.
Import Cache Graph State.

(** [JobInfo], as test_job_manager.py builds it, with [params] flattened. *)
Record JobInfo : Type := {
  job_id : string;
  type : string;
  dataset : string;
  config : option string;
  split : option string;
  priority : Queue.Priority;
}.

(** A job runner: what its class declares ([get_job_type],
    [get_job_runner_version], [get_parallel_job_runner]), the step it is
    bound to, and its [compute], which reads the cache. *)
Record JobRunner : Type := {
  get_job_type : string;
  get_job_runner_version : Z;
  get_parallel_job_runner : option JobRunnerBase.JobRunnerInfo;
  processing_step : ProcessingStep;
  compute : Store -> outcome json;
}.

Record JobManager : Type := {
  job_info : JobInfo;
  job_runner : JobRunner;
  processing_graph : ProcessingGraph;
}.

(** Modelled from the spec: the constructor of the manager is not part of
    the sources at hand; the tests expect a ValueError from it.  The job's
    declared type and the job type of the step bound to the runner must both
    be the job type the runner processes.  (A step has no owner in the data
    model, so there is nothing more to compare.) *)
Definition JobManager_init (info : JobInfo) (runner : JobRunner) (graph : ProcessingGraph)
  : outcome JobManager :=
  let job_type := get_job_type runner in
  if negb (String.eqb (Graph.job_type (processing_step runner)) job_type) then
    Raise (ValueError ("The processing step's job type is "
                       +:+ Graph.job_type (processing_step runner)
                       +:+ ", but the job manager only processes " +:+ job_type))
  else if negb (String.eqb (type info) job_type) then
    Raise (ValueError ("The submitted job type is " +:+ type info
                       +:+ ", but the job manager only processes " +:+ job_type))
  else
    Return {| job_info := info; job_runner := runner; processing_graph := graph |}.

(** [str(err)] and [type(err).__name__], for the exceptions modelled. *)
Definition str (e : exn) : string :=
  match e with
  | ConnectionError m | TypeError m | ValueError m | IndexError m
  | RuntimeError m _ | OtherException _ _ m | CustomError m _ _ _ _ => m
  | KeyError k => "'" +:+ k +:+ "'"
  | DoesNotExist => ""
  end.

Definition class_name (e : exn) : string :=
  match e with
  | ConnectionError _ => "ConnectionError"
  | TypeError _ => "TypeError"
  | ValueError _ => "ValueError"
  | KeyError _ => "KeyError"
  | IndexError _ => "IndexError"
  | RuntimeError _ _ => "RuntimeError"
  | DoesNotExist => "DoesNotExist"
  | CustomError _ _ code _ _ => code
  | OtherException name _ _ => name
  end.

(** Modelled from the spec (section 7): the structured error stored for an
    exception, a [CustomError] as it is, anything else wrapped as an
    unexpected error. *)
Definition to_custom (err : exn) : exn :=
  match err with
  | CustomError _ _ _ _ _ => err
  | _ => CustomError (str err) HTTP_INTERNAL_SERVER_ERROR "UnexpectedError" (Some err) false
  end.

(** Modelled from the spec: the dedicated crashed error, with the status
    and the code asserted by test_job_runner_set_crashed. *)
Definition JobManagerCrashedError (message : string) : exn :=
  CustomError message HTTP_NOT_IMPLEMENTED "JobManagerCrashedError" None false.

(** Modelled from the spec (section 4.4): the ways [process] ends. *)
Inductive Exit : Type :=
| Succeeded
| DatasetNotFound (e : exn)
| AlreadyComputed (e : exn)
| Failed (e : exn).

Definition succeeded (x : Exit) : bool :=
  match x with Succeeded => true | _ => false end.

(** The response of the administrative backfill route. *)
Inductive Response : Type :=
| OkResponse (tasks : Plan)
| ErrorResponse (e : exn).

Section manager.
Variable configs_of : json -> list string.
Variable splits_of : json -> list string.
Variable non_retryable : option string -> bool.
(** The revision resolver: [get_dataset_git_revision(dataset)], which
    raises a DatasetError when the dataset is not found upstream. *)
Variable get_dataset_git_revision : string -> outcome string.
(** The traceback lines recorded for a cause. *)
Variable cause_traceback : exn -> list string.

(** Modelled from the spec: the bodies of a structured error, with the keys
    that test_previous_step_error expects from [as_response_without_cause],
    [as_response_with_cause] and [as_response]. *)
Definition as_response_without_cause (message : string) : json :=
  JDict [("error", JStr message)].

Definition as_response_with_cause (message : string) (cause : option exn) : json :=
  match cause with
  | None => JDict [("error", JStr message)]
  | Some c =>
      JDict [("error", JStr message);
             ("cause_exception", JStr (class_name c));
             ("cause_message", JStr (str c));
             ("cause_traceback", JList (map JStr (cause_traceback c)))]
  end.

Definition as_response (message : string) (cause : option exn) (disclose_cause : bool) : json :=
  if disclose_cause then as_response_with_cause message cause
  else as_response_without_cause message.

(** Modelled from the spec (section 4.4, step 4): the error entry written
    for a structured error. *)
Definition error_entry (e : exn) (version : Z) (revision : option string) : CacheEntry :=
  match e with
  | CustomError message status_code code cause disclose_cause =>
      {| content := as_response message cause disclose_cause;
         http_status := status_code;
         error_code := Some code;
         details := Some (as_response_with_cause message cause);
         Cache.job_runner_version := Some version;
         dataset_git_revision := revision;
         progress := None |}
  | _ =>
      {| content := as_response_without_cause (str e);
         http_status := HTTP_INTERNAL_SERVER_ERROR;
         error_code := Some "UnexpectedError";
         details := Some (as_response_with_cause (str e) None);
         Cache.job_runner_version := Some version;
         dataset_git_revision := revision;
         progress := None |}
  end.

(** Modelled from the spec (section 4.4, step 4): the entry committed on
    success. *)
Definition ok_entry (payload : json) (version : Z) (revision : string) : CacheEntry :=
  {| content := payload;
     http_status := HTTP_OK;
     error_code := None;
     details := None;
     Cache.job_runner_version := Some version;
     dataset_git_revision := Some revision;
     progress := Some 1%Qc |}.

(** Modelled from the spec (section 4.4, step 4): the upsert under the
    job's key. *)
Definition commit (m : JobManager) (e : CacheEntry) (sys : System) : System :=
  {| cache := upsert_response (cache_kind (processing_step (job_runner m)))
                (dataset (job_info m)) (config (job_info m)) (split (job_info m))
                e (cache sys);
     queue := queue sys |}.

(** Modelled from the spec (section 4.4, steps 2 to 4) and from the tests:
    [JobManager.process] is not part of the sources at hand.  A dataset that
    cannot be resolved upstream makes it give up without touching the cache,
    as test_doesnotexist requires; the parallel-step guard and a
    ResponseAlreadyComputedError raised by [compute] itself exit without
    writing; any other error of [compute] is committed as an error entry. *)
Definition process_exit (m : JobManager) (sys : System) : Exit * System :=
  let info := job_info m in
  let runner := job_runner m in
  match get_dataset_git_revision (dataset info) with
  | Raise e => (DatasetNotFound e, sys)
  | Return revision =>
      match
        match get_parallel_job_runner runner with
        | Some parallel =>
            JobRunnerBase.raise_if_parallel_response_exists (cache sys)
              (dataset info) (config info) (split info) (Some revision)
              (JobRunnerBase.job_type parallel) (JobRunnerBase.job_runner_version parallel)
        | None => Return tt
        end
      with
      | Raise e => (AlreadyComputed e, sys)
      | Return _ =>
          match compute runner (cache sys) with
          | Return payload =>
              (Succeeded,
               commit m (ok_entry payload (get_job_runner_version runner) revision) sys)
          | Raise err =>
              let e := to_custom err in
              if bool_decide (code_of e = Some "ResponseAlreadyComputedError")
              then (AlreadyComputed e, sys)
              else (Failed e,
                    commit m (error_entry e (get_job_runner_version runner) (Some revision))
                      sys)
          end
      end
  end.

(** [JobManager.process() -> bool] *)
Definition process (m : JobManager) (sys : System) : bool * System :=
  (succeeded (process_exit m sys).1, (process_exit m sys).2).

(** Modelled from the spec (section 4.4, step 6): [JobManager.set_crashed]
    is not part of the sources at hand.  It commits an error entry with the
    crashed code under the job's key; status, code and bodies are those
    asserted by test_job_runner_set_crashed. *)
Definition set_crashed (m : JobManager) (message : string) (sys : System) : System :=
  commit m
    (error_entry (JobManagerCrashedError message)
       (get_job_runner_version (job_runner m))
       (match get_dataset_git_revision (dataset (job_info m)) with
        | Return revision => Some revision
        | Raise _ => None
        end))
    sys.

(** Modelled from the spec (section 4.2): [backfill(dataset, priority)]
    resolves the revision, which may fail, and runs one pass of the
    planner. *)
Definition backfill (graph : ProcessingGraph) (dataset : string) (p : Queue.Priority)
    (sys : System) : outcome Plan * System :=
  match get_dataset_git_revision dataset with
  | Raise e => (Raise e, sys)
  | Return revision =>
      let r := plan configs_of splits_of non_retryable graph dataset revision p sys in
      (Return r.2, r.1)
  end.

(** Modelled from the spec (section 4.4, step 5) and from test_backfill:
    [JobManager.run] processes the job and, on success, runs the planner for
    the dataset at the priority of the job.  The pass covers the whole
    graph: the test expects a job for a root step that the completed step
    does not trigger. *)
Definition run (m : JobManager) (sys : System) : bool * Plan * System :=
  let r := process m sys in
  if r.1 then
    match backfill (processing_graph m) (dataset (job_info m)) (priority (job_info m)) r.2 with
    | (Return tasks, sys') => (true, tasks, sys')
    | (Raise _, sys') => (true, empty_plan, sys')
    end
  else (false, empty_plan, r.2).

(** Modelled from the spec: building the manager for a job and running it,
    as a worker does. *)
Definition construct_and_run (info : JobInfo) (runner : JobRunner) (graph : ProcessingGraph)
    (sys : System) : outcome (bool * Plan) * System :=
  match JobManager_init info runner graph with
  | Raise e => (Raise e, sys)
  | Return m => (Return (run m sys).1, (run m sys).2)
  end.

(** Helpers of admin.utils that the route imports. *)
Variable are_valid_parameters : list (option string) -> bool.
Variable MissingRequiredParameterError : string -> exn.
Variable UnexpectedError : string -> exn -> exn.
(** [isinstance(e, (DatasetError, AdminCustomError))] *)
Variable is_DatasetError_or_AdminCustomError : exn -> bool.
(** [DatasetState(dataset, processing_graph, revision)], its [backfill()]
    and [plan.as_response()]: the three calls of libcommon.state that the
    route makes once the revision is known.  They act on the cache and the
    queue and may fail at any point, leaving what they have written. *)
Variable dataset_state_backfill :
  ProcessingGraph -> string -> string -> System -> outcome Plan * System.

(** The body of the [try] block of the route.  The request carries the
    [dataset] query parameter; [auth_check] is the outcome of the
    authentication check. *)
Definition dataset_backfill_body (graph : ProcessingGraph)
    (dataset : option string) (auth_check : outcome unit) (sys : System)
  : outcome Plan * System :=
  if negb (are_valid_parameters [dataset])
     || match dataset with None | Some EmptyString => true | _ => false end
  then (Raise (MissingRequiredParameterError "Parameter 'dataset' is required"), sys)
  else
    match dataset with
    | None => (Raise (MissingRequiredParameterError "Parameter 'dataset' is required"), sys)
    | Some dataset =>
        match auth_check with
        | Raise e => (Raise e, sys)
        | Return _ =>
            match get_dataset_git_revision dataset with
            | Raise e => (Raise e, sys)
            | Return dataset_git_revision =>
                dataset_state_backfill graph dataset dataset_git_revision sys
            end
        end
    end.

(** services/admin/src/admin/routes/dataset_backfill.py: the route, with
    its two handlers, [except (DatasetError, AdminCustomError)] and
    [except Exception]; an exception that neither catches leaves the route. *)
Definition dataset_backfill_endpoint (graph : ProcessingGraph)
    (dataset : option string) (auth_check : outcome unit) (sys : System)
  : outcome Response * System :=
  match dataset_backfill_body graph dataset auth_check sys with
  | (Return tasks, sys') => (Return (OkResponse tasks), sys')
  | (Raise e, sys') =>
      if is_DatasetError_or_AdminCustomError e then (Return (ErrorResponse e), sys')
      else if is_Exception e then
        (Return (ErrorResponse (UnexpectedError "Unexpected error." e)), sys')
      else (Raise e, sys')
  end.

(** Modelled from the spec (section 4.2): the planner of the specification
    in the place of the three calls of libcommon.state, at a given
    priority. *)
Definition planner_backfill (p : Queue.Priority) (graph : ProcessingGraph)
    (dataset revision : string) (sys : System) : outcome Plan * System :=
  let r := plan configs_of splits_of non_retryable graph dataset revision p sys in
  (Return r.2, r.1).

End manager.

End Manager.

(** ** Concrete inputs used by the examples of Part II *)
Module Scenarios.
Import Cache FirstRows.

Definition w0 : World := {| slept := []; hub_calls := 0 |}.

Definition one_row : Row := [("a", JInt 1); ("b", JInt 2); ("c", JStr "x")].

(** A Hub on which every split streams the same three rows. *)
Definition hub_three_rows
    (n : nat) (path name split : string) (streaming : bool) (token : option string)
  : outcome DatasetObj :=
  let stream := {| items := [one_row; one_row; one_row]; failure := None |} in
  if streaming then Return (IterableDataset stream (Return ResolvedOther))
  else Return (Dataset stream).

Definition three_columns : Features :=
  [("a", JStr "int64"); ("b", JStr "int64"); ("c", JStr "string")].

Definition info_three_columns
    (n : nat) (path config_name : string) (token : option string) : outcome DatasetInfo :=
  Return {| info_features := Some three_columns; size_in_bytes := Some 1000%Z |}.

Definition features_list_of (features : option Features) : outcome (list json) :=
  match features with
  | Some fs => Return (map (fun kv => JDict [("name", JStr kv.1); ("type", kv.2)]) fs)
  | None =>
      Raise (OtherException "AttributeError" AttributeError_mro
               "'NoneType' object has no attribute 'items'")
  end.

(** A size that grows with the number of columns. *)
Definition json_size_of (r : SplitFirstRowsResponse) : outcome Z :=
  Return (100 + 10 * Z.of_nat (length (r_features r)))%Z.

Definition cell_value_of (dataset config split : string) (row_idx : nat) (cell : json)
    (featureName : string) (fieldType : json) (assets_base_url assets_directory : string)
  : outcome json := Return cell.

Definition row_items_of (rows : list Row) (min_cell_bytes rows_max_bytes rows_min_number : Z)
  : outcome (list json) := Return (map JDict rows).

Definition config_not_found (message : string) (cause : option exn) : exn :=
  CustomError message HTTP_NOT_FOUND "ConfigNotFoundError" cause false.
Definition split_not_found (message : string) (cause : option exn) : exn :=
  CustomError message HTTP_NOT_FOUND "SplitNotFoundError" cause false.

Definition ok_entry (content : json) : CacheEntry :=
  {| content := content; http_status := HTTP_OK; error_code := None; details := None;
     job_runner_version := Some 1%Z; dataset_git_revision := Some "rev";
     progress := Some 1%Qc |}.

(** A cache that knows the split "train" of ("dataset", "config"). *)
Definition store_with_splits : Store :=
  upsert_response "/split-names-from-streaming" "dataset" (Some "config") None
    (ok_entry (JDict [("splits",
       JList [JDict [("dataset", JStr "dataset"); ("config", JStr "config");
                     ("split", JStr "train")]])]))
    ∅.

(** [compute_first_rows_response] on that world, with the two ceilings left
    open. *)
Definition first_rows_of (rows_max_bytes columns_max_number : Z) : M SplitFirstRowsResponse :=
  compute_first_rows_response hub_three_rows info_three_columns features_list_of
    json_size_of cell_value_of row_items_of config_not_found split_not_found
    store_with_splits
    "dataset" "config" "train" "http://localhost/assets" None
    0%Z rows_max_bytes 2%Z 1%Z columns_max_number "/assets" None.

(** A collection with one response of the old kind. *)
Definition responses_before : list Migration.Document :=
  [ {| Migration.kind := "/dataset-info";
       Migration.fields := {["dataset" := JStr "glue"; "http_status" := JInt 200]} |};
    {| Migration.kind := "/splits";
       Migration.fields := {["dataset" := JStr "glue"]} |} ].

(** A graph with two steps required by the viewer, and one with none. *)
Definition step_named (n : string) (required : bool) : Graph.ProcessingStep :=
  {| Graph.name := n; Graph.input_type := Graph.dataset_level; Graph.triggered_by := [];
     Graph.job_runner_version := 1%Z; Graph.parallel := None;
     Graph.required_by_dataset_viewer := required |}.

Definition graph_two_required : Graph.ProcessingGraph :=
  [step_named "S1" true; step_named "S2" true; step_named "S3" false].

Definition graph_none_required : Graph.ProcessingGraph :=
  [step_named "dummy" false].

(** A cache in which "glue" is valid for S1 and S2, "squad" for S1 only. *)
Definition store_valid : Store :=
  upsert_response "S1" "glue" None None (ok_entry JNull)
    (upsert_response "S2" "glue" None None (ok_entry JNull)
       (upsert_response "S1" "squad" None None (ok_entry JNull) ∅)).

(** The graph of test_backfill. *)
Definition step_of (n : string) (level : Graph.InputType) (parents : list string)
  : Graph.ProcessingStep :=
  {| Graph.name := n; Graph.input_type := level; Graph.triggered_by := parents;
     Graph.job_runner_version := 1%Z; Graph.parallel := None;
     Graph.required_by_dataset_viewer := false |}.

Definition graph_backfill : Graph.ProcessingGraph :=
  [ step_of "dummy" Graph.dataset_level [];
    step_of "dataset-child" Graph.dataset_level ["dummy"];
    step_of "config-child" Graph.config_level ["dummy"];
    step_of "dataset-unrelated" Graph.dataset_level [] ].

(** The graph of test_doesnotexist. *)
Definition graph_doesnotexist : Graph.ProcessingGraph :=
  [ step_of "dataset-level" Graph.dataset_level [];
    step_of "dummy" Graph.dataset_level ["dataset-level"] ].

(** [DummyJobRunner], bound to a step. *)
Definition DummyJobRunner (step : Graph.ProcessingStep)
    (parallel : option JobRunnerBase.JobRunnerInfo) : Manager.JobRunner :=
  {| Manager.get_job_type := "dummy";
     Manager.get_job_runner_version := 1%Z;
     Manager.get_parallel_job_runner := parallel;
     Manager.processing_step := step;
     Manager.compute := fun _ => Return (JDict [("key", JStr "value")]) |}.

Definition job_info_of (job_type dataset : string) (config split : option string)
    (p : Queue.Priority) : Manager.JobInfo :=
  {| Manager.job_id := "job_id"; Manager.type := job_type; Manager.dataset := dataset;
     Manager.config := config; Manager.split := split; Manager.priority := p |}.

Definition manager_of (info : Manager.JobInfo) (runner : Manager.JobRunner)
    (graph : Graph.ProcessingGraph) : Manager.JobManager :=
  {| Manager.job_info := info; Manager.job_runner := runner;
     Manager.processing_graph := graph |}.

Definition dataset_not_found : exn :=
  CustomError "The dataset does not exist on the Hub." HTTP_NOT_FOUND
    "DatasetNotFoundError" None false.

(** An upstream that knows every dataset but "doesnotexist". *)
Definition revision_of (current : string) (dataset : string) : outcome string :=
  if String.eqb dataset "doesnotexist" then Raise dataset_not_found else Return current.

(** Payloads enumerate configs as [{"config_names": [{"config": c}, ...]}]
    and splits as [{"splits": [{"split": s}, ...]}]. *)
Definition names_under (list_key item_key : string) (payload : json) : list string :=
  match getitem payload list_key with
  | Return (JList items) =>
      omap (fun item => match getitem item item_key with
                        | Return (JStr n) => Some n
                        | _ => None
                        end) items
  | _ => []
  end.

Definition configs_of : json -> list string := names_under "config_names" "config".
Definition splits_of : json -> list string := names_under "splits" "split".

(** No error code is exempt from retries. *)
Definition retry_all (code : option string) : bool := false.

Definition no_traceback (e : exn) : list string := [].

Definition empty_system : State.System := {| State.cache := ∅; State.queue := [] |}.


(** The graph of the fan-out example of the specification, and a cache in
    which "list-configs" has enumerated the configs "a" and "b". *)
Definition graph_fan_out : Graph.ProcessingGraph :=
  [ step_of "root" Graph.dataset_level [];
    step_of "list-configs" Graph.dataset_level ["root"];
    step_of "per-config" Graph.config_level ["list-configs"] ].

Definition system_with_configs : State.System :=
  {| State.cache :=
       upsert_response "root" "dataset" None None (ok_entry JNull)
         (upsert_response "list-configs" "dataset" None None
            (ok_entry (JDict [("config_names",
               JList [JDict [("dataset", JStr "dataset"); ("config", JStr "a")];
                      JDict [("dataset", JStr "dataset"); ("config", JStr "b")]])]))
            ∅);
     State.queue := [] |}.

(** The managers of the tests. *)
Definition manager_backfill (p : Queue.Priority) : Manager.JobManager :=
  manager_of (job_info_of "dummy" "dataset" None None p)
    (DummyJobRunner (step_of "dummy" Graph.dataset_level []) None) graph_backfill.

Definition manager_doesnotexist : Manager.JobManager :=
  manager_of (job_info_of "dummy" "doesnotexist" (Some "default") (Some "train") Queue.NORMAL)
    (DummyJobRunner (step_of "dummy" Graph.dataset_level ["dataset-level"]) None)
    graph_doesnotexist.


End Scenarios.

(** ** Measures and shapes used to state further properties *)
Module Measures.
Import FirstRows.

(** The sum of a list of durations. *)
Definition total (durations : list Z) : Z := foldr Z.add 0%Z durations.

(** [isinstance(e, CustomError)]: a structured error. *)
Definition is_custom (e : exn) : bool :=
  match e with CustomError _ _ _ _ _ => true | _ => false end.

(** [within n t m]: a run of [m] makes at most [n] calls to the Hub and
    sleeps at most [t] seconds in all, and it returns. *)
Definition within {A} (n : nat) (t : Z) (m : M A) : Prop :=
  forall w, exists r w',
    m w = Some (r, w') /\
    (hub_calls w <= hub_calls w' <= hub_calls w + n)%nat /\
    (total (slept w) <= total (slept w') <= total (slept w) + t)%Z.

(** The object [load_dataset] must return in the given mode, holding
    [stream]. *)
Definition of_mode (streaming : bool) (ds : DatasetObj) (stream : RowStream) : Prop :=
  match ds with
  | IterableDataset rows _ => streaming = true /\ rows = stream
  | Dataset rows => streaming = false /\ rows = stream
  | OtherDatasetObj => False
  end.

(** The message of the TypeError for the given mode. *)
Definition wrong_class_message (streaming : bool) : string :=
  if streaming then "load_dataset should return an IterableDataset in streaming mode"
  else "load_dataset should return a Dataset in normal mode".

Definition wrong_class (streaming : bool) (ds : DatasetObj) : bool :=
  match ds with
  | IterableDataset _ _ => negb streaming
  | Dataset _ => streaming
  | OtherDatasetObj => true
  end.

(** The world after one attempt of [get_rows]: one sleep of a second, one
    call to the Hub. *)
Definition after_one_attempt (w : World) : World :=
  {| slept := slept w ++ [1%Z]; hub_calls := S (hub_calls w) |}.

End Measures.

(** ** Situations of [compute_first_rows_response], named for the statements *)
Module FirstRowsStages.
Import Cache FirstRows.

Definition streaming_key (dataset config : string) : Key :=
  ("/split-names-from-streaming", dataset, Some config, None).
Definition dataset_info_key (dataset config : string) : Key :=
  ("/split-names-from-dataset-info", dataset, Some config, None).

(** The entry under [key], if any, has no usable ["splits"]. *)
Definition unusable (store : Store) (key : Key) : Prop :=
  forall e, store !! key = Some e -> exists err, getitem (content e) "splits" = Raise err.

(** The entry [e] under [key] holds the list [splits_content]. *)
Definition usable (store : Store) (key : Key) (e : CacheEntry) (splits_content : json) : Prop :=
  store !! key = Some e /\ getitem (content e) "splits" = Return splits_content.

(** The upstream response the function settles on: the one of the
    streaming kind when usable, else the one of the dataset-info kind. *)
Definition found_upstream (store : Store) (dataset config : string)
    (e : CacheEntry) (splits_content : json) : Prop :=
  usable store (streaming_key dataset config) e splits_content \/
  (unusable store (streaming_key dataset config) /\
   usable store (dataset_info_key dataset config) e splits_content).

(** Where an exception that [compute_first_rows_response] lets through
    comes from: it is a structured error, or it comes from one of the four
    computations the function does not guard, or it is not an instance of
    [Exception], so that no handler of the function catches it. *)
Definition let_through
    (to_features_list : option Features -> outcome (list json))
    (get_json_size : SplitFirstRowsResponse -> outcome Z)
    (create_truncated_row_items : list Row -> Z -> Z -> Z -> outcome (list json))
    (e : exn) : Prop :=
  Measures.is_custom e = true \/
  (exists splits_content, bind (iter_json splits_content) split_names = Raise e) \/
  (exists features, to_features_list features = Raise e) \/
  (exists response, get_json_size response = Raise e) \/
  (exists rows a b c, create_truncated_row_items rows a b c = Raise e) \/
  "Exception" ∉ mro e.

(** [raises P m]: every exception [m] raises satisfies [P]. *)
Definition raises {A} (P : exn -> Prop) (m : M A) : Prop :=
  forall w e w', m w = Some (Raise e, w') -> P e.

End FirstRowsStages.

(** ** More concrete inputs for the examples of Part II *)
Module MoreScenarios.
Import Cache FirstRows Scenarios.

(** A Hub that cannot find the files of the dataset. *)
Definition hub_down
    (n : nat) (path name split : string) (streaming : bool) (token : option string)
  : outcome DatasetObj :=
  Raise (OtherException "FileNotFoundError" FileNotFoundError_mro "no such file").

Definition broken_block : exn :=
  OtherException "ArrowInvalid"
    ["pyarrow.lib.ArrowInvalid"; "ValueError"; "pyarrow.lib.ArrowException"; "Exception";
     "BaseException"; "object"]
    "bad block".

(** A Hub whose splits yield two rows and then break. *)
Definition hub_broken
    (n : nat) (path name split : string) (streaming : bool) (token : option string)
  : outcome DatasetObj :=
  let stream := {| items := [one_row; one_row]; failure := Some broken_block |} in
  if streaming then Return (IterableDataset stream (Return ResolvedOther))
  else Return (Dataset stream).

(** A Hub that returns a dictionary of splits instead of a split. *)
Definition hub_wrong_class
    (n : nat) (path name split : string) (streaming : bool) (token : option string)
  : outcome DatasetObj :=
  Return OtherDatasetObj.

Definition info_unknown_size
    (n : nat) (path config_name : string) (token : option string) : outcome DatasetInfo :=
  Return {| info_features := Some three_columns; size_in_bytes := None |}.

Definition train_splits : json :=
  JDict [("splits",
     JList [JDict [("dataset", JStr "dataset"); ("config", JStr "config");
                   ("split", JStr "train")]])].

Definition error_entry_with (content : json) : CacheEntry :=
  {| content := content; http_status := HTTP_INTERNAL_SERVER_ERROR;
     error_code := Some "SplitNamesFromStreamingError"; details := None;
     job_runner_version := Some 1%Z; dataset_git_revision := Some "rev";
     progress := None |}.

(** The cache of [store_with_splits], with a response of the dataset-info
    kind as well. *)
Definition store_both : Store :=
  upsert_response "/split-names-from-dataset-info" "dataset" (Some "config") None
    (ok_entry (JDict [("splits", JList [])])) store_with_splits.

(** A response of the streaming kind that lists the splits but is an
    error. *)
Definition store_error_entry : Store :=
  upsert_response "/split-names-from-streaming" "dataset" (Some "config") None
    (error_entry_with train_splits) ∅.

(** [compute_first_rows_response] for ("dataset", "config", [split]), with
    a cap of two rows. *)
Definition response_on
    (hub : nat -> string -> string -> string -> bool -> option string -> outcome DatasetObj)
    (info : nat -> string -> string -> option string -> outcome DatasetInfo)
    (store : Store) (split : string) (rows_max_bytes columns_max_number : Z)
  : M SplitFirstRowsResponse :=
  compute_first_rows_response hub info features_list_of json_size_of cell_value_of
    row_items_of config_not_found split_not_found store
    "dataset" "config" split "http://localhost/assets" None
    0%Z rows_max_bytes 2%Z 1%Z columns_max_number "/assets" None.

End MoreScenarios.

(** ** worker/job_runners/config/split_names_from_streaming.py *)
Module SplitNames.

Definition SplitNamesFromStreamingJobRunnerError
    (message : string) (status_code : Z) (code : string)
    (cause : option exn) (disclose_cause : bool) : exn :=
  CustomError message status_code code cause disclose_cause.

Definition SplitNamesFromStreamingError message cause :=
  SplitNamesFromStreamingJobRunnerError message HTTP_INTERNAL_SERVER_ERROR
    "SplitNamesFromStreamingError" cause true.
Definition EmptyDatasetError message cause :=
  SplitNamesFromStreamingJobRunnerError message HTTP_INTERNAL_SERVER_ERROR
    "EmptyDatasetError" cause true.

(** [SplitItem] and [SplitsList] of worker.utils, as the function builds
    them. *)
Record SplitItem : Type := {
  dataset : string;
  config : string;
  split : string;
}.

Record SplitsList : Type := { splits : list SplitItem }.

(** The dictionaries behind the two typed dicts: what the cache stores as
    the content of the response. *)
Definition item_content (item : SplitItem) : json :=
  JDict [("dataset", JStr (dataset item)); ("config", JStr (config item));
         ("split", JStr (split item))].

Definition content_of (response : SplitsList) : json :=
  JDict [("splits", JList (map item_content (splits response)))].

Section hub.
(** [datasets.get_dataset_split_names(path, config_name, use_auth_token)] *)
Variable get_dataset_split_names : string -> string -> option string -> outcome (list string).
(** [isinstance(err, datasets.data_files.EmptyDatasetError)] *)
Variable is_EmptyDatasetError : exn -> bool.

Definition compute_split_names_from_streaming_response
    (dataset config : string) (hf_token : option string) : outcome SplitsList :=
  let use_auth_token := hf_token in
  match get_dataset_split_names dataset config use_auth_token with
  | Return names =>
      Return {| splits := map (fun split =>
                  {| dataset := dataset; config := config; split := split |}) names |}
  | Raise err =>
      if is_EmptyDatasetError err then
        Raise (EmptyDatasetError "The dataset is empty." (Some err))
      else if is_Exception err then
        Raise (SplitNamesFromStreamingError
                 ("Cannot get the split names for the config '" +:+ config
                  +:+ "' of the dataset.") (Some err))
      else Raise err
  end.

End hub.

(** [SplitNamesFromStreamingJobRunner]: what the class declares. *)
Definition get_job_type : string := "/split-names-from-streaming".

Definition get_parallel_job_runner
    (PROCESSING_STEP_SPLIT_NAMES_FROM_DATASET_INFO_VERSION : Z) : JobRunnerBase.JobRunnerInfo :=
  {| JobRunnerBase.job_runner_version := PROCESSING_STEP_SPLIT_NAMES_FROM_DATASET_INFO_VERSION;
     JobRunnerBase.job_type := "/split-names-from-dataset-info" |}.

End SplitNames.

(** ** datasets_preview_backend/models/config.py *)
Module Config.

(** A Python value received where a string is expected. *)
Inductive pyvalue : Type :=
| PyStr (s : string)
| PyOther (v : json).

Section models.
(** [models.split.Split] and [models.info.Info] *)
Variables (Split Info : Type).

(** [class Config(TypedDict)] *)
Record Config : Type := {
  config_name : string;
  splits : list Split;
  info : Info;
}.

(** The two error classes of the package and the default config name. *)
Variable Status400Error : string -> option exn -> exn.
Variable Status404Error : string -> option exn -> exn.
Variable DEFAULT_CONFIG_NAME : string.
(** [datasets.get_dataset_config_names(dataset_name, download_mode)],
    [get_info] and [get_splits]. *)
Variable get_dataset_config_names : string -> outcome (list string).
Variable get_info : string -> string -> outcome Info.
Variable get_splits : string -> string -> Info -> outcome (list Split).
(** [isinstance(err, FileNotFoundError)] *)
Variable is_FileNotFoundError : exn -> bool.

Definition filter_configs (configs : list Config) (name : option pyvalue)
  : outcome (list Config) :=
  match name with
  | None => Return configs
  | Some (PyOther _) => Raise (TypeError "config argument should be a string")
  | Some (PyStr n) =>
      let configs := filter (fun config => config_name config = n) configs in
      match configs with
      | [] => Raise (Status404Error "config not found in dataset" None)
      | _ => Return configs
      end
  end.

Definition get_config (dataset_name : string) (name : pyvalue) : outcome Config :=
  match name with
  | PyOther _ => Raise (TypeError "config_name argument should be a string")
  | PyStr n =>
      bind (get_info dataset_name n) (fun info =>
      bind (get_splits dataset_name n info) (fun splits =>
      Return {| config_name := n; splits := splits; info := info |}))
  end.

Definition get_config_names (dataset_name : string) : outcome (list string) :=
  match get_dataset_config_names dataset_name with
  | Return config_names =>
      Return (match config_names with [] => [DEFAULT_CONFIG_NAME] | _ => config_names end)
  | Raise err =>
      if is_FileNotFoundError err then
        Raise (Status404Error "The dataset could not be found." (Some err))
      else if is_Exception err then
        Raise (Status400Error "The config names could not be parsed from the dataset."
                 (Some err))
      else Raise err
  end.

(** [[get_config(dataset_name, n) for n in names]] *)
Fixpoint get_configs_of (dataset_name : string) (names : list string) : outcome (list Config) :=
  match names with
  | [] => Return []
  | n :: rest =>
      bind (get_config dataset_name (PyStr n)) (fun config =>
      bind (get_configs_of dataset_name rest) (fun configs =>
      Return (config :: configs)))
  end.

Definition get_configs (dataset_name : string) : outcome (list Config) :=
  bind (get_config_names dataset_name) (get_configs_of dataset_name).

End models.

End Config.


(** ** Concrete inputs for the split names and the config models *)
Module ModelScenarios.
Import Scenarios.

(** A Hub that lists two splits for every config. *)
Definition hub_split_names (path config_name : string) (token : option string)
  : outcome (list string) :=
  Return ["train"; "validation"].

Definition never_empty (err : exn) : bool := false.

(** A Hub that has no info for any config. *)
Definition info_missing
    (n : nat) (path config_name : string) (token : option string)
  : outcome FirstRows.DatasetInfo :=
  Raise (OtherException "FileNotFoundError" FileNotFoundError_mro "no such file").

(** The cache after the response for these two splits has been stored. *)
Definition store_two_splits : Cache.Store :=
  Cache.upsert_response "/split-names-from-streaming" "dataset" (Some "config") None
    (ok_entry (SplitNames.content_of
       {| SplitNames.splits :=
            [ {| SplitNames.dataset := "dataset"; SplitNames.config := "config";
                 SplitNames.split := "train" |};
              {| SplitNames.dataset := "dataset"; SplitNames.config := "config";
                 SplitNames.split := "validation" |} ] |}))
    ∅.

(** The exception that the datasets library raises in offline mode, a
    subclass of ConnectionError, and a Hub that always raises it. *)
Definition offline_mode_is_enabled : exn :=
  OtherException "OfflineModeIsEnabled"
    ["datasets.utils.file_utils.OfflineModeIsEnabled"; "ConnectionError"; "OSError";
     "Exception"; "BaseException"; "object"]
    "Offline mode is enabled.".

Definition hub_offline
    (n : nat) (path name split : string) (streaming : bool) (token : option string)
  : outcome FirstRows.DatasetObj :=
  Raise offline_mode_is_enabled.

(** An interruption, which is not an instance of [Exception], and a Hub
    that is interrupted at every call. *)
Definition keyboard_interrupt : exn :=
  OtherException "KeyboardInterrupt" ["KeyboardInterrupt"; "BaseException"; "object"] "".

Definition hub_interrupted
    (n : nat) (path name split : string) (streaming : bool) (token : option string)
  : outcome FirstRows.DatasetObj :=
  Raise keyboard_interrupt.

(** A cache in which "root" has a valid, current entry (for the revision
    "rev") and "list-configs" has none. *)
Definition system_with_root : State.System :=
  {| State.cache := Cache.upsert_response "root" "dataset" None None (ok_entry JNull) ∅;
     State.queue := [] |}.

(** The helpers of the administrative route: every parameter is accepted
    when none is missing; the errors are structured errors, told apart by
    their code. *)
Definition parameters_given (parameters : list (option string)) : bool :=
  forallb (fun parameter => match parameter with Some _ => true | None => false end)
          parameters.
Definition missing_parameter (message : string) : exn :=
  CustomError message 422%Z "MissingRequiredParameter" None false.
Definition unexpected_error (message : string) (cause : exn) : exn :=
  CustomError message HTTP_INTERNAL_SERVER_ERROR "UnexpectedError" (Some cause) true.
Definition is_dataset_error (e : exn) : bool :=
  bool_decide (code_of e = Some "DatasetNotFoundError")
  || bool_decide (code_of e = Some "MissingRequiredParameter").

(** A dataset with the configs "en" and "fr"; the info of a config is the
    length of its name and its splits are "train" and "test". *)
Definition status_400 (message : string) (cause : option exn) : exn :=
  CustomError message 400%Z "Status400Error" cause true.
Definition status_404 (message : string) (cause : option exn) : exn :=
  CustomError message HTTP_NOT_FOUND "Status404Error" cause true.

Definition config_names_of (dataset_name : string) : outcome (list string) :=
  Return ["en"; "fr"].
Definition info_of (dataset_name config_name : string) : outcome nat :=
  Return (String.length config_name).
Definition splits_of_config (dataset_name config_name : string) (info : nat)
  : outcome (list string) :=
  Return ["train"; "test"].
Definition is_file_not_found (err : exn) : bool :=
  isinstance err "FileNotFoundError".

Definition two_configs : list (Config.Config string nat) :=
  [ {| Config.config_name := "en"; Config.splits := ["train"; "test"]; Config.info := 2 |};
    {| Config.config_name := "fr"; Config.splits := ["train"; "test"]; Config.info := 2 |} ].

(** The graph [graph_two_required] with its steps in the opposite order and
    a required step listed twice. *)
Definition graph_reordered : Graph.ProcessingGraph :=
  [step_named "S3" false; step_named "S2" true; step_named "S1" true; step_named "S2" true].

(** A graph in which only S1 is required. *)
Definition graph_one_required : Graph.ProcessingGraph :=
  [step_named "S1" true; step_named "S2" false].

(** A collection that already holds a document of the new kind. *)
Definition responses_mixed : list Migration.Document :=
  [ {| Migration.kind := "/dataset-info";
       Migration.fields := {["dataset" := JStr "glue"]} |};
    {| Migration.kind := "dataset-info";
       Migration.fields := {["dataset" := JStr "squad"]} |} ].

End ModelScenarios.
(* ===================================================================== *)
(** * Part II.  Theorems                                                  *)
(* ===================================================================== *)

Module RetrySpec.
Import Retry.

(** What [except ConnectionError] tests. *)
Lemma is_ConnectionError_true (e : exn) :
  is_ConnectionError e = true <-> "ConnectionError" ∈ mro e.
Proof. apply bool_decide_eq_true. Qed.

Lemma is_ConnectionError_false (e : exn) :
  is_ConnectionError e = false <-> "ConnectionError" ∉ mro e.
Proof. apply bool_decide_eq_false. Qed.

Section generic.
Context {St A : Type}.
Variable sleep : Z -> St -> St.
Variable func : St -> outcome A * St.

(** One unfolding of the loop below the cap. *)
Lemma loop_step fuel attempt last st d :
  SLEEPS !! attempt = Some d ->
  loop sleep func (S fuel) attempt last st =
    match func (sleep d st) with
    | (Return v, st2) => Some (Return v, st2)
    | (Raise err, st2) =>
        if is_ConnectionError err
        then loop sleep func fuel (S attempt) (Some err) st2
        else Some (Raise err, st2)
    end.
Proof.
  intros Hd. simpl.
  assert (Hlt : (attempt < MAX_ATTEMPTS)%nat).
  { apply lookup_lt_Some in Hd. exact Hd. }
  apply Nat.ltb_lt in Hlt. rewrite Hlt, Hd. reflexivity.
Qed.

(** The loop resumes after [n] failed attempts where it would have
    started with the counters set by hand. *)
Lemma loop_failed n st errs st1 :
  failed sleep func n st errs st1 ->
  forall fuel,
    loop sleep func (n + fuel) 0 None st =
    loop sleep func fuel n (last errs) st1.
Proof.
  induction 1 as [st|n st errs st1 d e st2 Hf IH Hd Hcall Hconn]; intros fuel.
  - reflexivity.
  - replace (S n + fuel)%nat with (n + S fuel)%nat by lia.
    rewrite IH, (loop_step _ _ _ _ d Hd), Hcall, (proj2 (is_ConnectionError_true e) Hconn).
    rewrite last_snoc. reflexivity.
Qed.

Lemma failed_le n st errs st1 :
  failed sleep func n st errs st1 -> (n <= MAX_ATTEMPTS)%nat.
Proof.
  destruct 1 as [|n ? ? ? d ? ? _ Hd _ _]; [lia|].
  apply lookup_lt_Some in Hd. exact Hd.
Qed.

(** The loop never exhausts its bound. *)
Lemma loop_total fuel attempt last st :
  (MAX_ATTEMPTS <= attempt + fuel)%nat ->
  exists r, loop sleep func fuel attempt last st = Some r.
Proof.
  revert attempt last st.
  induction fuel as [|fuel IH]; intros attempt last st Hle.
  - simpl. destruct (Nat.ltb_spec attempt MAX_ATTEMPTS); [lia|eauto].
  - simpl. destruct (Nat.ltb_spec attempt MAX_ATTEMPTS); [|eauto].
    destruct (SLEEPS !! attempt); [|eauto].
    destruct (func _) as [[v|e] st2]; [eauto|].
    destruct (is_ConnectionError e); [|eauto].
    apply IH. lia.
Qed.

(** From [k] failed attempts on, the decorated call ends in one of three
    ways. *)
Lemma decorator_cases_from (st0 : St) fuel :
  forall k errs stk,
    failed sleep func k st0 errs stk ->
    (k + fuel = MAX_ATTEMPTS)%nat ->
    exists n errs' st1,
      failed sleep func n st0 errs' st1 /\ (n <= MAX_ATTEMPTS)%nat /\
      ((exists d v st2,
          SLEEPS !! n = Some d /\ func (sleep d st1) = (Return v, st2) /\
          decorator sleep func st0 = Some (Return v, st2))
       \/ (exists d e st2,
          SLEEPS !! n = Some d /\ func (sleep d st1) = (Raise e, st2) /\
          ("ConnectionError" ∉ mro e) /\
          decorator sleep func st0 = Some (Raise e, st2))
       \/ (n = MAX_ATTEMPTS /\ exists e,
          last errs' = Some e /\ "ConnectionError" ∈ mro e /\
          decorator sleep func st0 =
            Some (Raise (RuntimeError "Give up after 5 attempts with ConnectionError"
                           (Some e)), st1))).
Proof.
  induction fuel as [|fuel IH]; intros k errs stk Hf Hk.
  - exists k, errs, stk. split; [exact Hf|]. split; [lia|].
    right; right. split; [lia|].
    assert (Hk5 : k = 5%nat) by (unfold MAX_ATTEMPTS in Hk; simpl in Hk; lia).
    subst k. inversion Hf as [|n ? errs0 st1 d e st2 Hf' Hd Hcall Hconn]; subst.
    exists e. rewrite last_snoc. split; [reflexivity|]. split; [exact Hconn|].
    unfold decorator.
    change MAX_ATTEMPTS with (5 + 0)%nat.
    rewrite (loop_failed _ _ _ _ Hf 0%nat), last_snoc. reflexivity.
  - assert (Hlt : (k < length SLEEPS)%nat) by (unfold MAX_ATTEMPTS in Hk; lia).
    apply lookup_lt_is_Some_2 in Hlt. destruct Hlt as [d Hd].
    assert (Hdec : decorator sleep func st0 =
                   loop sleep func (S fuel) k (last errs) stk).
    { unfold decorator. rewrite <- Hk. apply loop_failed. exact Hf. }
    rewrite (loop_step _ _ _ _ d Hd) in Hdec.
    destruct (func (sleep d stk)) as [[v|e] st2] eqn:Hcall.
    + exists k, errs, stk. split; [exact Hf|]. split; [lia|].
      left. exists d, v, st2. auto.
    + destruct (is_ConnectionError e) eqn:Hconn.
      * apply (IH (S k) (errs ++ [e]) st2); [|lia].
        apply is_ConnectionError_true in Hconn. econstructor; eauto.
      * exists k, errs, stk. split; [exact Hf|]. split; [lia|].
        apply is_ConnectionError_false in Hconn.
        right; left. exists d, e, st2. auto.
Qed.

(** If the observation [obs] records the sleeps and [func] leaves it
    alone, then after [n] failed attempts it has grown by the first [n]
    entries of the schedule. *)
Lemma failed_slept (obs : St -> list Z) (st0 : St) n errs st1 :
  (forall d st, obs (sleep d st) = obs st ++ [d]) ->
  (forall st r st', func st = (r, st') -> obs st' = obs st) ->
  failed sleep func n st0 errs st1 ->
  obs st1 = obs st0 ++ take n SLEEPS.
Proof.
  intros Hsleep Hfunc. induction 1 as [st|n st errs st1 d e st2 Hf IH Hd Hcall Hconn].
  - simpl. rewrite app_nil_r. reflexivity.
  - rewrite (Hfunc _ _ _ Hcall), Hsleep, IH.
    rewrite (take_S_r _ _ _ Hd), app_assoc. reflexivity.
Qed.
(** The failed attempts all raised instances of ConnectionError. *)
Lemma failed_errs n st errs st1 :
  failed sleep func n st errs st1 ->
  length errs = n /\ Forall (fun e => "ConnectionError" ∈ mro e) errs.
Proof.
  induction 1 as [st|n st errs st1 d e st2 Hf [IHl IHa] Hd Hcall Hconn].
  - split; [reflexivity|constructor].
  - split; [rewrite length_app; simpl; lia|].
    apply Forall_app. split; [exact IHa|]. constructor; [exact Hconn|constructor].
Qed.

End generic.

(** The decorated call always returns, and it ends in exactly one of three
    ways after some number [n] of failed attempts: a value returned by
    attempt [n+1], an exception other than ConnectionError raised by attempt
    [n+1], or, at the cap, a RuntimeError chained to the last
    ConnectionError. *)
Lemma decorator_cases {St A : Type} (sleep : Z -> St -> St)
    (func : St -> outcome A * St) (st : St) :
  SLEEPS = [1; 7; 70; 420; 4200]%Z /\ MAX_ATTEMPTS = 5%nat /\
  exists n errs st1,
    failed sleep func n st errs st1 /\ (n <= MAX_ATTEMPTS)%nat /\
    ((exists d v st2,
        SLEEPS !! n = Some d /\ func (sleep d st1) = (Return v, st2) /\
        decorator sleep func st = Some (Return v, st2))
     \/ (exists d e st2,
        SLEEPS !! n = Some d /\ func (sleep d st1) = (Raise e, st2) /\
        ("ConnectionError" ∉ mro e) /\
        decorator sleep func st = Some (Raise e, st2))
     \/ (n = MAX_ATTEMPTS /\ exists e,
        last errs = Some e /\ "ConnectionError" ∈ mro e /\
        decorator sleep func st =
          Some (Raise (RuntimeError "Give up after 5 attempts with ConnectionError"
                         (Some e)), st1))).
Proof.
  split; [reflexivity|]. split; [reflexivity|].
  apply (decorator_cases_from sleep func st MAX_ATTEMPTS 0%nat [] st).
  - constructor.
  - reflexivity.
Qed.

End RetrySpec.

Module FirstRowsSpec.
Import Retry Cache FirstRows.

Section get_rows.
Variable load_dataset :
  nat -> string -> string -> string -> bool -> option string -> outcome DatasetObj.
Variables (dataset config split : string) (streaming : bool)
  (rows_max_number : Z) (use_auth_token : option string).

Local Abbreviation body :=
  (get_rows_body load_dataset dataset config split streaming rows_max_number use_auth_token).

(** The body of [get_rows] never sleeps. *)
Lemma get_rows_body_slept w r w' : body w = (r, w') -> slept w' = slept w.
Proof.
  unfold get_rows_body. destruct (load_dataset _ _ _ _ _ _); intros [= _ <-]; reflexivity.
Qed.

(** A successful run of the body went through [islice] and the final
    slice. *)
Lemma get_rows_body_return w rows w' :
  body w = (Return rows, w') ->
  exists stream rows_plus_one,
    islice stream (rows_max_number + 1) = Return rows_plus_one /\
    rows = slice_to rows_plus_one rows_max_number.
Proof.
  unfold get_rows_body.
  destruct (load_dataset _ _ _ _ _ _) as [ds|e]; [|intros [=]].
  intros [= H _]. revert H.
  set (checked := if streaming then _ else _).
  destruct checked as [stream|e]; simpl; [|intros [=]].
  destruct (islice stream (rows_max_number + 1)) as [rpo|e] eqn:Hi; simpl; [|intros [=]].
  intros [= <-]. eauto.
Qed.


Lemma slice_to_length {A} (l : list A) (stop : Z) :
  (0 <= stop)%Z -> (Z.of_nat (length (slice_to l stop)) <= stop)%Z.
Proof.
  intros H. unfold slice_to. destruct (Z.leb_spec 0 stop); [|lia].
  rewrite length_take. lia.
Qed.

End get_rows.

(** C7.  Every invocation of the retried [get_rows] returns, and it does so
    after n failed attempts (n <= 5), each of which raised an instance of
    ConnectionError, that is, an exception whose class has ConnectionError in
    its [__mro__] (the class itself or any subclass, built-in or not), in one
    of three ways.  Each attempt i is preceded by a sleep of SLEEPS[i], with
    the fixed schedule SLEEPS = [1, 7, 70, 420, 4200]: the log of sleeps grows
    by exactly the first entries of the schedule, one per attempt.
    (1) Attempt n+1 returns rows: they are the result.  (2) Attempt n+1
    raises an exception that is not an instance of ConnectionError: it
    propagates at once, with no further attempt.  (3) n = 5 = MAX_ATTEMPTS: a
    RuntimeError chained to the last ConnectionError is raised, after five
    sleeps. *)
Theorem get_rows_retry_policy
    (load_dataset : nat -> string -> string -> string -> bool -> option string ->
                    outcome DatasetObj)
    (dataset config split : string) (streaming : bool) (rows_max_number : Z)
    (use_auth_token : option string) (w : World) :
  let body := get_rows_body load_dataset dataset config split streaming
                rows_max_number use_auth_token in
  let run := get_rows load_dataset dataset config split streaming
               rows_max_number use_auth_token w in
  SLEEPS = [1; 7; 70; 420; 4200]%Z /\ MAX_ATTEMPTS = 5%nat /\
  exists n errs w1,
    failed time_sleep body n w errs w1 /\ (n <= MAX_ATTEMPTS)%nat /\
    length errs = n /\ Forall (fun e => "ConnectionError" ∈ mro e) errs /\
    slept w1 = slept w ++ take n SLEEPS /\
    ((exists d rows w2,
        SLEEPS !! n = Some d /\ body (time_sleep d w1) = (Return rows, w2) /\
        run = Some (Return rows, w2) /\ slept w2 = slept w ++ take (S n) SLEEPS)
     \/ (exists d e w2,
        SLEEPS !! n = Some d /\ body (time_sleep d w1) = (Raise e, w2) /\
        ("ConnectionError" ∉ mro e) /\
        run = Some (Raise e, w2) /\ slept w2 = slept w ++ take (S n) SLEEPS)
     \/ (n = MAX_ATTEMPTS /\ exists e,
        last errs = Some e /\ "ConnectionError" ∈ mro e /\
        run = Some (Raise (RuntimeError "Give up after 5 attempts with ConnectionError"
                             (Some e)), w1) /\
        slept w1 = slept w ++ SLEEPS)).
Proof.
  intros body run.
  destruct (RetrySpec.decorator_cases time_sleep body w)
    as (HS & HM & n & errs & w1 & Hf & Hn & Hcases).
  split; [exact HS|]. split; [exact HM|].
  assert (Hslept : slept w1 = slept w ++ take n SLEEPS).
  { apply (RetrySpec.failed_slept time_sleep body slept w n errs w1); [reflexivity| |exact Hf].
    intros st r st'. apply get_rows_body_slept. }
  assert (Hnext : forall d r w2, SLEEPS !! n = Some d -> body (time_sleep d w1) = (r, w2) ->
                    slept w2 = slept w ++ take (S n) SLEEPS).
  { intros d r w2 Hd Hb. apply get_rows_body_slept in Hb. rewrite Hb.
    change (slept (time_sleep d w1)) with (slept w1 ++ [d]).
    rewrite Hslept, (take_S_r _ _ _ Hd), app_assoc. reflexivity. }
  destruct (RetrySpec.failed_errs time_sleep body n w errs w1 Hf) as [Hlen Hall].
  exists n, errs, w1. split; [exact Hf|]. split; [exact Hn|].
  split; [exact Hlen|]. split; [exact Hall|]. split; [exact Hslept|].
  destruct Hcases as [(d & v & w2 & Hd & Hb & Hrun)|[(d & e & w2 & Hd & Hb & He & Hrun)
                        |(Hn5 & e & Hl & He & Hrun)]].
  - left. exists d, v, w2. eauto 10.
  - right; left. exists d, e, w2. eauto 10.
  - right; right. split; [exact Hn5|]. exists e.
    split; [exact Hl|]. split; [exact He|]. split; [exact Hrun|].
    rewrite Hslept, Hn5. reflexivity.
Qed.

(** A Hub in offline mode: OfflineModeIsEnabled is a subclass of
    ConnectionError defined by the datasets library, so every attempt is
    retried, and after the five sleeps of the schedule the RuntimeError is
    raised. *)
Lemma get_rows_retry_policy_witness :
  SLEEPS = [1; 7; 70; 420; 4200]%Z /\
  ("ConnectionError" ∈ mro ModelScenarios.offline_mode_is_enabled) /\
  get_rows ModelScenarios.hub_offline "dataset" "config" "train" true 2 None Scenarios.w0
  = Some (Raise (RuntimeError "Give up after 5 attempts with ConnectionError"
                   (Some ModelScenarios.offline_mode_is_enabled)),
          {| slept := [1; 7; 70; 420; 4200]%Z; hub_calls := 5 |}).
Proof.
  split; [|split; [apply (bool_decide_unpack _); vm_compute; exact I|reflexivity]].
  apply (get_rows_retry_policy ModelScenarios.hub_offline "dataset" "config" "train" true 2
           None Scenarios.w0).
Defined.

(** A successful decorated call is a successful run of the body. *)
Lemma get_rows_return
    (load_dataset : nat -> string -> string -> string -> bool -> option string ->
                    outcome DatasetObj)
    (dataset config split : string) (streaming : bool) (rows_max_number : Z)
    (use_auth_token : option string) (w : World) (rows : list Row) (w' : World) :
  get_rows load_dataset dataset config split streaming rows_max_number use_auth_token w
    = Some (Return rows, w') ->
  exists w1,
    get_rows_body load_dataset dataset config split streaming rows_max_number
      use_auth_token w1 = (Return rows, w').
Proof.
  intros Hrun.
  destruct (RetrySpec.decorator_cases time_sleep
              (get_rows_body load_dataset dataset config split streaming
                 rows_max_number use_auth_token) w)
    as (_ & _ & n & errs & w1 & _ & _ & Hcases).
  unfold get_rows in Hrun.
  destruct Hcases as [(d & v & w2 & _ & Hb & Hdec)|[(d & e & w2 & _ & _ & _ & Hdec)
                        |(_ & e & _ & _ & Hdec)]];
    rewrite Hdec in Hrun; inversion Hrun; subst.
  eexists. exact Hb.
Qed.




(** *** The output ceilings *)

Lemma quiet_ret {A} (v : A) : quiet (ret v).
Proof. intros w r w' [= _ <-]. reflexivity. Qed.

Lemma quiet_raise {A} (e : exn) : quiet (@raise A e).
Proof. intros w r w' [= _ <-]. reflexivity. Qed.

Lemma quiet_lift {A} (o : outcome A) : quiet (lift o).
Proof. intros w r w' [= _ <-]. reflexivity. Qed.

Lemma quiet_call_hub {A} (f : nat -> outcome A) : quiet (call_hub f).
Proof. intros w r w' [= _ <-]. reflexivity. Qed.

Lemma quiet_bind {A B} (m : M A) (k : A -> M B) :
  quiet m -> (forall v, quiet (k v)) -> quiet (m ≫= k).
Proof.
  intros Hm Hk w r w'.
  change (FirstRows.mbind m k w = Some (r, w') -> slept w' = slept w).
  unfold FirstRows.mbind.
  destruct (m w) as [[[v|e] w1]|] eqn:Hmw; [| |intros [=]].
  - intros Hkv. rewrite (Hk v _ _ _ Hkv). eapply Hm, Hmw.
  - intros [= _ <-]. eapply Hm, Hmw.
Qed.

Lemma quiet_try_except {A} (m : M A) (handler : exn -> M A) :
  quiet m -> (forall e, quiet (handler e)) -> quiet (try_except m handler).
Proof.
  intros Hm Hh w r w'. unfold try_except.
  destruct (m w) as [[[v|e] w1]|] eqn:Hmw; [| |intros [=]].
  - intros [= _ <-]. eapply Hm, Hmw.
  - destruct (is_Exception e).
    + intros Hhe. rewrite (Hh e _ _ _ Hhe). eapply Hm, Hmw.
    + intros [= _ <-]. eapply Hm, Hmw.
Qed.

Create HintDb quiet.
#[local] Hint Resolve quiet_ret quiet_raise quiet_lift quiet_call_hub : quiet.

Lemma bind_return {A B} (m : M A) (k : A -> M B) w v w1 :
  m w = Some (Return v, w1) -> (m ≫= k) w = k v w1.
Proof.
  intros H. change (FirstRows.mbind m k w = k v w1).
  unfold FirstRows.mbind. rewrite H. reflexivity.
Qed.

Section ceilings.
Variable load_dataset :
  nat -> string -> string -> string -> bool -> option string -> outcome DatasetObj.
Variable get_dataset_config_info :
  nat -> string -> string -> option string -> outcome DatasetInfo.
Variable to_features_list : option Features -> outcome (list json).
Variable get_json_size : SplitFirstRowsResponse -> outcome Z.
Variable get_cell_value :
  string -> string -> string -> nat -> json -> string -> json -> string -> string ->
  outcome json.
Variable create_truncated_row_items : list Row -> Z -> Z -> Z -> outcome (list json).
Variable ConfigNotFoundError : string -> option exn -> exn.
Variable SplitNotFoundError : string -> option exn -> exn.
Variable store : Store.

Lemma resolve_features_quiet dataset config split token :
  quiet (resolve_features load_dataset dataset config split token).
Proof.
  unfold resolve_features. apply quiet_bind; [auto with quiet|].
  intros [rows resolved|rows|]; [|auto with quiet..].
  apply quiet_bind; [auto with quiet|]. intros [fs|]; auto with quiet.
Qed.

(** Obtaining the features never sleeps: no attempt to fetch rows is made. *)
Lemma get_features_quiet dataset config split hf_token :
  quiet (get_features load_dataset get_dataset_config_info ConfigNotFoundError
           SplitNotFoundError store dataset config split hf_token).
Proof.
  unfold get_features.
  apply quiet_bind; [auto with quiet|]. intros upstream.
  apply quiet_bind; [destruct (negb _); auto with quiet|]. intros _.
  apply quiet_bind; [auto with quiet|]. intros names.
  apply quiet_bind; [destruct (negb _); auto with quiet|]. intros _.
  apply quiet_bind.
  { apply quiet_try_except; auto with quiet. }
  intros info.
  apply quiet_bind; [|auto with quiet].
  destruct (negb _); [|auto with quiet].
  apply quiet_try_except; [apply resolve_features_quiet|auto with quiet].
Qed.

(** The two checks, once the features are bound: the exception raised is
    written with the features and the limits only. *)
Lemma ceilings_raise dataset config split assets_base_url hf_token
    min_cell_bytes rows_max_bytes rows_max_number rows_min_number columns_max_number
    assets_directory max_size_fallback w info features w1 :
  get_features load_dataset get_dataset_config_info ConfigNotFoundError SplitNotFoundError
    store dataset config split hf_token w = Some (Return (info, features), w1) ->
  let run :=
    compute_first_rows_response load_dataset get_dataset_config_info to_features_list
      get_json_size get_cell_value create_truncated_row_items ConfigNotFoundError
      SplitNotFoundError store dataset config split assets_base_url hf_token
      min_cell_bytes rows_max_bytes rows_max_number rows_min_number columns_max_number
      assets_directory max_size_fallback w in
  (truthy features = true -> (columns_max_number < len features)%Z ->
   run = Some (Raise (TooManyColumnsError
                        ("The number of columns (" +:+ pretty (len features)
                         +:+ ") exceeds the maximum supported number of columns ("
                         +:+ pretty columns_max_number
                         +:+ "). This is a current limitation of the datasets viewer. You can reduce the number"
                         +:+ " of columns if you want the viewer to work.") None), w1))
  /\
  (truthy features && (columns_max_number <? len features)%Z = false ->
   forall features_list size,
     to_features_list features = Return features_list ->
     get_json_size (response_features_only dataset config split features_list)
       = Return size ->
     (rows_max_bytes < size)%Z ->
     run = Some (Raise (TooBigContentError
                          ("The size of the content of the first rows (" +:+ pretty size
                           +:+ " B) exceeds the maximum supported size ("
                           +:+ pretty rows_max_bytes
                           +:+ " B) even after truncation. Please report the issue.")
                          None), w1)).
Proof.
  intros Hfeat run. split.
  - intros Htruthy Hlen.
    unfold run, compute_first_rows_response.
    rewrite (bind_return _ _ _ _ _ Hfeat). cbn [fst snd].
    rewrite Htruthy. apply Z.ltb_lt in Hlen. rewrite Hlen. reflexivity.
  - intros Hcols features_list size Hlist Hsize Hbig.
    unfold run, compute_first_rows_response.
    rewrite (bind_return _ _ _ _ _ Hfeat). cbn [fst snd].
    rewrite Hcols.
    rewrite (bind_return (ret tt) _ w1 tt w1 eq_refl).
    rewrite (bind_return (lift (to_features_list features)) _ w1 features_list w1)
      by (unfold lift; rewrite Hlist; reflexivity).
    rewrite (bind_return (lift (get_json_size _)) _ w1 size w1)
      by (unfold lift; rewrite Hsize; reflexivity).
    apply Z.ltb_lt in Hbig. rewrite Hbig. reflexivity.
Qed.

End ceilings.

(** C8 (amended).  Once [compute_first_rows_response] has obtained the
    features: (a) if they are non-empty and more numerous than
    [columns_max_number], it fails with TooManyColumnsError, in the world
    reached when the features were obtained and without any sleep, hence
    before any attempt to fetch rows; (b) if the column check passes,
    [to_features_list] and [get_json_size] return, and the response without
    rows is larger than [rows_max_bytes], it fails with TooBigContentError,
    again before any attempt to fetch rows.  (c) These failures are not
    retryable in the sense that they are decided by the features and the
    limits alone: any other call for the same split under the same limits
    that obtains the same features, whatever the Hub, the cache, the token
    and the world, raises the very same exception.  (d) Both errors carry
    their own code, no cause, and the INTERNAL_SERVER_ERROR status; that
    status is also the one of the errors raised for a failure of the Hub,
    such as StreamingRowsError and NormalRowsError, so it does not tell the
    two kinds apart. *)
Theorem output_ceilings
    (load_dataset : nat -> string -> string -> string -> bool -> option string ->
                    outcome DatasetObj)
    (get_dataset_config_info : nat -> string -> string -> option string ->
                               outcome DatasetInfo)
    (to_features_list : option Features -> outcome (list json))
    (get_json_size : SplitFirstRowsResponse -> outcome Z)
    (get_cell_value : string -> string -> string -> nat -> json -> string -> json ->
                      string -> string -> outcome json)
    (create_truncated_row_items : list Row -> Z -> Z -> Z -> outcome (list json))
    (ConfigNotFoundError SplitNotFoundError : string -> option exn -> exn)
    (store : Store)
    (dataset config split assets_base_url : string) (hf_token : option string)
    (min_cell_bytes rows_max_bytes rows_max_number rows_min_number columns_max_number : Z)
    (assets_directory : string) (max_size_fallback : option Z)
    (w : World) (info : DatasetInfo) (features : option Features) (w1 : World) :
  get_features load_dataset get_dataset_config_info ConfigNotFoundError SplitNotFoundError
    store dataset config split hf_token w = Some (Return (info, features), w1) ->
  let run :=
    compute_first_rows_response load_dataset get_dataset_config_info to_features_list
      get_json_size get_cell_value create_truncated_row_items ConfigNotFoundError
      SplitNotFoundError store dataset config split assets_base_url hf_token
      min_cell_bytes rows_max_bytes rows_max_number rows_min_number columns_max_number
      assets_directory max_size_fallback w in
  let too_many := truthy features = true /\ (columns_max_number < len features)%Z in
  let too_big :=
    truthy features && (columns_max_number <? len features)%Z = false /\
    exists features_list size,
      to_features_list features = Return features_list /\
      get_json_size (response_features_only dataset config split features_list)
        = Return size /\
      (rows_max_bytes < size)%Z in
  (too_many ->
   exists message,
     run = Some (Raise (TooManyColumnsError message None), w1) /\ slept w1 = slept w)
  /\
  (too_big ->
   exists message,
     run = Some (Raise (TooBigContentError message None), w1) /\ slept w1 = slept w)
  /\
  (too_many \/ too_big ->
   exists e,
     run = Some (Raise e, w1) /\
     forall (load_dataset' : nat -> string -> string -> string -> bool -> option string ->
                             outcome DatasetObj)
            (get_dataset_config_info' : nat -> string -> string -> option string ->
                                        outcome DatasetInfo)
            (store' : Store) (assets_base_url' : string) (hf_token' : option string)
            (min_cell_bytes' rows_max_number' rows_min_number' : Z)
            (assets_directory' : string) (max_size_fallback' : option Z)
            (w' : World) (info' : DatasetInfo) (w1' : World),
       get_features load_dataset' get_dataset_config_info' ConfigNotFoundError
         SplitNotFoundError store' dataset config split hf_token' w'
         = Some (Return (info', features), w1') ->
       compute_first_rows_response load_dataset' get_dataset_config_info' to_features_list
         get_json_size get_cell_value create_truncated_row_items ConfigNotFoundError
         SplitNotFoundError store' dataset config split assets_base_url' hf_token'
         min_cell_bytes' rows_max_bytes rows_max_number' rows_min_number' columns_max_number
         assets_directory' max_size_fallback' w' = Some (Raise e, w1'))
  /\
  (forall message cause,
     status_code_of (TooManyColumnsError message cause) = Some HTTP_INTERNAL_SERVER_ERROR /\
     code_of (TooManyColumnsError message cause) = Some "TooManyColumnsError" /\
     status_code_of (TooBigContentError message cause) = Some HTTP_INTERNAL_SERVER_ERROR /\
     code_of (TooBigContentError message cause) = Some "TooBigContentError" /\
     status_code_of (StreamingRowsError message cause)
       = status_code_of (TooManyColumnsError message cause) /\
     status_code_of (NormalRowsError message cause)
       = status_code_of (TooBigContentError message cause)).
Proof.
  intros Hfeat run too_many too_big.
  assert (Hq : slept w1 = slept w) by (eapply get_features_quiet, Hfeat).
  destruct (ceilings_raise load_dataset get_dataset_config_info to_features_list
              get_json_size get_cell_value create_truncated_row_items ConfigNotFoundError
              SplitNotFoundError store dataset config split assets_base_url hf_token
              min_cell_bytes rows_max_bytes rows_max_number rows_min_number
              columns_max_number assets_directory max_size_fallback w info features w1
              Hfeat) as [Hmany Hbig].
  fold run in Hmany, Hbig.
  split; [|split; [|split]].
  - intros [Htruthy Hlen]. eexists. split; [apply Hmany; assumption|exact Hq].
  - intros (Hcols & features_list & size & Hlist & Hsize & Hlt).
    eexists. split; [eapply Hbig; eassumption|exact Hq].
  - intros [[Htruthy Hlen]|(Hcols & features_list & size & Hlist & Hsize & Hlt)].
    + eexists. split; [apply Hmany; assumption|].
      intros load_dataset' get_dataset_config_info' store' assets_base_url' hf_token'
             min_cell_bytes' rows_max_number' rows_min_number' assets_directory'
             max_size_fallback' w' info' w1' Hfeat'.
      apply (ceilings_raise load_dataset' get_dataset_config_info' to_features_list
               get_json_size get_cell_value create_truncated_row_items ConfigNotFoundError
               SplitNotFoundError store' dataset config split assets_base_url' hf_token'
               min_cell_bytes' rows_max_bytes rows_max_number' rows_min_number'
               columns_max_number assets_directory' max_size_fallback' w' info' features
               w1' Hfeat'); assumption.
    + eexists. split; [eapply Hbig; eassumption|].
      intros load_dataset' get_dataset_config_info' store' assets_base_url' hf_token'
             min_cell_bytes' rows_max_number' rows_min_number' assets_directory'
             max_size_fallback' w' info' w1' Hfeat'.
      eapply (ceilings_raise load_dataset' get_dataset_config_info' to_features_list
                get_json_size get_cell_value create_truncated_row_items ConfigNotFoundError
                SplitNotFoundError store' dataset config split assets_base_url' hf_token'
                min_cell_bytes' rows_max_bytes rows_max_number' rows_min_number'
                columns_max_number assets_directory' max_size_fallback' w' info' features
                w1' Hfeat'); eassumption.
  - intros message cause. repeat split; reflexivity.
Qed.

(** Three columns against a ceiling of two; a second call, on a Hub that is
    offline for the rows and with another cap on the rows, fails in the same
    way. *)
Lemma output_ceilings_witness :
  exists e,
    Scenarios.first_rows_of 1000 2 Scenarios.w0
      = Some (Raise e, {| slept := []; hub_calls := 1 |}) /\
    code_of e = Some "TooManyColumnsError" /\
    compute_first_rows_response ModelScenarios.hub_offline Scenarios.info_three_columns
      Scenarios.features_list_of Scenarios.json_size_of Scenarios.cell_value_of
      Scenarios.row_items_of Scenarios.config_not_found Scenarios.split_not_found
      Scenarios.store_with_splits "dataset" "config" "train" "http://localhost/assets"
      None 0%Z 1000%Z 5%Z 1%Z 2%Z "/assets" None {| slept := [7%Z]; hub_calls := 3 |}
    = Some (Raise e, {| slept := [7%Z]; hub_calls := 4 |}).
Proof.
  destruct (output_ceilings Scenarios.hub_three_rows Scenarios.info_three_columns
              Scenarios.features_list_of Scenarios.json_size_of Scenarios.cell_value_of
              Scenarios.row_items_of Scenarios.config_not_found Scenarios.split_not_found
              Scenarios.store_with_splits
              "dataset" "config" "train" "http://localhost/assets" None
              0%Z 1000%Z 2%Z 1%Z 2%Z "/assets" None Scenarios.w0
              {| info_features := Some Scenarios.three_columns; size_in_bytes := Some 1000%Z |}
              (Some Scenarios.three_columns) {| slept := []; hub_calls := 1 |})
    as (Hcols & _ & Hsame & _); [vm_compute; reflexivity|].
  destruct Hcols as (message & Hrun & _); [split; [reflexivity|reflexivity]|].
  destruct Hsame as (e & Hrun' & Hother); [left; split; reflexivity|].
  exists e. split; [exact Hrun'|]. split.
  - unfold Scenarios.first_rows_of in Hrun. rewrite Hrun in Hrun'.
    injection Hrun' as <-. reflexivity.
  - apply (Hother ModelScenarios.hub_offline Scenarios.info_three_columns
             Scenarios.store_with_splits "http://localhost/assets" None 0%Z 5%Z 1%Z
             "/assets" None {| slept := [7%Z]; hub_calls := 3 |}
             {| info_features := Some Scenarios.three_columns;
                size_in_bytes := Some 1000%Z |}).
    vm_compute. reflexivity.
Defined.

(** C8 as stated fails in two respects.  Where both ceilings are exceeded
    (three columns, a ceiling of two columns and a features-only response of
    130 bytes against [rows_max_bytes = 10]) the error is
    TooManyColumnsError, not TooBigContentError.  And the
    INTERNAL_SERVER_ERROR status is no mark of a failure that cannot be
    retried: on a Hub that is offline for the rows the call fails, after the
    retries, with NormalRowsError chained to the RuntimeError of the last
    ConnectionError, and that error carries the same status. *)
Lemma both_ceilings_counterexample :
  (Scenarios.json_size_of
     (response_features_only "dataset" "config" "train"
        [JDict [("name", JStr "a"); ("type", JStr "int64")];
         JDict [("name", JStr "b"); ("type", JStr "int64")];
         JDict [("name", JStr "c"); ("type", JStr "string")]]) = Return 130%Z /\
   (10 < 130)%Z) /\
  (exists e w1,
     Scenarios.first_rows_of 10 2 Scenarios.w0 = Some (Raise e, w1) /\
     code_of e = Some "TooManyColumnsError" /\
     code_of e <> Some "TooBigContentError") /\
  (exists message w1,
     compute_first_rows_response ModelScenarios.hub_offline Scenarios.info_three_columns
       Scenarios.features_list_of Scenarios.json_size_of Scenarios.cell_value_of
       Scenarios.row_items_of Scenarios.config_not_found Scenarios.split_not_found
       Scenarios.store_with_splits "dataset" "config" "train" "http://localhost/assets"
       None 0%Z 1000%Z 2%Z 1%Z 10%Z "/assets" None Scenarios.w0
     = Some (Raise (NormalRowsError message
                      (Some (RuntimeError "Give up after 5 attempts with ConnectionError"
                               (Some ModelScenarios.offline_mode_is_enabled)))), w1) /\
     hub_calls w1 = 11%nat /\
     status_code_of (NormalRowsError message None)
       = status_code_of (TooManyColumnsError message None)).
Proof.
  split; [split; [vm_compute; reflexivity|lia]|]. split.
  - eexists. eexists. split; [vm_compute; reflexivity|].
    split; [reflexivity|discriminate].
  - eexists. eexists. split; [vm_compute; reflexivity|]. split; reflexivity.
Qed.

End FirstRowsSpec.

Module MigrationSpec.
Import Migration.

Lemma update_many_fields old new responses :
  map fields (update_many old new responses) = map fields responses.
Proof.
  unfold update_many. rewrite map_map. apply map_ext.
  intros doc. destruct (String.eqb _ _); reflexivity.
Qed.

Lemma down_up_doc doc :
  kind doc <> dataset_info_updated ->
  (let doc' := if String.eqb (kind doc) dataset_info
               then set_kind dataset_info_updated doc else doc in
   if String.eqb (kind doc') dataset_info_updated
   then set_kind dataset_info doc' else doc') = doc.
Proof.
  intros Hne. destruct (String.eqb_spec (kind doc) dataset_info) as [Heq|Hold]; simpl.
  - destruct doc as [k f]. simpl in *. subst k. reflexivity.
  - destruct (String.eqb_spec (kind doc) dataset_info_updated); [contradiction|reflexivity].
Qed.

(** C10.  On a collection in which no document has the kind "dataset-info",
    [up] followed by [down] gives the collection back, document by document,
    and neither operation changes a field other than [kind]. *)
Theorem up_down_round_trip (responses : list Document) :
  Forall (fun doc => kind doc <> dataset_info_updated) responses ->
  down (up responses) = responses /\
  map fields (up responses) = map fields responses /\
  map fields (down responses) = map fields responses.
Proof.
  intros Hno. split; [|split; apply update_many_fields].
  unfold down, up, update_many. rewrite map_map.
  induction Hno as [|doc rest Hdoc _ IH]; [reflexivity|].
  simpl. rewrite IH. f_equal. apply (down_up_doc doc Hdoc).
Qed.

Lemma up_down_round_trip_witness :
  up Scenarios.responses_before <> Scenarios.responses_before /\
  down (up Scenarios.responses_before) = Scenarios.responses_before.
Proof.
  split; [discriminate|].
  apply (up_down_round_trip Scenarios.responses_before).
  repeat constructor; discriminate.
Defined.

End MigrationSpec.

Module ValidSpec.
Import Cache Graph Valid.

(** A dataset is in [get_valid_datasets kind] exactly when the cache holds a
    valid entry of that kind for it. *)
Lemma elem_of_get_valid_datasets (kind dataset : string) (store : Store) :
  dataset ∈ get_valid_datasets kind store <->
  exists config split e,
    store !! (kind, dataset, config, split) = Some e /\ is_valid_entry e = true.
Proof.
  unfold get_valid_datasets. rewrite elem_of_list_to_set, list_elem_of_omap. split.
  - intros ([[[[k d] c] s] e] & Hin & Hsome). simpl in Hsome.
    apply elem_of_map_to_list in Hin.
    destruct (String.eqb_spec k kind) as [->|]; [|discriminate].
    destruct (is_valid_entry e) eqn:Hv; [|discriminate].
    injection Hsome as ->. eauto.
  - intros (c & s & e & Hl & Hv). exists (kind, dataset, c, s, e).
    split; [apply elem_of_map_to_list; exact Hl|].
    simpl. rewrite String.eqb_refl, Hv. reflexivity.
Qed.

Lemma elem_of_sorted (dataset : string) (datasets : gset string) :
  dataset ∈ sorted datasets <-> dataset ∈ datasets.
Proof.
  unfold sorted. rewrite merge_sort_Permutation. apply elem_of_elements.
Qed.

Section fold.
Variable store : Store.

Local Abbreviation step_fun :=
  (fun (datasets : option (gset string)) processing_step =>
     let kind_datasets := get_valid_datasets (cache_kind processing_step) store in
     match datasets with
     | None => Some kind_datasets
     | Some ds => Some (ds ∩ kind_datasets)
     end).

(** Once filled, the set is intersected with the valid set of each
    remaining step. *)
Lemma fold_filled (steps : list ProcessingStep) (acc : gset string) :
  exists ds,
    fold_left step_fun steps (Some acc) = Some ds /\
    forall dataset,
      dataset ∈ ds <->
      dataset ∈ acc /\
      forall step, step ∈ steps -> dataset ∈ get_valid_datasets (cache_kind step) store.
Proof.
  revert acc. induction steps as [|step steps IH]; intros acc.
  - exists acc. split; [reflexivity|]. intros d. split; [|tauto].
    intros Hd. split; [exact Hd|]. intros step Hin. inversion Hin.
  - destruct (IH (acc ∩ get_valid_datasets (cache_kind step) store)) as (ds & Hfold & Hds).
    exists ds. split; [exact Hfold|]. intros d. rewrite Hds, elem_of_intersection.
    split.
    + intros [[Hacc Hstep] Hrest]. split; [exact Hacc|].
      intros step' Hin. apply elem_of_cons in Hin as [->|Hin]; auto.
    + intros [Hacc Hall]. split; [split; [exact Hacc|]|].
      * apply Hall. left.
      * intros step' Hin. apply Hall. right. exact Hin.
Qed.

End fold.

Lemma get_valid_filled (graph : ProcessingGraph) (store : Store) (dataset : string) :
  get_processing_steps_required_by_dataset_viewer graph <> [] ->
  dataset ∈ get_valid graph store <->
  forall step,
    step ∈ get_processing_steps_required_by_dataset_viewer graph ->
    dataset ∈ get_valid_datasets (cache_kind step) store.
Proof.
  unfold get_valid.
  destruct (get_processing_steps_required_by_dataset_viewer graph) as [|step steps];
    [congruence|]. intros _.
  destruct (fold_filled store steps (get_valid_datasets (cache_kind step) store))
    as (ds & Hfold & Hds).
  cbn [fold_left]. cbv zeta in Hfold |- *. rewrite Hfold.
  rewrite elem_of_sorted, Hds. split.
  - intros [Hstep Hrest] step' Hin. apply elem_of_cons in Hin as [->|Hin]; auto.
  - intros Hall. split; [apply Hall; left|].
    intros step' Hin. apply Hall. right. exact Hin.
Qed.

(** C1 (amended).  When the graph has at least one step required by the
    viewer: [is_valid dataset], that is membership of the dataset in the list
    computed by [get_valid], holds if and only if the dataset belongs to the
    set of valid cache entries of the kind of every required step; and
    removing the sole valid entry of a required step for the dataset makes
    the dataset invalid. *)
Theorem is_valid_iff_all_required (graph : ProcessingGraph) (store : Store)
    (dataset : string) :
  get_processing_steps_required_by_dataset_viewer graph <> [] ->
  (is_valid dataset graph store = true <-> dataset ∈ get_valid graph store) /\
  (dataset ∈ get_valid graph store <->
   forall step,
     step ∈ get_processing_steps_required_by_dataset_viewer graph ->
     dataset ∈ get_valid_datasets (cache_kind step) store) /\
  (forall step config split,
     step ∈ get_processing_steps_required_by_dataset_viewer graph ->
     (forall c s e,
        store !! (cache_kind step, dataset, c, s) = Some e ->
        is_valid_entry e = true -> c = config /\ s = split) ->
     is_valid dataset graph
       (delete_response (cache_kind step) dataset config split store) = false).
Proof.
  intros Hne. split; [apply bool_decide_eq_true|].
  split; [apply get_valid_filled; exact Hne|].
  intros step config split Hstep Hsole.
  apply bool_decide_eq_false. rewrite (get_valid_filled _ _ _ Hne).
  intros Hall. specialize (Hall step Hstep).
  apply elem_of_get_valid_datasets in Hall as (c & s & e & Hl & Hv).
  unfold delete_response in Hl.
  apply lookup_delete_Some in Hl as [Hkey Hl].
  destruct (Hsole c s e Hl Hv) as [-> ->]. congruence.
Qed.

Lemma is_valid_iff_all_required_witness :
  is_valid "glue" Scenarios.graph_two_required Scenarios.store_valid = true /\
  is_valid "glue" Scenarios.graph_two_required
    (delete_response "S2" "glue" None None Scenarios.store_valid) = false.
Proof.
  split; [vm_compute; reflexivity|].
  destruct (is_valid_iff_all_required Scenarios.graph_two_required Scenarios.store_valid "glue")
    as (_ & _ & Hsole); [discriminate|].
  apply (Hsole (Scenarios.step_named "S2" true) None None).
  - vm_compute. right. left.
  - intros c s e Hl _. unfold Scenarios.store_valid, upsert_response in Hl.
    rewrite !lookup_insert_Some, lookup_empty in Hl.
    destruct Hl as [[Heq _]|[_ [[Heq _]|[_ [[Heq _]|[_ Heq]]]]]]; try discriminate Heq.
    injection Heq as <- <-. split; reflexivity.
Defined.

(** C1 as stated fails on a graph with no step required by the viewer:
    every dataset then satisfies the condition on the required steps, yet
    [get_valid] returns the empty list. *)
Lemma no_required_step_counterexample :
  get_valid Scenarios.graph_none_required Scenarios.store_valid = [] /\
  ~ ("glue" ∈ get_valid Scenarios.graph_none_required Scenarios.store_valid <->
     forall step,
       step ∈ get_processing_steps_required_by_dataset_viewer Scenarios.graph_none_required ->
       "glue" ∈ get_valid_datasets (cache_kind step) Scenarios.store_valid).
Proof.
  split; [reflexivity|].
  intros [_ H].
  assert (Hin : "glue" ∈ get_valid Scenarios.graph_none_required Scenarios.store_valid).
  { apply H. intros step Hstep. vm_compute in Hstep. inversion Hstep. }
  vm_compute in Hin. inversion Hin.
Qed.

End ValidSpec.

Module ManagerSpec.
Import Cache Graph State Manager.

Lemma get_processing_step_name (n : string) (graph : ProcessingGraph) (step : ProcessingStep) :
  get_processing_step n graph = Some step -> name step = n.
Proof.
  induction graph as [|s rest IH]; simpl; [discriminate|].
  destruct (String.eqb_spec (name s) n) as [Heq|_]; [|exact IH].
  intros [= <-]. exact Heq.
Qed.

(** C5.  If the job's declared type differs from the job type of the step
    bound to the runner, or the runner is bound to a step other than the one
    the job names in the graph, building the manager raises a ValueError;
    nothing is computed and the cache and the queue are left as they were
    (no entry is written, no job is created for a retry). *)
Theorem check_type
    (configs_of splits_of : json -> list string) (non_retryable : option string -> bool)
    (get_dataset_git_revision : string -> outcome string)
    (cause_traceback : exn -> list string)
    (info : JobInfo) (runner : JobRunner) (graph : ProcessingGraph) (sys : System) :
  type info <> job_type (processing_step runner) \/
  (exists step, get_processing_step (type info) graph = Some step /\
                name (processing_step runner) <> name step) ->
  exists message,
    JobManager_init info runner graph = Raise (ValueError message) /\
    construct_and_run configs_of splits_of non_retryable get_dataset_git_revision
      cause_traceback info runner graph sys = (Raise (ValueError message), sys).
Proof.
  intros H.
  assert (Hne : type info <> job_type (processing_step runner)).
  { destruct H as [H|(step & Hstep & Hname)]; [exact H|].
    apply get_processing_step_name in Hstep. unfold job_type. congruence. }
  unfold construct_and_run, JobManager_init.
  destruct (String.eqb_spec (job_type (processing_step runner)) (get_job_type runner))
    as [Hstep|Hstep]; simpl; [|eauto].
  destruct (String.eqb_spec (type info) (get_job_type runner)) as [Hjob|Hjob]; simpl; [|eauto].
  congruence.
Qed.

(** The first case of test_check_type: a job of type "not-dummy". *)
Lemma check_type_witness :
  exists message,
    JobManager_init (Scenarios.job_info_of "not-dummy" "dataset" (Some "config") (Some "split")
                       Queue.NORMAL)
      (Scenarios.DummyJobRunner (Scenarios.step_of "dummy" dataset_level []) None)
      Scenarios.graph_backfill = Raise (ValueError message).
Proof.
  destruct (check_type Scenarios.configs_of Scenarios.splits_of Scenarios.retry_all
              (Scenarios.revision_of "0.1.2") Scenarios.no_traceback
              (Scenarios.job_info_of "not-dummy" "dataset" (Some "config") (Some "split")
                 Queue.NORMAL)
              (Scenarios.DummyJobRunner (Scenarios.step_of "dummy" dataset_level []) None)
              Scenarios.graph_backfill Scenarios.empty_system)
    as (message & Hinit & _); [left; discriminate|].
  exists message. exact Hinit.
Defined.

(** C6.  For every job and message, [set_crashed] leaves under the job's
    (dataset, config, split) key, for the kind of its step, an entry whose
    error code is "JobManagerCrashedError", whose status is NOT_IMPLEMENTED
    (an error status), and whose content and details are both
    [{"error": message}]. *)
Theorem set_crashed_entry
    (get_dataset_git_revision : string -> outcome string)
    (cause_traceback : exn -> list string)
    (m : JobManager) (message : string) (sys : System) :
  exists e,
    cache (set_crashed get_dataset_git_revision cause_traceback m message sys)
      !! (cache_kind (processing_step (job_runner m)),
          dataset (job_info m), config (job_info m), split (job_info m)) = Some e /\
    error_code e = Some "JobManagerCrashedError" /\
    http_status e = HTTP_NOT_IMPLEMENTED /\
    is_error_status (http_status e) = true /\
    content e = JDict [("error", JStr message)] /\
    details e = Some (JDict [("error", JStr message)]).
Proof.
  eexists. split.
  - unfold set_crashed, commit, upsert_response. simpl. apply lookup_insert_eq.
  - repeat split; reflexivity.
Qed.




(** C4 (amended).  When the dataset of a job cannot be resolved upstream,
    processing the job reports a failure and writes nothing: the cache and
    the queue are unchanged, so no entry appears under the job's key; a
    run of the job plans nothing; a direct backfill of that dataset aborts
    with the resolver's error before the planner runs, leaving the cache and
    the queue unchanged.  A backfill through the administrative route never
    reaches the planner either: whatever the request, the cache and the
    queue are unchanged and the answer is not an OK response; and for a
    request that passes the parameter and the authentication checks the
    answer is the resolver's error, itself when it is a DatasetError or an
    AdminCustomError, wrapped in UnexpectedError when it is another
    Exception, and raised past the route otherwise. *)
Theorem dataset_not_found_upstream
    (configs_of splits_of : json -> list string) (non_retryable : option string -> bool)
    (get_dataset_git_revision : string -> outcome string)
    (cause_traceback : exn -> list string)
    (are_valid_parameters : list (option string) -> bool)
    (MissingRequiredParameterError : string -> exn)
    (UnexpectedError : string -> exn -> exn)
    (is_DatasetError_or_AdminCustomError : exn -> bool)
    (dataset_state_backfill : ProcessingGraph -> string -> string -> System ->
                              outcome Plan * System)
    (m : JobManager) (p : Queue.Priority) (sys : System) (e : exn) :
  get_dataset_git_revision (dataset (job_info m)) = Raise e ->
  process get_dataset_git_revision cause_traceback m sys = (false, sys) /\
  run configs_of splits_of non_retryable get_dataset_git_revision cause_traceback m sys
    = (false, empty_plan, sys) /\
  backfill configs_of splits_of non_retryable get_dataset_git_revision
    (processing_graph m) (dataset (job_info m)) p sys = (Raise e, sys) /\
  forall auth_check : outcome unit,
    let answer :=
      dataset_backfill_endpoint get_dataset_git_revision are_valid_parameters
        MissingRequiredParameterError UnexpectedError is_DatasetError_or_AdminCustomError
        dataset_state_backfill (processing_graph m) (Some (dataset (job_info m)))
        auth_check sys in
    answer.2 = sys /\
    (forall tasks, answer.1 <> Return (OkResponse tasks)) /\
    (are_valid_parameters [Some (dataset (job_info m))] = true ->
     dataset (job_info m) <> "" ->
     (exists u, auth_check = Return u) ->
     answer.1 =
       if is_DatasetError_or_AdminCustomError e then Return (ErrorResponse e)
       else if is_Exception e
            then Return (ErrorResponse (UnexpectedError "Unexpected error." e))
            else Raise e).
Proof.
  intros Hrev.
  assert (Hproc : process get_dataset_git_revision cause_traceback m sys = (false, sys)).
  { unfold process, process_exit. rewrite Hrev. reflexivity. }
  assert (Hback : backfill configs_of splits_of non_retryable get_dataset_git_revision
                    (processing_graph m) (dataset (job_info m)) p sys = (Raise e, sys)).
  { unfold backfill. rewrite Hrev. reflexivity. }
  split; [exact Hproc|]. split; [unfold run; rewrite Hproc; reflexivity|].
  split; [exact Hback|].
  intros auth_check answer. subst answer.
  unfold dataset_backfill_endpoint, dataset_backfill_body. rewrite Hrev.
  assert (Hanswer : forall err : exn,
            let r := if is_DatasetError_or_AdminCustomError err
                     then (Return (ErrorResponse err), sys)
                     else if is_Exception err
                          then (Return (ErrorResponse (UnexpectedError "Unexpected error." err)),
                                sys)
                          else (Raise err, sys) in
            r.2 = sys /\ forall tasks, r.1 <> Return (OkResponse tasks)).
  { intros err. destruct (is_DatasetError_or_AdminCustomError err);
      [|destruct (is_Exception err)]; (split; [reflexivity|intros tasks; discriminate]). }
  destruct (negb (are_valid_parameters [Some (dataset (job_info m))])) eqn:Hvalid.
  { cbn [orb]. destruct (Hanswer (MissingRequiredParameterError
                                   "Parameter 'dataset' is required")) as [H1 H2].
    split; [exact H1|]. split; [exact H2|].
    intros Hv. rewrite Hv in Hvalid. discriminate Hvalid. }
  cbn [orb]. destruct (dataset (job_info m)) as [|c d] eqn:Hd.
  { destruct (Hanswer (MissingRequiredParameterError
                         "Parameter 'dataset' is required")) as [H1 H2].
    split; [exact H1|]. split; [exact H2|]. intros _ Hne. contradiction. }
  destruct auth_check as [u|err].
  - destruct (Hanswer e) as [H1 H2]. split; [exact H1|]. split; [exact H2|].
    intros _ _ _.
    destruct (is_DatasetError_or_AdminCustomError e); [reflexivity|].
    destruct (is_Exception e); reflexivity.
  - destruct (Hanswer err) as [H1 H2]. split; [exact H1|]. split; [exact H2|].
    intros _ _ [u Hu]. discriminate Hu.
Qed.

(** test_doesnotexist: [process] returns False; and the route, asked to
    backfill the same dataset, answers with the error of the resolver. *)
Lemma dataset_not_found_upstream_witness :
  process (Scenarios.revision_of "0.1.2") Scenarios.no_traceback
    Scenarios.manager_doesnotexist Scenarios.empty_system
    = (false, Scenarios.empty_system) /\
  dataset_backfill_endpoint (Scenarios.revision_of "0.1.2")
    ModelScenarios.parameters_given ModelScenarios.missing_parameter
    ModelScenarios.unexpected_error ModelScenarios.is_dataset_error
    (planner_backfill Scenarios.configs_of Scenarios.splits_of Scenarios.retry_all
       Queue.NORMAL)
    Scenarios.graph_doesnotexist (Some "doesnotexist") (Return tt) Scenarios.empty_system
    = (Return (ErrorResponse Scenarios.dataset_not_found), Scenarios.empty_system).
Proof.
  destruct (dataset_not_found_upstream Scenarios.configs_of Scenarios.splits_of
              Scenarios.retry_all (Scenarios.revision_of "0.1.2") Scenarios.no_traceback
              ModelScenarios.parameters_given ModelScenarios.missing_parameter
              ModelScenarios.unexpected_error ModelScenarios.is_dataset_error
              (planner_backfill Scenarios.configs_of Scenarios.splits_of Scenarios.retry_all
                 Queue.NORMAL)
              Scenarios.manager_doesnotexist Queue.NORMAL Scenarios.empty_system
              Scenarios.dataset_not_found eq_refl) as (Hproc & _ & _ & Hroute).
  split; [exact Hproc|].
  destruct (Hroute (Return tt)) as (Hsys & _ & Hanswer).
  specialize (Hanswer eq_refl ltac:(discriminate) (ex_intro _ tt eq_refl)).
  cbn [Scenarios.manager_doesnotexist Scenarios.manager_of processing_graph job_info
       Scenarios.job_info_of dataset] in Hsys, Hanswer.
  rewrite (surjective_pairing (dataset_backfill_endpoint _ _ _ _ _ _ _ _ _ _)).
  rewrite Hsys, Hanswer. reflexivity.
Defined.

(** C4 as stated fails on test_doesnotexist: after the job is processed
    there is no entry under its key (the test expects DoesNotExist). *)
Lemma dataset_not_found_counterexample :
  (process (Scenarios.revision_of "0.1.2") Scenarios.no_traceback
     Scenarios.manager_doesnotexist Scenarios.empty_system).1 = false /\
  get_response "dummy" "doesnotexist" (Some "default") (Some "train")
    (cache (process (Scenarios.revision_of "0.1.2") Scenarios.no_traceback
              Scenarios.manager_doesnotexist Scenarios.empty_system).2)
    = Raise DoesNotExist /\
  ~ exists entry,
      cache (process (Scenarios.revision_of "0.1.2") Scenarios.no_traceback
               Scenarios.manager_doesnotexist Scenarios.empty_system).2
        !! ("dummy", "doesnotexist", Some "default", Some "train") = Some entry.
Proof.
  split; [reflexivity|]. split; [reflexivity|].
  intros [entry H]. discriminate H.
Qed.

End ManagerSpec.

Module PlannerSpec.
Import Cache Graph State.

(** *** Lists of jobs *)

Lemma unique_key_waiting_job (key : Queue.JobKey) (p : Queue.Priority) :
  Queue.unique_key (Queue.waiting_job key p) = key.
Proof. destruct key as [[[[t d] c] s] r]. reflexivity. Qed.

Lemma with_key_app key l1 l2 : with_key key (l1 ++ l2) = with_key key l1 ++ with_key key l2.
Proof. apply filter_app. Qed.

Lemma with_key_waiting_job key key' p :
  with_key key [Queue.waiting_job key' p] = if decide (key' = key) then [Queue.waiting_job key' p] else [].
Proof.
  unfold with_key. rewrite filter_cons, filter_nil, unique_key_waiting_job.
  destruct (decide (key' = key)); reflexivity.
Qed.

Lemma existsb_has_key_false key (q : list Queue.Job) :
  existsb (Queue.has_key key) q = false -> with_key key q = [].
Proof.
  induction q as [|job q IH]; [reflexivity|]. simpl.
  intros H. apply orb_false_iff in H as [Hjob Hq].
  unfold with_key. rewrite filter_cons.
  unfold Queue.has_key in Hjob. apply bool_decide_eq_false in Hjob.
  destruct (decide (Queue.unique_key job = key)); [contradiction|]. apply IH, Hq.
Qed.

(** *** The growth relation *)

Lemma composable_at_most_one key p : composable (at_most_one key p).
Proof.
  split; [left; reflexivity|].
  intros q new new' [Hn|[Hq Hn]] [Hn'|[Hq' Hn']]; unfold at_most_one;
    rewrite ?with_key_app in *.
  - left. rewrite Hn, Hn'. reflexivity.
  - right. apply app_eq_nil in Hq' as [Hq _]. rewrite Hn, Hn'. auto.
  - right. rewrite Hn, Hn'. auto.
  - apply app_eq_nil in Hq' as [_ Hnil]. rewrite Hn in Hnil. discriminate.
Qed.

Lemma composable_none_of_type n : composable (none_of_type n).
Proof.
  split; [intros q; constructor|].
  intros q new new' H H'. apply Forall_app. split; assumption.
Qed.

Lemma grows_refl P st : composable P -> grows P st st.
Proof.
  intros [Hnil _]. split; [reflexivity|].
  exists []. rewrite !app_nil_r. auto.
Qed.

Lemma grows_trans P st1 st2 st3 :
  composable P -> grows P st1 st2 -> grows P st2 st3 -> grows P st1 st3.
Proof.
  intros [_ Hcomp] [Hc12 (new & Hq & Hj & HP)] [Hc23 (new' & Hq' & Hj' & HP')].
  split; [etrans; eassumption|].
  exists (new ++ new'). rewrite Hq', Hj', Hq, Hj, !app_assoc.
  split; [reflexivity|]. split; [reflexivity|].
  apply Hcomp; [exact HP|]. rewrite <- Hq. exact HP'.
Qed.

(** A fold grows if each of its steps does, given that the state it starts
    from has grown from the initial one. *)
Lemma fold_left_grows {X} P (f : System * Plan -> X -> System * Plan) (l : list X) st0 :
  composable P ->
  (forall st x, x ∈ l -> grows P st0 st -> grows P st (f st x)) ->
  grows P st0 (fold_left f l st0).
Proof.
  intros HP Hstep.
  assert (H : forall st, grows P st0 st -> grows P st0 (fold_left f l st)).
  { induction l as [|x l IH]; intros st Hst; [exact Hst|].
    simpl. apply IH.
    - intros st' x' Hin. apply Hstep. right. exact Hin.
    - eapply grows_trans; [exact HP|exact Hst|]. apply Hstep; [left|exact Hst]. }
  apply H, grows_refl, HP.
Qed.

Lemma existsb_has_key_true key (q : list Queue.Job) :
  existsb (Queue.has_key key) q = true -> with_key key q <> [].
Proof.
  induction q as [|job q IH]; [discriminate|]. simpl.
  intros H. unfold with_key. rewrite filter_cons.
  destruct (decide (Queue.unique_key job = key)) as [_|Hne]; [discriminate|].
  apply orb_true_iff in H as [Hjob|Hq]; [|apply IH, Hq].
  unfold Queue.has_key in Hjob. apply bool_decide_eq_true in Hjob. contradiction.
Qed.

Section pass.
Variable configs_of : json -> list string.
Variable splits_of : json -> list string.
Variable non_retryable : option string -> bool.
Variable graph : ProcessingGraph.
Variables dataset revision : string.
Variable p : Queue.Priority.

Local Abbreviation plan_triple' := (plan_triple non_retryable).
Local Abbreviation plan_step' :=
  (plan_step configs_of splits_of non_retryable graph dataset revision p).
Local Abbreviation plan' := (plan configs_of splits_of non_retryable graph dataset revision p).

Lemma enqueue_grows P key st :
  composable P ->
  (existsb (Queue.has_key key) (queue st.1) = false ->
   P (queue st.1) [Queue.waiting_job key p]) ->
  grows P st (enqueue key p st).
Proof.
  intros HP Hnew. unfold enqueue, Queue.create_job.
  destruct (existsb (Queue.has_key key) (queue st.1)) eqn:Hex.
  - destruct st as [sys pl]. destruct sys as [c q]. simpl. apply (grows_refl P (_, _) HP).
  - split; [reflexivity|]. exists [Queue.waiting_job key p]. simpl. auto.
Qed.

Lemma delete_entry_grows P key st : composable P -> grows P st (delete_entry key st).
Proof.
  intros [Hnil _]. split; [apply delete_subseteq|].
  exists []. simpl. rewrite !app_nil_r. auto.
Qed.

Lemma plan_triple_grows P step st triple :
  composable P ->
  (forall q, existsb (Queue.has_key (job_type step, dataset, triple.1, triple.2, revision)) q
             = false ->
             P q [Queue.waiting_job (job_type step, dataset, triple.1, triple.2, revision) p]) ->
  grows P st (plan_triple' step dataset revision p st triple).
Proof.
  intros HP Hnew. unfold plan_triple.
  destruct (classify _ _ _ _).
  - apply grows_refl, HP.
  - eapply grows_trans; [exact HP|apply delete_entry_grows, HP|].
    apply enqueue_grows; [exact HP|]. apply Hnew.
  - apply enqueue_grows; [exact HP|]. apply Hnew.
  - apply enqueue_grows; [exact HP|]. apply Hnew.
  - apply grows_refl, HP.
Qed.

Lemma plan_step_grows P step st :
  composable P ->
  (forall triple q,
     triple ∈ reachable configs_of splits_of graph (cache st.1) dataset revision step ->
     existsb (Queue.has_key (job_type step, dataset, triple.1, triple.2, revision)) q = false ->
     P q [Queue.waiting_job (job_type step, dataset, triple.1, triple.2, revision) p]) ->
  grows P st (plan_step' st step).
Proof.
  intros HP Hnew. unfold plan_step.
  apply fold_left_grows; [exact HP|].
  intros st' triple Hin _. apply plan_triple_grows; [exact HP|].
  intros q. apply Hnew, Hin.
Qed.

Lemma at_most_one_new key key' q :
  existsb (Queue.has_key key') q = false ->
  at_most_one key p q [Queue.waiting_job key' p].
Proof.
  intros Hex. unfold at_most_one. rewrite with_key_waiting_job.
  destruct (decide (key' = key)) as [->|]; [right|left; reflexivity].
  split; [apply existsb_has_key_false, Hex|reflexivity].
Qed.

Lemma plan_step_at_most_one key step st :
  grows (at_most_one key p) st (plan_step' st step).
Proof.
  apply plan_step_grows; [apply composable_at_most_one|].
  intros triple q _. apply at_most_one_new.
Qed.

(** A pass creates at most one job per unique key. *)
Lemma fold_plan_step_at_most_one key steps st :
  grows (at_most_one key p) st (fold_left plan_step' steps st).
Proof.
  apply fold_left_grows; [apply composable_at_most_one|].
  intros st' step _ _. apply plan_step_at_most_one.
Qed.

(** The step of a dataset-level triple without entry leaves a job with its
    key in the queue. *)
Lemma plan_step_missing step st :
  input_type step = dataset_level ->
  cache st.1 !! (cache_kind step, dataset, None, None) = None ->
  with_key (job_type step, dataset, None, None, revision) (queue (plan_step' st step).1) <> [].
Proof.
  intros Hlevel Hnone. unfold plan_step, reachable. rewrite Hlevel.
  cbn [fold_left]. unfold plan_triple. cbn [fst snd]. rewrite Hnone. cbn [classify].
  unfold enqueue, Queue.create_job.
  destruct (existsb _ (queue st.1)) eqn:Hex; cbn [fst queue].
  - apply existsb_has_key_true, Hex.
  - rewrite with_key_app, with_key_waiting_job.
    destruct (decide _) as [_|Hne]; [|contradiction].
    intros H. apply app_eq_nil in H as [_ H]. discriminate.
Qed.

Lemma grows_with_key_nonempty P key st st' :
  grows P st st' -> with_key key (queue st.1) <> [] -> with_key key (queue st'.1) <> [].
Proof.
  intros [_ (new & Hq & _)] Hne. rewrite Hq, with_key_app.
  intros H. apply app_eq_nil in H as [H _]. contradiction.
Qed.

(** Exactly one job for a dataset-level step without entry and without
    job. *)
Lemma plan_missing_dataset_step step sys :
  step ∈ graph ->
  input_type step = dataset_level ->
  cache sys !! (cache_kind step, dataset, None, None) = None ->
  with_key (job_type step, dataset, None, None, revision) (queue sys) = [] ->
  let key := (job_type step, dataset, None, None, revision) in
  with_key key (jobs_created (plan' sys).2) = [Queue.waiting_job key p] /\
  with_key key (queue (plan' sys).1) = [Queue.waiting_job key p] /\
  queue (plan' sys).1 = queue sys ++ jobs_created (plan' sys).2.
Proof.
  intros Hin Hlevel Hnone Hq key.
  apply list_elem_of_split in Hin as (pre & post & Hgraph).
  unfold plan. set (f := plan_step configs_of splits_of non_retryable graph dataset revision p).
  set (init := (sys, empty_plan)).
  assert (Hwhole : grows (at_most_one key p) init (fold_left f graph init))
    by apply fold_plan_step_at_most_one.
  assert (Hne : with_key key (queue (fold_left f graph init).1) <> []).
  { rewrite Hgraph at 1. rewrite fold_left_app. cbn [fold_left].
    set (st1 := fold_left f pre init).
    assert (H1 : grows (at_most_one key p) init st1) by apply fold_plan_step_at_most_one.
    eapply grows_with_key_nonempty; [apply (fold_plan_step_at_most_one key post)|].
    apply plan_step_missing; [exact Hlevel|].
    destruct H1 as [Hsub _]. eapply lookup_weaken_None; [exact Hnone|exact Hsub]. }
  destruct Hwhole as [_ (new & Hqueue & Hcreated & Hone)].
  subst init key. cbn [fst snd queue jobs_created empty_plan] in Hqueue, Hcreated, Hone.
  rewrite app_nil_l in Hcreated.
  rewrite Hqueue, with_key_app, Hq, app_nil_l in Hne.
  destruct Hone as [Hnil|[_ Hone]]; [contradiction|].
  rewrite Hcreated, Hqueue, with_key_app, Hq, app_nil_l. auto.
Qed.

Lemma valid_current_content_weaken (store' store : Store) step config split payload :
  store' ⊆ store ->
  valid_current_content store' step dataset config split revision = Some payload ->
  valid_current_content store step dataset config split revision = Some payload.
Proof.
  intros Hsub. unfold valid_current_content.
  destruct (store' !! _) as [e|] eqn:Hl; [|discriminate].
  rewrite (lookup_weaken _ _ _ _ Hl Hsub). trivial.
Qed.

(** Configs unknown in a cache stay unknown in a smaller cache. *)
Lemma known_configs_weaken (store' store : Store) step :
  store' ⊆ store ->
  known_configs configs_of graph store dataset revision step = [] ->
  known_configs configs_of graph store' dataset revision step = [].
Proof.
  intros Hsub. unfold known_configs.
  induction (ancestors_at dataset_level graph step) as [|a l IH]; [reflexivity|].
  simpl. intros H. apply app_eq_nil in H as [Ha Hl].
  rewrite (IH Hl), app_nil_r.
  destruct (valid_current_content store' a dataset None None revision) as [payload|] eqn:Hv;
    [|reflexivity].
  rewrite (valid_current_content_weaken _ _ _ _ _ _ Hsub Hv) in Ha. exact Ha.
Qed.

(** No config is known when the one ancestor that enumerates configs has
    no valid, current entry and the payloads of the others name no config. *)
Lemma known_configs_nil_but (store : Store) step lister :
  valid_current_content store lister dataset None None revision = None ->
  (forall a payload,
     a ∈ ancestors_at dataset_level graph step -> a <> lister ->
     valid_current_content store a dataset None None revision = Some payload ->
     configs_of payload = []) ->
  known_configs configs_of graph store dataset revision step = [].
Proof.
  intros Hnone. unfold known_configs.
  induction (ancestors_at dataset_level graph step) as [|a l IH]; [reflexivity|].
  intros H. simpl. rewrite IH by (intros a' payload Hin; apply H; right; exact Hin).
  rewrite app_nil_r.
  destruct (valid_current_content store a dataset None None revision) as [payload|] eqn:Hv;
    [|reflexivity].
  apply (H a payload); [left| |exact Hv].
  intros ->. rewrite Hnone in Hv. discriminate Hv.
Qed.

Lemma step_unique (steps : list ProcessingStep) (s s' : ProcessingStep) :
  NoDup (map name steps) -> s ∈ steps -> s' ∈ steps -> name s = name s' -> s = s'.
Proof.
  induction steps as [|x steps IH]; intros Hnd Hs Hs' Hname; [inversion Hs|].
  simpl in Hnd. apply NoDup_cons in Hnd as [Hx Hnd].
  apply elem_of_cons in Hs as [->|Hs]; apply elem_of_cons in Hs' as [->|Hs'].
  - reflexivity.
  - exfalso. apply Hx. rewrite Hname. apply (list_elem_of_fmap_2 name). exact Hs'.
  - exfalso. apply Hx. rewrite <- Hname. apply (list_elem_of_fmap_2 name). exact Hs.
  - apply IH; assumption.
Qed.

(** A pass creates no job of the type of a config-level step whose configs
    are unknown. *)
Lemma plan_unknown_configs step sys :
  NoDup (map name graph) ->
  step ∈ graph ->
  input_type step = config_level ->
  known_configs configs_of graph (cache sys) dataset revision step = [] ->
  Forall (fun job => Queue.type job <> job_type step) (jobs_created (plan' sys).2) /\
  queue (plan' sys).1 = queue sys ++ jobs_created (plan' sys).2.
Proof.
  intros Hnd Hin Hlevel Hunknown.
  assert (H : grows (none_of_type (job_type step)) (sys, empty_plan) (plan' sys)).
  { unfold plan. apply fold_left_grows; [apply composable_none_of_type|].
    intros st s' Hs' [Hsub _]. cbn [fst] in Hsub.
    destruct (decide (name s' = name step)) as [Heq|Hne].
    - assert (s' = step) as -> by (apply (step_unique graph); assumption).
      unfold plan_step, reachable. rewrite Hlevel.
      rewrite (known_configs_weaken _ _ _ Hsub Hunknown). cbn [map fold_left].
      apply grows_refl, composable_none_of_type.
    - apply plan_step_grows; [apply composable_none_of_type|].
      intros triple q _ _. constructor; [|constructor].
      unfold job_type. simpl. exact Hne. }
  destruct H as [_ (new & Hq & Hc & Hnone)].
  cbn [fst snd queue jobs_created empty_plan] in Hq, Hc.
  rewrite app_nil_l in Hc. rewrite Hc, Hq. split; [exact Hnone|reflexivity].
Qed.

End pass.

End PlannerSpec.

Module CascadeSpec.
Import Cache Graph State Manager.

Lemma get_dump_with_status_app job_type st (q new : list Queue.Job) :
  Forall (fun job => Queue.type job <> job_type) new ->
  Queue.get_dump_with_status job_type st (q ++ new) = Queue.get_dump_with_status job_type st q.
Proof.
  intros Hnew. unfold Queue.get_dump_with_status. rewrite filter_app.
  rewrite <- (app_nil_r (filter _ q)) at 2. f_equal.
  induction Hnew as [|job new Hjob _ IH]; [reflexivity|].
  rewrite filter_cons. destruct (decide _) as [[Ht _]|_]; [contradiction|exact IH].
Qed.

(** A successful [process] committed a valid entry under the job's key and
    left the queue alone. *)
Lemma process_succeeded get_dataset_git_revision cause_traceback m sys sys1 revision :
  get_dataset_git_revision (dataset (job_info m)) = Return revision ->
  process get_dataset_git_revision cause_traceback m sys = (true, sys1) ->
  queue sys1 = queue sys /\
  exists payload,
    compute (job_runner m) (cache sys) = Return payload /\
    cache sys1 =
      upsert_response (cache_kind (processing_step (job_runner m)))
        (dataset (job_info m)) (config (job_info m)) (split (job_info m))
        (ok_entry payload (get_job_runner_version (job_runner m)) revision) (cache sys).
Proof.
  intros Hrev. unfold process, process_exit. rewrite Hrev.
  destruct (match get_parallel_job_runner (job_runner m) with Some _ => _ | None => _ end);
    [|intros [=]].
  destruct (compute (job_runner m) (cache sys)) as [payload|err].
  - intros [= <-]. split; [reflexivity|]. exists payload. split; reflexivity.
  - destruct (bool_decide _); intros [=].
Qed.

(** C2.  (1) In a graph with unique step names, let a config-level step be
    triggered by a dataset-level step that enumerates the configs.  While
    that step has no valid, current cache entry, a pass of the planner creates
    no job for the config-level step, whatever entries the other ancestors
    have, as long as their payloads name no config (they are not
    enumerating steps).  (2) When a job is processed successfully, the run
    plans the dataset at the job's priority, and for every dataset-level step
    of the graph, triggered by the completed step or not, that has no cache
    entry and no job for the current revision, it creates exactly one job, a
    WAITING one; (3) it creates no job for a config-level step whose configs
    are still unknown. *)
Theorem fan_out_and_cascade
    (configs_of splits_of : json -> list string) (non_retryable : option string -> bool)
    (get_dataset_git_revision : string -> outcome string)
    (cause_traceback : exn -> list string) :
  (forall (graph : ProcessingGraph) (d revision : string) (p : Queue.Priority)
          (sys : System) (step lister : ProcessingStep),
     NoDup (map name graph) ->
     step ∈ graph ->
     input_type step = config_level ->
     lister ∈ graph ->
     input_type lister = dataset_level ->
     name lister ∈ triggered_by step ->
     valid_current_content (cache sys) lister d None None revision = None ->
     (forall a payload,
        a ∈ ancestors_at dataset_level graph step -> a <> lister ->
        valid_current_content (cache sys) a d None None revision = Some payload ->
        configs_of payload = []) ->
     let r := plan configs_of splits_of non_retryable graph d revision p sys in
     Forall (fun job => Queue.type job <> job_type step) (jobs_created r.2) /\
     Queue.get_dump_with_status (job_type step) Queue.WAITING (queue r.1)
       = Queue.get_dump_with_status (job_type step) Queue.WAITING (queue sys))
  /\
  (forall (m : JobManager) (sys sys1 : System) (revision : string),
     get_dataset_git_revision (dataset (job_info m)) = Return revision ->
     process get_dataset_git_revision cause_traceback m sys = (true, sys1) ->
     let r := run configs_of splits_of non_retryable get_dataset_git_revision
                cause_traceback m sys in
     let graph := processing_graph m in
     let d := dataset (job_info m) in
     let p := priority (job_info m) in
     r.1.1 = true /\
     queue sys1 = queue sys /\
     queue r.2 = queue sys1 ++ jobs_created r.1.2 /\
     (forall step,
        step ∈ graph ->
        input_type step = dataset_level ->
        cache sys1 !! (cache_kind step, d, None, None) = None ->
        with_key (job_type step, d, None, None, revision) (queue sys1) = [] ->
        with_key (job_type step, d, None, None, revision) (jobs_created r.1.2)
          = [Queue.waiting_job (job_type step, d, None, None, revision) p] /\
        with_key (job_type step, d, None, None, revision) (queue r.2)
          = [Queue.waiting_job (job_type step, d, None, None, revision) p]) /\
     (forall step,
        NoDup (map name graph) ->
        step ∈ graph ->
        input_type step = config_level ->
        known_configs configs_of graph (cache sys1) d revision step = [] ->
        Forall (fun job => Queue.type job <> job_type step) (jobs_created r.1.2) /\
        Queue.get_dump_with_status (job_type step) Queue.WAITING (queue r.2)
          = Queue.get_dump_with_status (job_type step) Queue.WAITING (queue sys1))).
Proof.
  split.
  - intros graph d revision p sys step lister Hnd Hin Hlevel _ _ _ Hnone Hothers r.
    destruct (PlannerSpec.plan_unknown_configs configs_of splits_of non_retryable graph d
                revision p step sys Hnd Hin Hlevel) as [Hnojob Hq].
    { apply (PlannerSpec.known_configs_nil_but configs_of graph d revision (cache sys)
               step lister Hnone Hothers). }
    split; [exact Hnojob|]. subst r. rewrite Hq.
    apply get_dump_with_status_app, Hnojob.
  - intros m sys sys1 revision Hrev Hproc r graph d p.
    pose (pl := plan configs_of splits_of non_retryable graph d revision p sys1).
    assert (Hrun : r = (true, pl.2, pl.1)).
    { subst r pl graph d p. unfold run. rewrite Hproc. cbn [fst snd]. unfold backfill.
      rewrite Hrev. reflexivity. }
    rewrite Hrun. cbn [fst snd].
    destruct (process_succeeded _ _ _ _ _ _ Hrev Hproc) as [Hqueue _].
    split; [reflexivity|]. split; [exact Hqueue|].
    assert (Hgrow : queue pl.1 = queue sys1 ++ jobs_created pl.2).
    { destruct (PlannerSpec.fold_plan_step_at_most_one configs_of splits_of non_retryable
                  graph d revision p ("", "", None, None, "") graph (sys1, empty_plan))
        as [_ (new & Hq & Hc & _)].
      cbn [fst snd queue jobs_created empty_plan] in Hq, Hc. rewrite app_nil_l in Hc.
      subst pl. unfold plan. rewrite Hq, Hc. reflexivity. }
    split; [exact Hgrow|]. split.
    + intros step Hin Hlevel Hnone Hnojob.
      destruct (PlannerSpec.plan_missing_dataset_step configs_of splits_of non_retryable
                  graph d revision p step sys1 Hin Hlevel Hnone Hnojob) as (Hc & Hq & _).
      split; assumption.
    + intros step Hnd Hin Hlevel Hunknown.
      destruct (PlannerSpec.plan_unknown_configs configs_of splits_of non_retryable graph d
                  revision p step sys1 Hnd Hin Hlevel Hunknown) as [Hnone Hq].
      split; [exact Hnone|]. subst pl. rewrite Hq. apply get_dump_with_status_app, Hnone.
Qed.

(** The fan-out graph of the specification, where "root" has a valid,
    current entry and "list-configs" has none: a pass creates no
    "per-config" job.  And test_backfill: after the job of the root step
    "dummy" has run, one WAITING job exists for "dataset-child", one for
    "dataset-unrelated", and none for "config-child". *)
Lemma fan_out_and_cascade_witness :
  let pass := plan Scenarios.configs_of Scenarios.splits_of Scenarios.retry_all
                Scenarios.graph_fan_out "dataset" "rev" Queue.LOW
                ModelScenarios.system_with_root in
  let r := run Scenarios.configs_of Scenarios.splits_of Scenarios.retry_all
             (Scenarios.revision_of "0.1.2") Scenarios.no_traceback
             (Scenarios.manager_backfill Queue.LOW) Scenarios.empty_system in
  valid_current_content (cache ModelScenarios.system_with_root)
    (Scenarios.step_of "root" dataset_level []) "dataset" None None "rev" = Some JNull /\
  Forall (fun job => Queue.type job <> "per-config") (jobs_created pass.2) /\
  r.1.1 = true /\
  with_key ("dataset-unrelated", "dataset", None, None, "0.1.2") (queue r.2)
    = [Queue.waiting_job ("dataset-unrelated", "dataset", None, None, "0.1.2") Queue.LOW] /\
  Forall (fun job => Queue.type job <> "config-child") (jobs_created r.1.2) /\
  length (Queue.get_dump_with_status "dataset-child" Queue.WAITING (queue r.2)) = 1%nat /\
  length (Queue.get_dump_with_status "dataset-unrelated" Queue.WAITING (queue r.2)) = 1%nat /\
  length (Queue.get_dump_with_status "config-child" Queue.WAITING (queue r.2)) = 0%nat.
Proof.
  intros pass r.
  destruct (fan_out_and_cascade Scenarios.configs_of Scenarios.splits_of Scenarios.retry_all
              (Scenarios.revision_of "0.1.2") Scenarios.no_traceback) as [Hpass Hrun].
  destruct (Hrun (Scenarios.manager_backfill Queue.LOW) Scenarios.empty_system
              (process (Scenarios.revision_of "0.1.2") Scenarios.no_traceback
                 (Scenarios.manager_backfill Queue.LOW) Scenarios.empty_system).2
              "0.1.2" eq_refl eq_refl) as (Hok & _ & _ & Hdataset & Hconfig).
  clear Hrun.
  split; [vm_compute; reflexivity|].
  split; [|split; [exact Hok|split; [|split]]].
  - apply (Hpass Scenarios.graph_fan_out "dataset" "rev" Queue.LOW
             ModelScenarios.system_with_root
             (Scenarios.step_of "per-config" config_level ["list-configs"])
             (Scenarios.step_of "list-configs" dataset_level ["root"])).
    + apply (bool_decide_unpack _). vm_compute. exact I.
    + do 2 right. left.
    + reflexivity.
    + right. left.
    + reflexivity.
    + left.
    + vm_compute. reflexivity.
    + intros a payload Hin Hne Hv.
      assert (Hanc : ancestors_at dataset_level Scenarios.graph_fan_out
                       (Scenarios.step_of "per-config" config_level ["list-configs"])
                     = [Scenarios.step_of "list-configs" dataset_level ["root"];
                        Scenarios.step_of "root" dataset_level []])
        by (vm_compute; reflexivity).
      rewrite Hanc in Hin. clear Hanc.
      apply elem_of_cons in Hin as [->|Hin]; [contradiction|].
      apply elem_of_cons in Hin as [->|Hin]; [|inversion Hin].
      assert (Hroot : valid_current_content (cache ModelScenarios.system_with_root)
                        (Scenarios.step_of "root" dataset_level []) "dataset" None None
                        "rev" = Some JNull) by (vm_compute; reflexivity).
      rewrite Hroot in Hv. injection Hv as <-. reflexivity.
  - apply (Hdataset (Scenarios.step_of "dataset-unrelated" dataset_level [])).
    + do 3 right. left.
    + reflexivity.
    + vm_compute. reflexivity.
    + reflexivity.
  - apply (Hconfig (Scenarios.step_of "config-child" config_level ["dummy"])).
    + apply (bool_decide_unpack _). vm_compute. exact I.
    + do 2 right. left.
    + reflexivity.
    + vm_compute. reflexivity.
  - clear Hpass Hok Hdataset Hconfig. vm_compute. repeat split; reflexivity.
Defined.

(** The fan-out example of the specification: once "list-configs" has
    produced the configs "a" and "b", the next pass creates exactly two
    "per-config" jobs, one per config, and nothing else. *)
Example fan_out_two_configs :
  jobs_created
    (plan Scenarios.configs_of Scenarios.splits_of Scenarios.retry_all
       Scenarios.graph_fan_out "dataset" "rev" Queue.NORMAL
       Scenarios.system_with_configs).2
  = [Queue.waiting_job ("per-config", "dataset", Some "a", None, "rev") Queue.NORMAL;
     Queue.waiting_job ("per-config", "dataset", Some "b", None, "rev") Queue.NORMAL].
Proof. vm_compute. reflexivity. Qed.

(** A second pass right after the first creates nothing. *)
Example backfill_twice :
  let first := plan Scenarios.configs_of Scenarios.splits_of Scenarios.retry_all
                 Scenarios.graph_fan_out "dataset" "rev" Queue.NORMAL
                 Scenarios.system_with_configs in
  jobs_created
    (plan Scenarios.configs_of Scenarios.splits_of Scenarios.retry_all
       Scenarios.graph_fan_out "dataset" "rev" Queue.NORMAL first.1).2 = [].
Proof. vm_compute. reflexivity. Qed.

End CascadeSpec.

(** * Further properties of the first-rows job runner *)
Module FirstRowsMore.
Import Retry Cache FirstRows Measures.

Lemma total_app (l1 l2 : list Z) : total (l1 ++ l2) = (total l1 + total l2)%Z.
Proof. unfold total. induction l1 as [|x l1 IH]; simpl; [reflexivity|]. rewrite IH. lia. Qed.

Lemma total_take_SLEEPS (n : nat) : (0 <= total (take n SLEEPS) <= 4698)%Z.
Proof. do 6 (destruct n as [|n]; [vm_compute; split; discriminate|]). vm_compute; split; discriminate. Qed.

Lemma take_SLEEPS_pos (n : nat) : (1 <= n)%nat -> (1 <= total (take n SLEEPS))%Z.
Proof.
  intros H. destruct n as [|n]; [lia|].
  do 5 (destruct n as [|n]; [vm_compute; discriminate|]). vm_compute; discriminate.
Qed.

Section get_rows.
Variable load_dataset :
  nat -> string -> string -> string -> bool -> option string -> outcome DatasetObj.
Variables (dataset config split : string) (streaming : bool)
  (rows_max_number : Z) (use_auth_token : option string).

Local Abbreviation body :=
  (get_rows_body load_dataset dataset config split streaming rows_max_number use_auth_token).
Local Abbreviation run :=
  (get_rows load_dataset dataset config split streaming rows_max_number use_auth_token).

Lemma body_calls w r w' :
  body w = (r, w') -> hub_calls w' = S (hub_calls w) /\ slept w' = slept w.
Proof.
  unfold get_rows_body. destruct (load_dataset _ _ _ _ _ _); intros [= _ <-]; split; reflexivity.
Qed.

Lemma failed_calls n w errs w1 :
  failed time_sleep body n w errs w1 ->
  hub_calls w1 = (hub_calls w + n)%nat /\ slept w1 = slept w ++ take n SLEEPS.
Proof.
  induction 1 as [st|n st errs st1 d e st2 Hf [IHc IHs] Hd Hcall Hconn].
  - split; [lia|]. simpl. rewrite app_nil_r. reflexivity.
  - apply body_calls in Hcall as [Hc Hs]. split.
    + rewrite Hc. cbn [time_sleep hub_calls]. lia.
    + rewrite Hs. cbn [time_sleep slept]. rewrite IHs, (take_S_r _ _ _ Hd), app_assoc.
      reflexivity.
Qed.

(** Every run of [get_rows] ends after [n] attempts, [1 <= n <= 5], having
    called the Hub [n] times and slept the first [n] durations. *)
Lemma get_rows_attempts w :
  exists r w' n,
    run w = Some (r, w') /\ (1 <= n <= 5)%nat /\
    hub_calls w' = (hub_calls w + n)%nat /\
    slept w' = slept w ++ take n SLEEPS.
Proof.
  destruct (RetrySpec.decorator_cases time_sleep body w)
    as (_ & _ & n & errs & w1 & Hf & Hn & Hcases).
  destruct (failed_calls _ _ _ _ Hf) as [Hc Hs].
  assert (Hnext : forall d r w2, SLEEPS !! n = Some d -> body (time_sleep d w1) = (r, w2) ->
            (1 <= S n <= 5)%nat /\ hub_calls w2 = (hub_calls w + S n)%nat /\
            slept w2 = slept w ++ take (S n) SLEEPS).
  { intros d r w2 Hd Hb. destruct (body_calls _ _ _ Hb) as [Hc2 Hs2].
    pose proof (lookup_lt_Some _ _ _ Hd) as Hlt. simpl in Hlt.
    split; [lia|]. split.
    - rewrite Hc2. cbn [time_sleep hub_calls]. lia.
    - rewrite Hs2. cbn [time_sleep slept].
      rewrite Hs, (take_S_r _ _ _ Hd), app_assoc. reflexivity. }
  destruct Hcases as [(d & v & w2 & Hd & Hb & Hrun)|[(d & e & w2 & Hd & Hb & He & Hrun)
                        |(Hn5 & e & Hl & He & Hrun)]].
  - exists (Return v), w2, (S n). split; [exact Hrun|]. eapply Hnext; eassumption.
  - exists (Raise e), w2, (S n). split; [exact Hrun|]. eapply Hnext; eassumption.
  - eexists _, w1, n. split; [exact Hrun|].
    unfold MAX_ATTEMPTS in Hn5. simpl in Hn5. split; [lia|]. split; assumption.
Qed.

(** X1.  Every call of the retried [get_rows] returns after at least one
    and at most five calls of [load_dataset], one per sleep, and sleeps at
    least 1 and at most 4698 seconds in all. *)
Theorem get_rows_bounded w :
  exists r w',
    run w = Some (r, w') /\
    (hub_calls w + 1 <= hub_calls w' <= hub_calls w + 5)%nat /\
    length (slept w') = (length (slept w) + (hub_calls w' - hub_calls w))%nat /\
    (total (slept w) + 1 <= total (slept w') <= total (slept w) + 4698)%Z.
Proof.
  destruct (get_rows_attempts w) as (r & w' & n & Hrun & Hn & Hc & Hs).
  exists r, w'. split; [exact Hrun|]. split; [lia|]. split.
  - rewrite Hs, length_app, length_take. simpl. lia.
  - rewrite Hs, total_app.
    pose proof (total_take_SLEEPS n). pose proof (take_SLEEPS_pos n). lia.
Qed.

(** The first attempt decides when it does not end in a ConnectionError. *)
Lemma first_attempt w r w2 :
  body (time_sleep 1 w) = (r, w2) ->
  match r with Raise e => is_ConnectionError e = false | Return _ => True end ->
  run w = Some (r, w2).
Proof.
  intros Hb Hr. unfold get_rows, decorator.
  change MAX_ATTEMPTS with (S 4).
  rewrite (RetrySpec.loop_step time_sleep body 4 0 None w 1%Z eq_refl), Hb.
  destruct r as [v|e]; [reflexivity|]. rewrite Hr. reflexivity.
Qed.

(** X2.  With a cap [rows_max_number >= 0] and a first load that gives a
    dataset of the right class.  When the cap is below [sys.maxsize]: if the
    dataset can yield [rows_max_number + 1] rows, or ends without error,
    [get_rows] returns its first [rows_max_number] rows after one attempt; if
    it breaks, with an error that is not an instance of ConnectionError,
    before yielding [rows_max_number + 1] rows, the error is raised, even
    when [rows_max_number] rows had been read.  When the cap is [sys.maxsize]
    or more, [islice] rejects [rows_max_number + 1] and the ValueError is
    raised after one attempt. *)
Theorem get_rows_truncation w ds stream :
  (0 <= rows_max_number)%Z ->
  load_dataset (hub_calls w) dataset config split streaming use_auth_token = Return ds ->
  of_mode streaming ds stream ->
  ((rows_max_number < sys_maxsize)%Z ->
   (S (Z.to_nat rows_max_number) <= length (items stream) \/ failure stream = None ->
    run w = Some (Return (take (Z.to_nat rows_max_number) (items stream)),
                  after_one_attempt w))
   /\
   (forall e,
      (length (items stream) <= Z.to_nat rows_max_number)%nat ->
      failure stream = Some e ->
      "ConnectionError" ∉ mro e ->
      run w = Some (Raise e, after_one_attempt w)))
  /\
  ((sys_maxsize <= rows_max_number)%Z ->
   run w = Some (Raise (ValueError
                   "Stop argument for islice() must be None or an integer: 0 <= x <= sys.maxsize."),
                 after_one_attempt w)).
Proof.
  intros Hpos Hload Hmode.
  assert (Hbody : body (time_sleep 1 w) =
                  (bind (islice stream (rows_max_number + 1)) (fun rows_plus_one =>
                     Return (slice_to rows_plus_one rows_max_number)),
                   after_one_attempt w)).
  { unfold get_rows_body. cbn [time_sleep hub_calls slept]. rewrite Hload.
    destruct ds as [rows resolved|rows|]; simpl in Hmode; [| |contradiction];
      destruct Hmode as [-> ->]; reflexivity. }
  assert (Hstop : Z.to_nat (rows_max_number + 1) = S (Z.to_nat rows_max_number)) by lia.
  assert (Hslice : forall l : list Row,
            slice_to l rows_max_number = take (Z.to_nat rows_max_number) l).
  { intros l. unfold slice_to. destruct (Z.leb_spec 0 rows_max_number); [reflexivity|lia]. }
  unfold islice in Hbody. rewrite Hstop in Hbody.
  destruct (Z.ltb_spec (rows_max_number + 1) 0) as [Hneg|_]; [lia|].
  cbn [orb] in Hbody.
  destruct (Z.ltb_spec sys_maxsize (rows_max_number + 1)) as [Hover|Hunder].
  - split; [intros Hlt; lia|]. intros _.
    apply first_attempt; [exact Hbody|reflexivity].
  - split; [|intros Hge; lia]. intros _. split.
    + intros Hcase. apply first_attempt; [|exact I]. rewrite Hbody. f_equal.
      destruct (Nat.leb_spec (S (Z.to_nat rows_max_number)) (length (items stream)))
        as [Hle|Hgt]; cbn [bind].
      * rewrite Hslice, take_take. f_equal. f_equal. lia.
      * destruct Hcase as [Hle|Hnone]; [lia|]. rewrite Hnone. cbn [bind].
        rewrite Hslice. reflexivity.
    + intros e Hlen Hfail Hconn.
      apply first_attempt; [|apply RetrySpec.is_ConnectionError_false, Hconn].
      rewrite Hbody. f_equal.
      destruct (Nat.leb_spec (S (Z.to_nat rows_max_number)) (length (items stream)));
        [lia|]. rewrite Hfail. reflexivity.
Qed.

(** X3.  Failures that are not retried: when the first load raises an
    exception that is not an instance of ConnectionError (its class does not
    have ConnectionError in its [__mro__]), or returns an object of the wrong
    class for the mode, [get_rows] raises (the exception, or a TypeError)
    after a single attempt and a single sleep of one second.  An instance of
    ConnectionError, of whatever subclass, is not raised after the first
    attempt: [get_rows] sleeps seven seconds and calls [load_dataset]
    again. *)
Theorem get_rows_not_retried w :
  (forall e,
     load_dataset (hub_calls w) dataset config split streaming use_auth_token = Raise e ->
     "ConnectionError" ∉ mro e ->
     run w = Some (Raise e, after_one_attempt w))
  /\
  (forall ds,
     load_dataset (hub_calls w) dataset config split streaming use_auth_token = Return ds ->
     wrong_class streaming ds = true ->
     run w = Some (Raise (TypeError (wrong_class_message streaming)), after_one_attempt w))
  /\
  (forall e r w',
     load_dataset (hub_calls w) dataset config split streaming use_auth_token = Raise e ->
     "ConnectionError" ∈ mro e ->
     run w = Some (r, w') ->
     exists attempts,
       (2 <= attempts <= 5)%nat /\
       hub_calls w' = (hub_calls w + attempts)%nat /\
       slept w' = slept w ++ take attempts SLEEPS).
Proof.
  split; [|split].
  - intros e Hload Hconn.
    apply first_attempt; [|apply RetrySpec.is_ConnectionError_false, Hconn].
    unfold get_rows_body. cbn [time_sleep hub_calls slept]. rewrite Hload. reflexivity.
  - intros ds Hload Hwrong. apply first_attempt; [|reflexivity].
    unfold get_rows_body. cbn [time_sleep hub_calls slept]. rewrite Hload.
    destruct streaming, ds; try discriminate Hwrong; reflexivity.
  - intros e r w' Hload Hconn Hrun.
    assert (Hbody : body (time_sleep 1 w) = (Raise e, after_one_attempt w)).
    { unfold get_rows_body. cbn [time_sleep hub_calls slept]. rewrite Hload. reflexivity. }
    destruct (RetrySpec.decorator_cases time_sleep body w)
      as (_ & _ & n & errs & w1 & Hf & Hn & Hcases).
    destruct (failed_calls _ _ _ _ Hf) as [Hc Hs].
    unfold MAX_ATTEMPTS in Hn. simpl in Hn.
    assert (Hpos : (1 <= n)%nat).
    { destruct n as [|n]; [|lia]. exfalso. inversion Hf; subst.
      destruct Hcases as [(d & v & w2 & Hd & Hb & _)|[(d & e' & w2 & Hd & Hb & He & _)
                            |(Hn5 & _)]].
      - injection Hd as <-. rewrite Hbody in Hb. discriminate Hb.
      - injection Hd as <-. rewrite Hbody in Hb. injection Hb as <- _. contradiction.
      - discriminate Hn5. }
    assert (Hnext : forall d r2 w2, SLEEPS !! n = Some d ->
              body (time_sleep d w1) = (r2, w2) -> run w = Some (r2, w2) ->
              exists attempts,
                (2 <= attempts <= 5)%nat /\
                hub_calls w' = (hub_calls w + attempts)%nat /\
                slept w' = slept w ++ take attempts SLEEPS).
    { intros d r2 w2 Hd Hb Hrun2. rewrite Hrun in Hrun2. injection Hrun2 as -> ->.
      destruct (body_calls _ _ _ Hb) as [Hc2 Hs2].
      pose proof (lookup_lt_Some _ _ _ Hd) as Hlt. simpl in Hlt.
      exists (S n). split; [lia|]. split.
      - rewrite Hc2. cbn [time_sleep hub_calls]. lia.
      - rewrite Hs2. cbn [time_sleep slept].
        rewrite Hs, (take_S_r _ _ _ Hd), app_assoc. reflexivity. }
    destruct Hcases as [(d & v & w2 & Hd & Hb & Hdec)|[(d & e' & w2 & Hd & Hb & He & Hdec)
                          |(Hn5 & e' & _ & _ & Hdec)]].
    + eapply Hnext; eassumption.
    + eapply Hnext; eassumption.
    + unfold get_rows in Hrun. rewrite Hrun in Hdec. injection Hdec as -> ->.
      exists n. split; [unfold MAX_ATTEMPTS in Hn5; simpl in Hn5; lia|]. split; assumption.
Qed.

End get_rows.

Section transform.
Variable get_cell_value :
  string -> string -> string -> nat -> json -> string -> json -> string -> string ->
  outcome json.
Variables (dataset config split assets_base_url assets_directory : string).

Local Abbreviation cells :=
  (fun row_idx row fs =>
     transform_cells get_cell_value dataset config split row_idx row fs
       assets_base_url assets_directory).

Lemma transform_cells_spec row_idx (row : Row) (fs : Features) (r : Row) :
  cells row_idx row fs = Return r ->
  map fst r = map fst fs /\
  forall j name ty,
    fs !! j = Some (name, ty) ->
    exists v,
      r !! j = Some (name, v) /\
      get_cell_value dataset config split row_idx
        (match assoc name row with Some cell => cell | None => JNull end)
        name ty assets_base_url assets_directory = Return v.
Proof.
  revert r. induction fs as [|[name ty] fs IH]; intros r; simpl.
  - intros [= <-]. split; [reflexivity|]. intros j n t Hj. discriminate Hj.
  - destruct (get_cell_value _ _ _ _ _ _ _ _ _) as [v|e] eqn:Hcell; simpl; [|intros [=]].
    destruct (transform_cells _ _ _ _ _ _ fs _ _) as [r'|e] eqn:Hrest; simpl; [|intros [=]].
    intros [= <-]. destruct (IH r' eq_refl) as [Hkeys Hcells].
    split; [simpl; rewrite Hkeys; reflexivity|].
    intros [|j] n t Hj; simpl in Hj.
    + injection Hj as <- <-. exists v. split; [reflexivity|exact Hcell].
    + apply (Hcells j n t Hj).
Qed.

Lemma transform_rows_from_spec (rows : list Row) (features : option Features) :
  forall k out,
    transform_rows_from get_cell_value k dataset config split rows features
      assets_base_url assets_directory = Return out ->
    length out = length rows /\
    forall i row r,
      rows !! i = Some row -> out !! i = Some r ->
      exists fs, features = Some fs /\ cells (k + i)%nat row fs = Return r.
Proof.
  induction rows as [|row rows IH]; intros k out; simpl.
  - intros [= <-]. split; [reflexivity|]. intros i row r Hi. discriminate Hi.
  - destruct features as [fs|]; [|intros [=]].
    destruct (transform_cells _ _ _ _ _ _ fs _ _) as [r0|e] eqn:Hrow; simpl; [|intros [=]].
    destruct (transform_rows_from _ _ _ _ _ rows _ _ _) as [rs|e] eqn:Hrest; simpl;
      [|intros [=]].
    intros [= <-]. destruct (IH (S k) rs Hrest) as [Hlen Hrows].
    split; [simpl; rewrite Hlen; reflexivity|].
    intros [|i] row' r Hi Ho; simpl in Hi, Ho.
    + injection Hi as <-. injection Ho as <-. exists fs. rewrite Nat.add_0_r. auto.
    + destruct (Hrows i row' r Hi Ho) as (fs' & Hfs & Hcells).
      exists fs'. split; [exact Hfs|]. rewrite <- Nat.add_succ_comm. exact Hcells.
Qed.

(** X4.  When [transform_rows] succeeds it returns one row per input row,
    in order; the row of index [i] has exactly the columns of the features,
    in their order, and the cell of a column is what [get_cell_value] returns
    for the row index [i] and the input cell of that name, or None when the
    input row has no such column. *)
Theorem transform_rows_shape (rows : list Row) (features : option Features)
    (out : list Row) :
  transform_rows get_cell_value dataset config split rows features
    assets_base_url assets_directory = Return out ->
  length out = length rows /\
  forall i row r,
    rows !! i = Some row -> out !! i = Some r ->
    exists fs,
      features = Some fs /\
      map fst r = map fst fs /\
      forall j name ty,
        fs !! j = Some (name, ty) ->
        exists v,
          r !! j = Some (name, v) /\
          get_cell_value dataset config split i
            (match assoc name row with Some cell => cell | None => JNull end)
            name ty assets_base_url assets_directory = Return v.
Proof.
  unfold transform_rows. intros H.
  destruct (transform_rows_from_spec rows features 0 out H) as [Hlen Hrows].
  split; [exact Hlen|]. intros i row r Hi Ho.
  destruct (Hrows i row r Hi Ho) as (fs & Hfs & Hcells). simpl in Hcells.
  exists fs. split; [exact Hfs|]. apply transform_cells_spec. exact Hcells.
Qed.

End transform.

(** *** The look-up of the split names *)

Lemma bind_raise {A B} (m : M A) (k : A -> M B) w e w1 :
  m w = Some (Raise e, w1) -> (m ≫= k) w = Some (Raise e, w1).
Proof.
  intros H. change (FirstRows.mbind m k w = Some (Raise e, w1)).
  unfold FirstRows.mbind. rewrite H. reflexivity.
Qed.

Lemma getitem_not_DoesNotExist v key err :
  getitem v key = Raise err -> is_DoesNotExist err = false.
Proof.
  unfold getitem. destruct v; try (intros [= <-]; reflexivity).
  destruct (assoc key kvs); intros [= <-]. reflexivity.
Qed.

(** The look-ups in the cache and in a payload raise instances of
    [Exception] only. *)
Lemma getitem_Exception v key err :
  getitem v key = Raise err -> is_Exception err = true.
Proof.
  unfold getitem. destruct v; try (intros [= <-]; reflexivity).
  destruct (assoc key kvs); intros [= <-]. reflexivity.
Qed.

Lemma read_splits_Exception (store : Store) kind dataset config err :
  read_splits store kind dataset config = Raise err -> is_Exception err = true.
Proof.
  unfold read_splits, get_response.
  destruct (store !! _) as [e|]; simpl; [|intros [= <-]; reflexivity].
  destruct (getitem (content e) "splits") as [sp|e0] eqn:Hitem; simpl; [intros [=]|].
  intros [= <-]. eapply getitem_Exception, Hitem.
Qed.

(** *** Bounds on the calls and the sleeps *)

Lemma within_ret {A} (v : A) : within 0 0 (ret v).
Proof. intros w. exists (Return v), w. split; [reflexivity|]. lia. Qed.

Lemma within_raise {A} (e : exn) : within 0 0 (@raise A e).
Proof. intros w. exists (Raise e), w. split; [reflexivity|]. lia. Qed.

Lemma within_lift {A} (o : outcome A) : within 0 0 (lift o).
Proof. intros w. exists o, w. split; [reflexivity|]. lia. Qed.

Lemma within_call_hub {A} (f : nat -> outcome A) : within 1 0 (call_hub f).
Proof.
  intros w. eexists _, _. split; [reflexivity|]. cbn [hub_calls slept]. lia.
Qed.

Lemma within_weaken {A} n t n' t' (m : M A) :
  (n <= n')%nat -> (t <= t')%Z -> within n t m -> within n' t' m.
Proof.
  intros Hn Ht H w. destruct (H w) as (r & w' & Hrun & Hc & Hs).
  exists r, w'. split; [exact Hrun|]. lia.
Qed.

Lemma within_bind {A B} n1 t1 n2 t2 (m : M A) (k : A -> M B) :
  (0 <= t2)%Z ->
  within n1 t1 m -> (forall v, within n2 t2 (k v)) ->
  within (n1 + n2) (t1 + t2) (m ≫= k).
Proof.
  intros Ht Hm Hk w. destruct (Hm w) as ([v|e] & w1 & Hrun & Hc & Hs).
  - destruct (Hk v w1) as (r & w' & Hrun' & Hc' & Hs').
    exists r, w'. rewrite (FirstRowsSpec.bind_return _ _ _ _ _ Hrun).
    split; [exact Hrun'|]. lia.
  - exists (Raise e), w1. rewrite (bind_raise _ _ _ _ _ Hrun). split; [reflexivity|]. lia.
Qed.

Lemma within_try_except {A} n1 t1 n2 t2 (m : M A) (handler : exn -> M A) :
  (0 <= t2)%Z ->
  within n1 t1 m -> (forall e, within n2 t2 (handler e)) ->
  within (n1 + n2) (t1 + t2) (try_except m handler).
Proof.
  intros Ht Hm Hh w. destruct (Hm w) as ([v|e] & w1 & Hrun & Hc & Hs); unfold try_except.
  - exists (Return v), w1. rewrite Hrun. split; [reflexivity|]. lia.
  - rewrite Hrun. destruct (is_Exception e).
    + destruct (Hh e w1) as (r & w' & Hrun' & Hc' & Hs').
      exists r, w'. split; [exact Hrun'|]. lia.
    + exists (Raise e), w1. split; [reflexivity|]. lia.
Qed.

Lemma within_get_rows load_dataset dataset config split streaming rows_max_number token :
  within 5 4698 (get_rows load_dataset dataset config split streaming rows_max_number token).
Proof.
  intros w.
  destruct (get_rows_attempts load_dataset dataset config split streaming rows_max_number
              token w) as (r & w' & n & Hrun & Hn & Hc & Hs).
  exists r, w'. split; [exact Hrun|]. split; [lia|].
  rewrite Hs, total_app. pose proof (total_take_SLEEPS n). lia.
Qed.

(** *** Where exceptions come from *)

Lemma raises_ret {A} P (v : A) : FirstRowsStages.raises P (ret v).
Proof. intros w e w' [=]. Qed.

Lemma raises_raise {A} (P : exn -> Prop) e : P e -> FirstRowsStages.raises P (@raise A e).
Proof. intros HP w e' w' [= <- _]. exact HP. Qed.

Lemma raises_lift {A} (P : exn -> Prop) (o : outcome A) :
  (forall e, o = Raise e -> P e) -> FirstRowsStages.raises P (lift o).
Proof. intros HP w e w' [= -> _]. apply HP. reflexivity. Qed.

Lemma raises_bind {A B} P (m : M A) (k : A -> M B) :
  FirstRowsStages.raises P m -> (forall v, FirstRowsStages.raises P (k v)) ->
  FirstRowsStages.raises P (m ≫= k).
Proof.
  intros Hm Hk w e w'. change (FirstRows.mbind m k w = Some (Raise e, w') -> P e).
  unfold FirstRows.mbind. destruct (m w) as [[[v|e0] w1]|] eqn:Hrun; [| |intros [=]].
  - apply Hk.
  - intros [= <- _]. eapply Hm, Hrun.
Qed.

Lemma raises_try_except {A} (P : exn -> Prop) (m : M A) (handler : exn -> M A) :
  (forall e, FirstRowsStages.raises P (handler e)) ->
  (forall e, is_Exception e = false -> P e) ->
  FirstRowsStages.raises P (try_except m handler).
Proof.
  intros Hh Hbase w e w'. unfold try_except.
  destruct (m w) as [[[v|e0] w1]|] eqn:Hrun; [intros [=]| |intros [=]].
  destruct (is_Exception e0) eqn:Hexc; [apply Hh|].
  intros [= <- _]. apply Hbase, Hexc.
Qed.

(** *** Reading a successful run backwards *)

Lemma bind_inv {A B} (m : M A) (k : A -> M B) w v w' :
  (m ≫= k) w = Some (Return v, w') ->
  exists a w1, m w = Some (Return a, w1) /\ k a w1 = Some (Return v, w').
Proof.
  intros H. change (FirstRows.mbind m k w = Some (Return v, w')) in H.
  unfold FirstRows.mbind in H.
  destruct (m w) as [[[a|e] w1]|]; [|discriminate H..]. eauto.
Qed.

Lemma check_inv (c : bool) (e : exn) w w' :
  (if c then raise e else ret tt) w = Some (Return tt, w') -> c = false /\ w' = w.
Proof. destruct c; [intros [=]|]. intros [= <-]. auto. Qed.

Lemma lift_inv {A} (o : outcome A) w v w' :
  lift o w = Some (Return v, w') -> o = Return v /\ w' = w.
Proof. intros [= -> <-]. auto. Qed.

Lemma try_except_raise_inv {A} (m : M A) (e' : exn -> exn) w v w' :
  try_except m (fun err => raise (e' err)) w = Some (Return v, w') ->
  m w = Some (Return v, w').
Proof.
  unfold try_except. destruct (m w) as [[[a|e] w1]|]; [trivial| |trivial].
  destruct (is_Exception e); intros [=].
Qed.

Section response.
Import FirstRowsStages.
Variable load_dataset :
  nat -> string -> string -> string -> bool -> option string -> outcome DatasetObj.
Variable get_dataset_config_info :
  nat -> string -> string -> option string -> outcome DatasetInfo.
Variable to_features_list : option Features -> outcome (list json).
Variable get_json_size : SplitFirstRowsResponse -> outcome Z.
Variable get_cell_value :
  string -> string -> string -> nat -> json -> string -> json -> string -> string ->
  outcome json.
Variable create_truncated_row_items : list Row -> Z -> Z -> Z -> outcome (list json).
Variable ConfigNotFoundError : string -> option exn -> exn.
Variable SplitNotFoundError : string -> option exn -> exn.

Local Abbreviation features_of := (fun store =>
  get_features load_dataset get_dataset_config_info ConfigNotFoundError SplitNotFoundError
    store).
Local Abbreviation response_of := (fun store =>
  compute_first_rows_response load_dataset get_dataset_config_info to_features_list
    get_json_size get_cell_value create_truncated_row_items ConfigNotFoundError
    SplitNotFoundError store).

Lemma read_splits_unusable (store : Store) kind dataset config :
  unusable store (kind, dataset, Some config, None) ->
  exists err, read_splits store kind dataset config = Raise err.
Proof.
  intros Hun. unfold read_splits, get_response.
  destruct (store !! _) as [e|] eqn:Hl; simpl; [|eauto].
  destruct (Hun e Hl) as [err ->]. simpl. eauto.
Qed.

Lemma read_splits_usable (store : Store) kind dataset config e sp :
  usable store (kind, dataset, Some config, None) e sp ->
  read_splits store kind dataset config = Return (e, sp).
Proof.
  intros [Hl Hsp]. unfold read_splits, get_response. rewrite Hl. simpl. rewrite Hsp.
  reflexivity.
Qed.

Lemma upstream_splits_found (store : Store) dataset config e sp :
  found_upstream store dataset config e sp ->
  upstream_splits ConfigNotFoundError store dataset config = Return (e, sp).
Proof.
  unfold upstream_splits.
  intros [Hfirst|[Hun Hsecond]].
  - rewrite (read_splits_usable _ _ _ _ _ _ Hfirst). reflexivity.
  - destruct (read_splits_unusable _ _ _ _ Hun) as [err Herr]. rewrite Herr.
    rewrite (read_splits_Exception _ _ _ _ _ Herr).
    rewrite (read_splits_usable _ _ _ _ _ _ Hsecond). reflexivity.
Qed.

(** An exception of the first stage is the outcome of the whole call, in
    the world of the call. *)
Lemma upstream_raise (store : Store) dataset config split assets_base_url hf_token
    min_cell_bytes rows_max_bytes rows_max_number rows_min_number columns_max_number
    assets_directory max_size_fallback w e :
  upstream_splits ConfigNotFoundError store dataset config = Raise e ->
  response_of store dataset config split assets_base_url hf_token min_cell_bytes
    rows_max_bytes rows_max_number rows_min_number columns_max_number assets_directory
    max_size_fallback w = Some (Raise e, w).
Proof.
  intros H. unfold compute_first_rows_response. apply bind_raise.
  unfold get_features. apply bind_raise. unfold lift. rewrite H. reflexivity.
Qed.

(** The same for an exception raised between the look-up and the first
    call to the Hub. *)
Lemma before_hub_raise (store : Store) dataset config split assets_base_url hf_token
    min_cell_bytes rows_max_bytes rows_max_number rows_min_number columns_max_number
    assets_directory max_size_fallback w upstream_response splits_content :
  upstream_splits ConfigNotFoundError store dataset config
    = Return (upstream_response, splits_content) ->
  let run := response_of store dataset config split assets_base_url hf_token min_cell_bytes
    rows_max_bytes rows_max_number rows_min_number columns_max_number assets_directory
    max_size_fallback w in
  (http_status upstream_response <> HTTP_OK ->
   run = Some (Raise (PreviousStepStatusError
                        ("Previous step gave an error: "
                         +:+ pretty (http_status upstream_response)
                         +:+ ". This job should not have been created.") None), w))
  /\
  (http_status upstream_response = HTTP_OK ->
   (forall e, bind (iter_json splits_content) split_names = Raise e ->
              run = Some (Raise e, w)) /\
   (forall names,
      bind (iter_json splits_content) split_names = Return names ->
      existsb (str_eq split) names = false ->
      run = Some (Raise (SplitNotFoundError
                           ("The split '" +:+ split +:+ "' does not exist for the config '"
                            +:+ config +:+ "' of the dataset.") None), w))).
Proof.
  intros Hup run. subst run. unfold compute_first_rows_response, get_features.
  rewrite Hup. split.
  - intros Hst. apply bind_raise.
    rewrite (FirstRowsSpec.bind_return (lift _) _ w _ w eq_refl). cbn [fst snd].
    apply Z.eqb_neq in Hst. rewrite Hst. reflexivity.
  - intros Hst. apply Z.eqb_eq in Hst. split.
    + intros e Hparse. apply bind_raise.
      rewrite (FirstRowsSpec.bind_return (lift _) _ w _ w eq_refl). cbn [fst snd].
      rewrite Hst. cbn [negb].
      rewrite (FirstRowsSpec.bind_return (ret tt) _ w tt w eq_refl).
      apply bind_raise. unfold lift. rewrite Hparse. reflexivity.
    + intros names Hparse Hnot. apply bind_raise.
      rewrite (FirstRowsSpec.bind_return (lift _) _ w _ w eq_refl). cbn [fst snd].
      rewrite Hst. cbn [negb].
      rewrite (FirstRowsSpec.bind_return (ret tt) _ w tt w eq_refl).
      rewrite (FirstRowsSpec.bind_return (lift _) _ w names w)
        by (unfold lift; rewrite Hparse; reflexivity).
      rewrite Hnot. reflexivity.
Qed.

Section call.
Variable store : Store.
Variables (dataset config split assets_base_url : string) (hf_token : option string).
Variables (min_cell_bytes rows_max_bytes rows_max_number rows_min_number
           columns_max_number : Z).
Variables (assets_directory : string) (max_size_fallback : option Z).

Local Abbreviation run := (fun st w =>
  response_of st dataset config split assets_base_url hf_token min_cell_bytes
    rows_max_bytes rows_max_number rows_min_number columns_max_number assets_directory
    max_size_fallback w).

(** X5.  When the cache has no usable response of the streaming kind for
    the config (none, or one whose content has no "splits"):
    if it has no response of the dataset-info kind either, the call fails
    with ConfigNotFoundError chained to DoesNotExist; if it has one whose
    content has no "splits", the call fails with PreviousStepFormatError
    chained to the look-up error.  In both cases nothing is fetched: the
    world is unchanged. *)
Theorem upstream_missing w :
  unusable store (streaming_key dataset config) ->
  (store !! dataset_info_key dataset config = None ->
   run store w =
     Some (Raise (ConfigNotFoundError
                    ("The config '" +:+ config +:+ "' does not exist for the dataset.'")
                    (Some DoesNotExist)), w))
  /\
  (forall e err,
     store !! dataset_info_key dataset config = Some e ->
     getitem (content e) "splits" = Raise err ->
     run store w =
       Some (Raise (PreviousStepFormatError
                      "Previous step did not return the expected content." (Some err)), w)).
Proof.
  intros Hun. destruct (read_splits_unusable _ _ _ _ Hun) as [err1 H1]. split.
  - intros Hnone. apply upstream_raise. unfold upstream_splits.
    rewrite H1, (read_splits_Exception _ _ _ _ _ H1).
    unfold read_splits, get_response. unfold dataset_info_key in Hnone. rewrite Hnone.
    reflexivity.
  - intros e err Hl Herr. apply upstream_raise. unfold upstream_splits.
    rewrite H1, (read_splits_Exception _ _ _ _ _ H1).
    unfold read_splits, get_response. unfold dataset_info_key in Hl. rewrite Hl.
    cbn [bind]. rewrite Herr. cbn [bind].
    rewrite (getitem_not_DoesNotExist _ _ _ Herr), (getitem_Exception _ _ _ Herr).
    reflexivity.
Qed.

(** X6.  The streaming kind comes first: when the cache holds a response of
    the streaming kind whose content has "splits", the outcome of the call
    depends on the cache through that entry only; in particular a response
    of the dataset-info kind, valid or not, present or not, is ignored. *)
Theorem streaming_kind_decides (e : CacheEntry) (splits_content : json) (store' : Store) w :
  usable store (streaming_key dataset config) e splits_content ->
  store' !! streaming_key dataset config = Some e ->
  run store w = run store' w.
Proof.
  intros Hus Hl'.
  assert (Hus' : usable store' (streaming_key dataset config) e splits_content)
    by (split; [exact Hl'|apply Hus]).
  assert (H : upstream_splits ConfigNotFoundError store dataset config
              = upstream_splits ConfigNotFoundError store' dataset config).
  { rewrite !(upstream_splits_found _ _ _ e splits_content) by (left; assumption).
    reflexivity. }
  unfold compute_first_rows_response, get_features. rewrite H. reflexivity.
Qed.

(** X7.  When the upstream response the call settles on has a status other
    than OK, the call fails with PreviousStepStatusError, whatever the
    content lists, and nothing is fetched. *)
Theorem previous_step_status (e : CacheEntry) (splits_content : json) w :
  found_upstream store dataset config e splits_content ->
  http_status e <> HTTP_OK ->
  run store w =
    Some (Raise (PreviousStepStatusError
                   ("Previous step gave an error: " +:+ pretty (http_status e)
                    +:+ ". This job should not have been created.") None), w).
Proof.
  intros Hfound Hst.
  destruct (before_hub_raise store dataset config split assets_base_url hf_token min_cell_bytes
              rows_max_bytes rows_max_number rows_min_number columns_max_number
              assets_directory max_size_fallback w e splits_content
              (upstream_splits_found _ _ _ _ _ Hfound)) as [H _].
  apply H, Hst.
Qed.

(** X8.  When the upstream response is OK: if its list of splits parses
    and does not name the split, the call fails with SplitNotFoundError; if
    an item of the list is malformed (not a mapping, or without "split"), the
    look-up error itself (a KeyError or a TypeError) is raised, not wrapped
    in a structured error.  In both cases nothing is fetched. *)
Theorem split_not_listed (e : CacheEntry) (splits_content : json) w :
  found_upstream store dataset config e splits_content ->
  http_status e = HTTP_OK ->
  (forall names,
     bind (iter_json splits_content) split_names = Return names ->
     existsb (str_eq split) names = false ->
     run store w =
       Some (Raise (SplitNotFoundError
                      ("The split '" +:+ split +:+ "' does not exist for the config '"
                       +:+ config +:+ "' of the dataset.") None), w))
  /\
  (forall err,
     bind (iter_json splits_content) split_names = Raise err ->
     run store w = Some (Raise err, w) /\
     Measures.is_custom err = false).
Proof.
  intros Hfound Hst.
  destruct (before_hub_raise store dataset config split assets_base_url hf_token min_cell_bytes
              rows_max_bytes rows_max_number rows_min_number columns_max_number
              assets_directory max_size_fallback w e splits_content
              (upstream_splits_found _ _ _ _ _ Hfound)) as [_ H].
  destruct (H Hst) as [Hraw Hnot]. split; [exact Hnot|].
  intros err Hparse. split; [apply Hraw, Hparse|].
  clear -Hparse. unfold iter_json in Hparse.
  assert (Hnames : forall l, split_names l = Raise err -> Measures.is_custom err = false).
  { induction l as [|item l IH]; simpl; [discriminate|].
    destruct (getitem item "split") as [n|e0] eqn:Hitem; simpl.
    - destruct (split_names l) as [ns|e1]; simpl; [discriminate|].
      intros Heq. apply IH. congruence.
    - intros Heq. assert (e0 = err) as <- by congruence. unfold getitem in Hitem.
      destruct item; try (injection Hitem as <-; reflexivity).
      destruct (assoc "split" kvs); [discriminate|]. injection Hitem as <-. reflexivity. }
  destruct splits_content; simpl in Hparse;
    try (injection Hparse as <-; reflexivity); eapply Hnames, Hparse.
Qed.

(** X9.  The fallback to the normal mode: once the features are obtained
    and the two ceilings pass, if the streaming [get_rows] fails with [err],
    then, when [err] is an instance of [Exception]: (a) if the size of the
    config is unknown or above 100_000_000 bytes the call fails with
    StreamingRowsError chained to [err], in the world the streaming attempts
    left: the normal mode is not tried; (b) otherwise the normal mode is
    tried, and if it fails with [err'] the call fails with NormalRowsError
    chained to [err'], or with [err'] itself when that is not an instance of
    [Exception].  When [err] is not an instance of [Exception] (an
    interruption, say) it leaves the call as it is and the normal mode is
    not tried. *)
Theorem streaming_fallback w info features features_list size w1 err w2 :
  features_of store dataset config split hf_token w = Some (Return (info, features), w1) ->
  truthy features && (columns_max_number <? len features)%Z = false ->
  to_features_list features = Return features_list ->
  get_json_size (response_features_only dataset config split features_list) = Return size ->
  (size <= rows_max_bytes)%Z ->
  get_rows load_dataset dataset config split true rows_max_number hf_token w1
    = Some (Raise err, w2) ->
  ("Exception" ∈ mro err ->
   (match size_in_bytes info with
    | None => True
    | Some size => (MAX_SIZE_FALLBACK < size)%Z
    end ->
    run store w =
      Some (Raise (StreamingRowsError
                     "Cannot load the dataset split (in streaming mode) to extract the first rows."
                     (Some err)), w2))
   /\
   (forall size err' w3,
      size_in_bytes info = Some size -> (size <= MAX_SIZE_FALLBACK)%Z ->
      get_rows load_dataset dataset config split false rows_max_number hf_token w2
        = Some (Raise err', w3) ->
      run store w =
        Some (Raise (if bool_decide ("Exception" ∈ mro err')
                     then NormalRowsError
                            "Cannot load the dataset split (in normal download mode) to extract the first rows."
                            (Some err')
                     else err'), w3)))
  /\
  ("Exception" ∉ mro err -> run store w = Some (Raise err, w2)).
Proof.
  intros Hfeat Hcols Hlist Hsize Hle Hstream.
  assert (Hnot : (rows_max_bytes <? size)%Z = false) by (apply Z.ltb_ge; exact Hle).
  assert (Hpre : forall r,
            (forall k : list Row -> M SplitFirstRowsResponse,
               (try_except
                  (get_rows load_dataset dataset config split true rows_max_number hf_token)
                  (fun err0 =>
                     if match size_in_bytes info with
                        | None => true
                        | Some size => (MAX_SIZE_FALLBACK <? size)%Z
                        end
                     then raise (StreamingRowsError
                            "Cannot load the dataset split (in streaming mode) to extract the first rows."
                            (Some err0))
                     else try_except
                            (get_rows load_dataset dataset config split false
                               rows_max_number hf_token)
                            (fun err1 => raise (NormalRowsError
                               "Cannot load the dataset split (in normal download mode) to extract the first rows."
                               (Some err1)))) ≫= k) w1 = r) ->
            run store w = r).
  { intros r Hk. unfold compute_first_rows_response.
    rewrite (FirstRowsSpec.bind_return _ _ _ _ _ Hfeat). cbn [fst snd].
    rewrite Hcols.
    rewrite (FirstRowsSpec.bind_return (ret tt) _ w1 tt w1 eq_refl).
    rewrite (FirstRowsSpec.bind_return (lift (to_features_list features)) _ w1
               features_list w1) by (unfold lift; rewrite Hlist; reflexivity).
    rewrite (FirstRowsSpec.bind_return (lift (get_json_size _)) _ w1 size w1)
      by (unfold lift; rewrite Hsize; reflexivity).
    rewrite Hnot.
    rewrite (FirstRowsSpec.bind_return (ret tt) _ w1 tt w1 eq_refl).
    apply Hk. }
  split; [intros Hexc; apply (bool_decide_eq_true_2 _) in Hexc; split|].
  - intros Hbig. apply Hpre. intros k. apply bind_raise.
    unfold try_except. rewrite Hstream. unfold is_Exception, isinstance. rewrite Hexc.
    destruct (size_in_bytes info) as [size'|]; [|reflexivity].
    apply Z.ltb_lt in Hbig. rewrite Hbig. reflexivity.
  - intros size' err' w3 Hinfo Hsmall Hnormal. apply Hpre. intros k. apply bind_raise.
    unfold try_except at 1. rewrite Hstream. unfold is_Exception at 1, isinstance.
    rewrite Hexc, Hinfo.
    apply Z.ltb_ge in Hsmall. rewrite Hsmall.
    unfold try_except. rewrite Hnormal. unfold is_Exception, isinstance.
    destruct (bool_decide ("Exception" ∈ mro err')); reflexivity.
  - intros Hexc. apply (bool_decide_eq_false_2 _) in Hexc.
    apply Hpre. intros k. apply bind_raise.
    unfold try_except. rewrite Hstream. unfold is_Exception, isinstance. rewrite Hexc.
    reflexivity.
Qed.

Ltac within_step n1 t1 n2 t2 :=
  apply (within_weaken (n1 + n2) (t1 + t2)); [simpl; lia|lia|];
  apply within_bind; [lia| |intros ?].

Lemma resolve_features_within dataset' config' split' token :
  within 1 0 (resolve_features load_dataset dataset' config' split' token).
Proof.
  unfold resolve_features. within_step 1%nat 0%Z 0%nat 0%Z; [apply within_call_hub|].
  destruct v as [rows resolved|rows|]; [|apply within_raise..].
  within_step 0%nat 0%Z 0%nat 0%Z; [apply within_lift|].
  destruct v; [apply within_ret|apply within_raise].
Qed.

Lemma get_features_within : within 2 0 (features_of store dataset config split hf_token).
Proof.
  unfold get_features.
  within_step 0%nat 0%Z 2%nat 0%Z; [apply within_lift|].
  within_step 0%nat 0%Z 2%nat 0%Z; [destruct (negb _); [apply within_raise|apply within_ret]|].
  within_step 0%nat 0%Z 2%nat 0%Z; [apply within_lift|].
  within_step 0%nat 0%Z 2%nat 0%Z; [destruct (negb _); [apply within_raise|apply within_ret]|].
  within_step 1%nat 0%Z 1%nat 0%Z.
  { apply (within_weaken (1 + 0) (0 + 0)); [simpl; lia|lia|].
    apply within_try_except; [lia|apply within_call_hub|intros e; apply within_raise]. }
  within_step 1%nat 0%Z 0%nat 0%Z; [|apply within_ret].
  destruct (negb _).
  - apply (within_weaken (1 + 0) (0 + 0)); [simpl; lia|lia|].
    apply within_try_except; [lia|apply resolve_features_within|intros e; apply within_raise].
  - apply (within_weaken 0 0); [lia|lia|apply within_ret].
Qed.

(** X10.  Every call of [compute_first_rows_response] returns, after at
    most 12 calls to the Hub (one for the info, one for the features, five
    for the rows in streaming mode and five in normal mode) and at most 9396
    seconds of sleep. *)
Theorem response_bounded : within 12 9396 (run store).
Proof.
  unfold compute_first_rows_response.
  within_step 2%nat 0%Z 10%nat 9396%Z; [apply get_features_within|].
  within_step 0%nat 0%Z 10%nat 9396%Z; [destruct (_ && _); [apply within_raise|apply within_ret]|].
  within_step 0%nat 0%Z 10%nat 9396%Z; [apply within_lift|].
  within_step 0%nat 0%Z 10%nat 9396%Z; [apply within_lift|].
  within_step 0%nat 0%Z 10%nat 9396%Z; [destruct (_ <? _)%Z; [apply within_raise|apply within_ret]|].
  within_step 10%nat 9396%Z 0%nat 0%Z.
  { apply (within_weaken (5 + 5) (4698 + 4698)); [simpl; lia|lia|].
    apply within_try_except; [lia|apply within_get_rows|]. intros e.
    destruct (match size_in_bytes _ with Some _ => _ | None => _ end).
    - apply (within_weaken 0 0); [lia|lia|apply within_raise].
    - apply (within_weaken (5 + 0) (4698 + 0)); [simpl; lia|lia|].
      apply within_try_except; [lia|apply within_get_rows|intros e'; apply within_raise]. }
  within_step 0%nat 0%Z 0%nat 0%Z.
  { apply (within_weaken (0 + 0) (0 + 0)); [simpl; lia|lia|].
    apply within_try_except; [lia|apply within_lift|intros e; apply within_raise]. }
  within_step 0%nat 0%Z 0%nat 0%Z; [apply within_lift|apply within_ret].
Qed.

Lemma upstream_splits_raise e :
  (forall message cause, Measures.is_custom (ConfigNotFoundError message cause) = true) ->
  upstream_splits ConfigNotFoundError store dataset config = Raise e ->
  Measures.is_custom e = true.
Proof.
  intros Hcnf. unfold upstream_splits.
  destruct (read_splits store "/split-names-from-streaming" dataset config) as [r|e1] eqn:H1;
    [discriminate|].
  rewrite (read_splits_Exception _ _ _ _ _ H1).
  destruct (read_splits store "/split-names-from-dataset-info" dataset config) as [r|e2]
    eqn:H2; [discriminate|].
  rewrite (read_splits_Exception _ _ _ _ _ H2).
  destruct (is_DoesNotExist e2); intros [= <-]; [apply Hcnf|reflexivity].
Qed.

(** X11.  An exception raised by [compute_first_rows_response] is a
    structured error (a CustomError), or comes unwrapped from one of the four
    computations the function does not guard (the parsing of the list of
    splits, [to_features_list], [get_json_size] and
    [create_truncated_row_items]), or is not an instance of [Exception], in
    which case no handler of the function catches it.  Every instance of
    [Exception] that the Hub or [get_cell_value] raises is wrapped. *)
Theorem errors_let_through :
  (forall message cause, Measures.is_custom (ConfigNotFoundError message cause) = true) ->
  (forall message cause, Measures.is_custom (SplitNotFoundError message cause) = true) ->
  raises (let_through to_features_list get_json_size create_truncated_row_items)
         (run store).
Proof.
  intros Hcnf Hsnf.
  set (P := let_through to_features_list get_json_size create_truncated_row_items).
  assert (Hcustom : forall A e, Measures.is_custom e = true -> raises P (@raise A e)).
  { intros A e He. apply raises_raise. left. exact He. }
  assert (Hbase : forall e, is_Exception e = false -> P e).
  { intros e He. do 5 right. apply bool_decide_eq_false in He. exact He. }
  unfold compute_first_rows_response. apply raises_bind.
  { unfold get_features. apply raises_bind.
    { apply raises_lift. intros e He. left. eapply upstream_splits_raise; eassumption. }
    intros upstream. apply raises_bind.
    { destruct (negb _); [apply Hcustom; reflexivity|apply raises_ret]. }
    intros _. apply raises_bind.
    { apply raises_lift. intros e He. right; left. eauto. }
    intros names. apply raises_bind.
    { destruct (negb _); [apply Hcustom, Hsnf|apply raises_ret]. }
    intros _. apply raises_bind.
    { apply raises_try_except; [|exact Hbase]. intros e. apply Hcustom. reflexivity. }
    intros info. apply raises_bind; [|intros features; apply raises_ret].
    destruct (negb _); [|apply raises_ret].
    apply raises_try_except; [|exact Hbase]. intros e. apply Hcustom. reflexivity. }
  intros x. apply raises_bind.
  { destruct (_ && _); [apply Hcustom; reflexivity|apply raises_ret]. }
  intros _. apply raises_bind.
  { apply raises_lift. intros e He. right; right; left. eauto. }
  intros features_list. apply raises_bind.
  { apply raises_lift. intros e He. do 3 right; left. eauto. }
  intros surrounding_json_size. apply raises_bind.
  { destruct (_ <? _)%Z; [apply Hcustom; reflexivity|apply raises_ret]. }
  intros _. apply raises_bind.
  { apply raises_try_except; [|exact Hbase]. intros e.
    destruct (match size_in_bytes _ with Some _ => _ | None => _ end);
      [apply Hcustom; reflexivity|].
    apply raises_try_except; [|exact Hbase]. intros e'. apply Hcustom. reflexivity. }
  intros rows. apply raises_bind.
  { apply raises_try_except; [|exact Hbase]. intros e. apply Hcustom. reflexivity. }
  intros transformed. apply raises_bind; [|intros row_items; apply raises_ret].
  apply raises_lift. intros e He. do 4 right; left. eauto.
Qed.

Lemma get_rows_length streaming rows w1 w2 :
  get_rows load_dataset dataset config split streaming rows_max_number hf_token w1
    = Some (Return rows, w2) ->
  (0 <= rows_max_number)%Z -> (Z.of_nat (length rows) <= rows_max_number)%Z.
Proof.
  intros Hrun Hpos.
  destruct (FirstRowsSpec.get_rows_return _ _ _ _ _ _ _ _ _ _ Hrun) as [w0 Hb].
  destruct (FirstRowsSpec.get_rows_body_return _ _ _ _ _ _ _ _ _ _ Hb) as (st & rpo & _ & ->).
  apply FirstRowsSpec.slice_to_length. exact Hpos.
Qed.

(** X12.  A response that [compute_first_rows_response] returns respects
    the ceilings and echoes the request: it carries the dataset, config and
    split asked for; its features are [to_features_list] of features whose
    count, when there are any, is at most [columns_max_number]; the response
    without rows is at most [rows_max_bytes] large; and its rows are
    [create_truncated_row_items], given what is left of [rows_max_bytes], of
    at most [rows_max_number] transformed rows (for a cap that is not
    negative). *)
Theorem response_respects_ceilings w response w' :
  run store w = Some (Return response, w') ->
  r_dataset response = dataset /\ r_config response = config /\ r_split response = split /\
  exists info features w1 transformed size,
    features_of store dataset config split hf_token w = Some (Return (info, features), w1) /\
    to_features_list features = Return (r_features response) /\
    (truthy features = true -> (len features <= columns_max_number)%Z) /\
    get_json_size (response_features_only dataset config split (r_features response))
      = Return size /\
    (size <= rows_max_bytes)%Z /\
    create_truncated_row_items transformed min_cell_bytes (rows_max_bytes - size)
      rows_min_number = Return (r_rows response) /\
    ((0 <= rows_max_number)%Z -> (Z.of_nat (length transformed) <= rows_max_number)%Z).
Proof.
  unfold compute_first_rows_response. intros H.
  apply bind_inv in H as ([info features] & w1 & Hfeat & H). cbn [fst snd] in H.
  apply bind_inv in H as ([] & w2 & Hcols & H). apply check_inv in Hcols as [Hcols ->].
  apply bind_inv in H as (features_list & w2 & Hlist & H). apply lift_inv in Hlist as [Hlist ->].
  apply bind_inv in H as (size & w2 & Hjson & H). apply lift_inv in Hjson as [Hjson ->].
  apply bind_inv in H as ([] & w2 & Hsize & H). apply check_inv in Hsize as [Hsize ->].
  apply bind_inv in H as (rows & w2 & Hrows & H).
  apply bind_inv in H as (transformed & w3 & Htrans & H).
  apply try_except_raise_inv with (e' := fun err => RowsPostProcessingError _ (Some err))
    in Htrans.
  apply lift_inv in Htrans as [Htrans ->].
  apply bind_inv in H as (row_items & w3 & Hitems & H). apply lift_inv in Hitems as [Hitems ->].
  injection H as <- <-. cbn [r_dataset r_config r_split r_features r_rows].
  split; [reflexivity|]. split; [reflexivity|]. split; [reflexivity|].
  exists info, features, w1, transformed, size.
  split; [exact Hfeat|]. split; [exact Hlist|]. split.
  { intros Htruthy. rewrite Htruthy in Hcols. simpl in Hcols. apply Z.ltb_ge in Hcols.
    exact Hcols. }
  split; [exact Hjson|]. split; [apply Z.ltb_ge; exact Hsize|]. split; [exact Hitems|].
  intros Hpos.
  destruct (transform_rows_from_spec get_cell_value dataset config split assets_base_url
              assets_directory rows features 0 transformed Htrans) as [-> _].
  unfold try_except in Hrows.
  destruct (get_rows load_dataset dataset config split true rows_max_number hf_token w1)
    as [[[rows1|err] w1']|] eqn:Hstream; [| |discriminate Hrows].
  - injection Hrows as -> ->. eapply get_rows_length; eassumption.
  - destruct (is_Exception err); [|discriminate Hrows].
    destruct (match size_in_bytes info with Some _ => _ | None => _ end);
      [discriminate Hrows|].
    destruct (get_rows load_dataset dataset config split false rows_max_number hf_token w1')
      as [[[rows2|err2] w2']|] eqn:Hnormal; [| |discriminate Hrows].
    + injection Hrows as -> ->. eapply get_rows_length; eassumption.
    + destruct (is_Exception err2); discriminate Hrows.
Qed.

End call.

End response.

(** *** The properties on concrete inputs *)

Local Abbreviation on_scenario T hub info store split rows_max_bytes columns_max_number :=
  (T hub info Scenarios.features_list_of Scenarios.json_size_of Scenarios.cell_value_of
     Scenarios.row_items_of Scenarios.config_not_found Scenarios.split_not_found store
     "dataset" "config" split "http://localhost/assets" None
     0%Z rows_max_bytes 2%Z 1%Z columns_max_number "/assets" None).

(** Two rows, then a broken block: with a cap of two the error is raised. *)
Lemma get_rows_truncation_witness :
  get_rows MoreScenarios.hub_broken "dataset" "config" "train" true 2 None Scenarios.w0
    = Some (Raise MoreScenarios.broken_block, after_one_attempt Scenarios.w0).
Proof.
  destruct (get_rows_truncation MoreScenarios.hub_broken "dataset" "config" "train" true 2
              None Scenarios.w0
              (IterableDataset {| items := [Scenarios.one_row; Scenarios.one_row];
                                  failure := Some MoreScenarios.broken_block |}
                 (Return ResolvedOther))
              {| items := [Scenarios.one_row; Scenarios.one_row];
                 failure := Some MoreScenarios.broken_block |})
    as [Hunder _]; [lia|reflexivity|split; reflexivity|].
  destruct Hunder as [_ Hbreak]; [vm_compute; reflexivity|].
  apply Hbreak; [simpl; lia|reflexivity|].
  apply (bool_decide_unpack _). vm_compute. exact I.
Defined.

(** An object of the wrong class and a missing file are raised after one
    attempt; in offline mode the attempts go on. *)
Lemma get_rows_not_retried_witness :
  get_rows MoreScenarios.hub_wrong_class "dataset" "config" "train" true 2 None Scenarios.w0
    = Some (Raise (TypeError "load_dataset should return an IterableDataset in streaming mode"),
            after_one_attempt Scenarios.w0) /\
  get_rows MoreScenarios.hub_down "dataset" "config" "train" true 2 None Scenarios.w0
    = Some (Raise (OtherException "FileNotFoundError" FileNotFoundError_mro "no such file"),
            after_one_attempt Scenarios.w0) /\
  exists attempts,
    (2 <= attempts <= 5)%nat /\
    slept {| slept := [1; 7; 70; 420; 4200]%Z; hub_calls := 5 |}
      = slept Scenarios.w0 ++ take attempts SLEEPS.
Proof.
  split; [|split].
  - destruct (get_rows_not_retried MoreScenarios.hub_wrong_class "dataset" "config" "train"
                true 2 None Scenarios.w0) as (_ & Hclass & _).
    apply (Hclass OtherDatasetObj); reflexivity.
  - destruct (get_rows_not_retried MoreScenarios.hub_down "dataset" "config" "train"
                true 2 None Scenarios.w0) as (Hother & _ & _).
    apply Hother; [reflexivity|]. apply (bool_decide_unpack _). vm_compute. exact I.
  - destruct (get_rows_not_retried ModelScenarios.hub_offline "dataset" "config" "train"
                true 2 None Scenarios.w0) as (_ & _ & Hretried).
    destruct (Hretried ModelScenarios.offline_mode_is_enabled
                (Raise (RuntimeError "Give up after 5 attempts with ConnectionError"
                          (Some ModelScenarios.offline_mode_is_enabled)))
                {| slept := [1; 7; 70; 420; 4200]%Z; hub_calls := 5 |})
      as (attempts & Hn & _ & Hs).
    + reflexivity.
    + apply (bool_decide_unpack _). vm_compute. exact I.
    + reflexivity.
    + exists attempts. split; [exact Hn|exact Hs].
Defined.

Lemma transform_rows_shape_witness :
  exists out,
    transform_rows Scenarios.cell_value_of "dataset" "config" "train"
      [Scenarios.one_row; [("a", JInt 5)]] (Some Scenarios.three_columns)
      "http://localhost/assets" "/assets" = Return out /\
    length out = 2%nat.
Proof.
  eexists. split; [reflexivity|].
  eapply proj1, (transform_rows_shape Scenarios.cell_value_of "dataset" "config" "train"
                   "http://localhost/assets" "/assets"
                   [Scenarios.one_row; [("a", JInt 5)]] (Some Scenarios.three_columns)).
  reflexivity.
Defined.

Lemma upstream_missing_witness :
  MoreScenarios.response_on Scenarios.hub_three_rows Scenarios.info_three_columns ∅
    "train" 1000 10 Scenarios.w0
  = Some (Raise (Scenarios.config_not_found
                   "The config 'config' does not exist for the dataset.'"
                   (Some DoesNotExist)), Scenarios.w0).
Proof.
  destruct (on_scenario upstream_missing Scenarios.hub_three_rows
              Scenarios.info_three_columns ∅ "train" 1000%Z 10%Z Scenarios.w0)
    as [Hnone _].
  - intros e He. rewrite lookup_empty in He. discriminate He.
  - apply Hnone. apply lookup_empty.
Defined.

Lemma streaming_kind_decides_witness :
  MoreScenarios.response_on Scenarios.hub_three_rows Scenarios.info_three_columns
    Scenarios.store_with_splits "train" 1000 10 Scenarios.w0
  = MoreScenarios.response_on Scenarios.hub_three_rows Scenarios.info_three_columns
      MoreScenarios.store_both "train" 1000 10 Scenarios.w0.
Proof.
  apply (on_scenario streaming_kind_decides Scenarios.hub_three_rows
           Scenarios.info_three_columns Scenarios.store_with_splits "train" 1000%Z 10%Z
           (Scenarios.ok_entry MoreScenarios.train_splits) 
           (JList [JDict [("dataset", JStr "dataset"); ("config", JStr "config");
                          ("split", JStr "train")]])
           MoreScenarios.store_both Scenarios.w0).
  - split; [apply lookup_insert_eq|reflexivity].
  - vm_compute. reflexivity.
Defined.

Lemma previous_step_status_witness :
  exists message,
    MoreScenarios.response_on Scenarios.hub_three_rows Scenarios.info_three_columns
      MoreScenarios.store_error_entry "train" 1000 10 Scenarios.w0
    = Some (Raise (PreviousStepStatusError message None), Scenarios.w0).
Proof.
  eexists.
  apply (on_scenario previous_step_status Scenarios.hub_three_rows
           Scenarios.info_three_columns MoreScenarios.store_error_entry "train" 1000%Z 10%Z
           (MoreScenarios.error_entry_with MoreScenarios.train_splits)
           (JList [JDict [("dataset", JStr "dataset"); ("config", JStr "config");
                          ("split", JStr "train")]])
           Scenarios.w0).
  - left. split; [apply lookup_insert_eq|reflexivity].
  - discriminate.
Defined.

Lemma split_not_listed_witness :
  MoreScenarios.response_on Scenarios.hub_three_rows Scenarios.info_three_columns
    Scenarios.store_with_splits "test" 1000 10 Scenarios.w0
  = Some (Raise (Scenarios.split_not_found
                   "The split 'test' does not exist for the config 'config' of the dataset."
                   None), Scenarios.w0).
Proof.
  destruct (on_scenario split_not_listed Scenarios.hub_three_rows
              Scenarios.info_three_columns Scenarios.store_with_splits "test" 1000%Z 10%Z
              (Scenarios.ok_entry MoreScenarios.train_splits)
              (JList [JDict [("dataset", JStr "dataset"); ("config", JStr "config");
                             ("split", JStr "train")]])
              Scenarios.w0) as [Hnot _].
  - left. split; [apply lookup_insert_eq|reflexivity].
  - reflexivity.
  - apply (Hnot [JStr "train"]); reflexivity.
Defined.

(** A missing file with a config of unknown size: StreamingRowsError.  An
    interruption during the streaming attempt is not caught. *)
Lemma streaming_fallback_witness :
  MoreScenarios.response_on MoreScenarios.hub_down MoreScenarios.info_unknown_size
    Scenarios.store_with_splits "train" 1000 10 Scenarios.w0
  = Some (Raise (StreamingRowsError
                   "Cannot load the dataset split (in streaming mode) to extract the first rows."
                   (Some (OtherException "FileNotFoundError" FileNotFoundError_mro
                            "no such file"))),
          {| slept := [1%Z]; hub_calls := 2 |}) /\
  MoreScenarios.response_on ModelScenarios.hub_interrupted MoreScenarios.info_unknown_size
    Scenarios.store_with_splits "train" 1000 10 Scenarios.w0
  = Some (Raise ModelScenarios.keyboard_interrupt, {| slept := [1%Z]; hub_calls := 2 |}).
Proof.
  split.
  - destruct (on_scenario streaming_fallback MoreScenarios.hub_down
                MoreScenarios.info_unknown_size Scenarios.store_with_splits "train"
                1000%Z 10%Z Scenarios.w0
                {| info_features := Some Scenarios.three_columns; size_in_bytes := None |}
                (Some Scenarios.three_columns)
                [JDict [("name", JStr "a"); ("type", JStr "int64")];
                 JDict [("name", JStr "b"); ("type", JStr "int64")];
                 JDict [("name", JStr "c"); ("type", JStr "string")]]
                130%Z
                {| slept := []; hub_calls := 1 |}
                (OtherException "FileNotFoundError" FileNotFoundError_mro "no such file")
                {| slept := [1%Z]; hub_calls := 2 |}) as [Hexc _].
    + vm_compute. reflexivity.
    + reflexivity.
    + reflexivity.
    + vm_compute. reflexivity.
    + vm_compute. discriminate.
    + vm_compute. reflexivity.
    + destruct Hexc as [Hbig _]; [apply (bool_decide_unpack _); vm_compute; exact I|].
      apply Hbig. exact I.
  - destruct (on_scenario streaming_fallback ModelScenarios.hub_interrupted
                MoreScenarios.info_unknown_size Scenarios.store_with_splits "train"
                1000%Z 10%Z Scenarios.w0
                {| info_features := Some Scenarios.three_columns; size_in_bytes := None |}
                (Some Scenarios.three_columns)
                [JDict [("name", JStr "a"); ("type", JStr "int64")];
                 JDict [("name", JStr "b"); ("type", JStr "int64")];
                 JDict [("name", JStr "c"); ("type", JStr "string")]]
                130%Z
                {| slept := []; hub_calls := 1 |}
                ModelScenarios.keyboard_interrupt
                {| slept := [1%Z]; hub_calls := 2 |}) as [_ Hbase].
    + vm_compute. reflexivity.
    + reflexivity.
    + reflexivity.
    + vm_compute. reflexivity.
    + vm_compute. discriminate.
    + vm_compute. reflexivity.
    + apply Hbase. apply (bool_decide_unpack _). vm_compute. exact I.
Defined.

Lemma errors_let_through_witness :
  FirstRowsStages.let_through Scenarios.features_list_of Scenarios.json_size_of
    Scenarios.row_items_of
    (TooManyColumnsError
       "The number of columns (3) exceeds the maximum supported number of columns (2). This is a current limitation of the datasets viewer. You can reduce the number of columns if you want the viewer to work."
       None).
Proof.
  apply (on_scenario errors_let_through Scenarios.hub_three_rows
           Scenarios.info_three_columns Scenarios.store_with_splits "train" 1000%Z 2%Z
           (fun _ _ => eq_refl) (fun _ _ => eq_refl)
           Scenarios.w0 _ {| slept := []; hub_calls := 1 |}).
  vm_compute. reflexivity.
Defined.

Lemma response_respects_ceilings_witness :
  exists response w',
    MoreScenarios.response_on Scenarios.hub_three_rows Scenarios.info_three_columns
      Scenarios.store_with_splits "train" 1000 10 Scenarios.w0
    = Some (Return response, w') /\
    r_dataset response = "dataset".
Proof.
  eexists. eexists. split; [vm_compute; reflexivity|].
  eapply proj1, (on_scenario response_respects_ceilings Scenarios.hub_three_rows
                   Scenarios.info_three_columns Scenarios.store_with_splits "train"
                   1000%Z 10%Z Scenarios.w0).
  vm_compute. reflexivity.
Defined.

End FirstRowsMore.

(** * The split names, from their computation to their use *)
Module SplitNamesSpec.
Import Cache FirstRows FirstRowsStages.

Lemma split_names_item_content (items : list SplitNames.SplitItem) :
  split_names (map SplitNames.item_content items)
  = Return (map (fun item => JStr (SplitNames.split item)) items).
Proof.
  induction items as [|item items IH]; [reflexivity|].
  cbn [map split_names]. rewrite IH. reflexivity.
Qed.

Lemma existsb_str_eq (s : string) (names : list string) :
  existsb (str_eq s) (map JStr names) = true <-> s ∈ names.
Proof.
  induction names as [|n names IH]; simpl.
  - split; [discriminate|]. intros H. inversion H.
  - rewrite orb_true_iff, IH, elem_of_cons.
    destruct (String.eqb_spec s n); split; intros [H|H]; auto; congruence.
Qed.

(** X13.  The content that [compute_split_names_from_streaming_response]
    produces is the content that [compute_first_rows_response] reads.  The
    response lists the split names the Hub gave, in order, each with the
    dataset and the config of the request.  Once it is cached as an OK
    response of the streaming kind, a first-rows call for the same dataset
    and config fails with SplitNotFoundError, without any fetch, exactly for
    the splits that are not listed; for a listed split the look-up passes and
    the info is fetched (so a failure of that fetch is what is reported: as
    an InfoError when it is an instance of [Exception], as it is
    otherwise). *)
Theorem split_names_feed_first_rows
    (get_dataset_split_names : string -> string -> option string -> outcome (list string))
    (is_EmptyDatasetError : exn -> bool)
    (load_dataset : nat -> string -> string -> string -> bool -> option string ->
                    outcome DatasetObj)
    (get_dataset_config_info : nat -> string -> string -> option string ->
                               outcome DatasetInfo)
    (to_features_list : option Features -> outcome (list json))
    (get_json_size : SplitFirstRowsResponse -> outcome Z)
    (get_cell_value : string -> string -> string -> nat -> json -> string -> json ->
                      string -> string -> outcome json)
    (create_truncated_row_items : list Row -> Z -> Z -> Z -> outcome (list json))
    (ConfigNotFoundError SplitNotFoundError : string -> option exn -> exn)
    (store : Store)
    (dataset config split assets_base_url : string) (hf_token token : option string)
    (min_cell_bytes rows_max_bytes rows_max_number rows_min_number columns_max_number : Z)
    (assets_directory : string) (max_size_fallback : option Z)
    (names : list string) (e : CacheEntry) (w : World) :
  get_dataset_split_names dataset config token = Return names ->
  exists response,
    SplitNames.compute_split_names_from_streaming_response get_dataset_split_names
      is_EmptyDatasetError dataset config token = Return response /\
    map SplitNames.split (SplitNames.splits response) = names /\
    Forall (fun item => SplitNames.dataset item = dataset /\ SplitNames.config item = config)
           (SplitNames.splits response) /\
    (store !! streaming_key dataset config = Some e ->
     content e = SplitNames.content_of response ->
     http_status e = HTTP_OK ->
     let run :=
       compute_first_rows_response load_dataset get_dataset_config_info to_features_list
         get_json_size get_cell_value create_truncated_row_items ConfigNotFoundError
         SplitNotFoundError store dataset config split assets_base_url hf_token
         min_cell_bytes rows_max_bytes rows_max_number rows_min_number columns_max_number
         assets_directory max_size_fallback w in
     (split ∉ names ->
      run = Some (Raise (SplitNotFoundError
                           ("The split '" +:+ split +:+ "' does not exist for the config '"
                            +:+ config +:+ "' of the dataset.") None), w))
     /\
     (split ∈ names ->
      forall err,
        get_dataset_config_info (hub_calls w) dataset config hf_token = Raise err ->
        run = Some (Raise (if bool_decide ("Exception" ∈ mro err)
                           then InfoError
                                  ("The info cannot be fetched for the config '" +:+ config
                                   +:+ "' of the dataset.") (Some err)
                           else err),
                    {| slept := slept w; hub_calls := S (hub_calls w) |}))).
Proof.
  intros Hnames. unfold SplitNames.compute_split_names_from_streaming_response.
  rewrite Hnames. eexists. split; [reflexivity|]. cbn [SplitNames.splits].
  split; [rewrite map_map; apply map_id|]. split.
  { apply Forall_forall. intros item Hin. apply list_elem_of_In, in_map_iff in Hin as (n & <- & _).
    split; reflexivity. }
  intros Hl Hcontent Hst.
  set (items := map (fun split0 => {| SplitNames.dataset := dataset;
                                      SplitNames.config := config;
                                      SplitNames.split := split0 |}) names) in *.
  assert (Hup : upstream_splits ConfigNotFoundError store dataset config
                = Return (e, JList (map SplitNames.item_content items))).
  { apply FirstRowsMore.upstream_splits_found. left. split; [exact Hl|].
    rewrite Hcontent. reflexivity. }
  assert (Hparse : bind (iter_json (JList (map SplitNames.item_content items))) split_names
                   = Return (map JStr names)).
  { cbn [iter_json bind]. rewrite split_names_item_content. subst items.
    rewrite map_map. reflexivity. }
  split.
  - intros Hnot.
    destruct (FirstRowsMore.before_hub_raise load_dataset get_dataset_config_info
                to_features_list get_json_size get_cell_value create_truncated_row_items
                ConfigNotFoundError SplitNotFoundError store dataset config split
                assets_base_url hf_token min_cell_bytes rows_max_bytes rows_max_number
                rows_min_number columns_max_number assets_directory max_size_fallback w
                e _ Hup) as [_ H].
    destruct (H Hst) as [_ Hsnf]. apply (Hsnf _ Hparse).
    destruct (existsb _ _) eqn:Hex; [|reflexivity].
    apply existsb_str_eq in Hex. contradiction.
  - intros Hin err Hinfo.
    unfold compute_first_rows_response. apply FirstRowsMore.bind_raise.
    unfold get_features. rewrite Hup.
    rewrite (FirstRowsSpec.bind_return (lift _) _ w _ w eq_refl). cbn [fst snd].
    apply Z.eqb_eq in Hst. rewrite Hst. cbn [negb].
    rewrite (FirstRowsSpec.bind_return (ret tt) _ w tt w eq_refl).
    rewrite (FirstRowsSpec.bind_return (lift _) _ w (map JStr names) w)
      by (unfold lift; rewrite Hparse; reflexivity).
    apply existsb_str_eq in Hin. rewrite Hin. cbn [negb].
    rewrite (FirstRowsSpec.bind_return (ret tt) _ w tt w eq_refl).
    apply FirstRowsMore.bind_raise.
    unfold try_except, call_hub. rewrite Hinfo. unfold is_Exception, isinstance.
    destruct (bool_decide ("Exception" ∈ mro err)); reflexivity.
Qed.

(** The two splits that the Hub lists are cached as they were computed; a
    first-rows call for a third split then fails with SplitNotFoundError,
    and a call for a listed split on a Hub that cannot give the info fails
    with InfoError. *)
Lemma split_names_feed_first_rows_witness :
  exists response,
    SplitNames.compute_split_names_from_streaming_response ModelScenarios.hub_split_names
      ModelScenarios.never_empty "dataset" "config" None = Return response /\
    map SplitNames.split (SplitNames.splits response) = ["train"; "validation"] /\
    ModelScenarios.store_two_splits !! streaming_key "dataset" "config"
      = Some (Scenarios.ok_entry (SplitNames.content_of response)) /\
    MoreScenarios.response_on Scenarios.hub_three_rows ModelScenarios.info_missing
      ModelScenarios.store_two_splits "test" 1000 10 Scenarios.w0
    = Some (Raise (Scenarios.split_not_found
                     "The split 'test' does not exist for the config 'config' of the dataset."
                     None), Scenarios.w0) /\
    MoreScenarios.response_on Scenarios.hub_three_rows ModelScenarios.info_missing
      ModelScenarios.store_two_splits "validation" 1000 10 Scenarios.w0
    = Some (Raise (InfoError
                     "The info cannot be fetched for the config 'config' of the dataset."
                     (Some (OtherException "FileNotFoundError" FileNotFoundError_mro
                              "no such file"))),
            {| slept := []; hub_calls := 1 |}).
Proof.
  set (computed := {| SplitNames.splits :=
         [ {| SplitNames.dataset := "dataset"; SplitNames.config := "config";
              SplitNames.split := "train" |};
           {| SplitNames.dataset := "dataset"; SplitNames.config := "config";
              SplitNames.split := "validation" |} ] |}).
  assert (Hentry : ModelScenarios.store_two_splits !! streaming_key "dataset" "config"
                   = Some (Scenarios.ok_entry (SplitNames.content_of computed)))
    by apply lookup_insert_eq.
  assert (Hfeed : forall split,
            exists response,
              SplitNames.compute_split_names_from_streaming_response
                ModelScenarios.hub_split_names ModelScenarios.never_empty
                "dataset" "config" None = Return response /\
              map SplitNames.split (SplitNames.splits response) = ["train"; "validation"] /\
              response = computed /\
              (split ∉ ["train"; "validation"] ->
               MoreScenarios.response_on Scenarios.hub_three_rows ModelScenarios.info_missing
                 ModelScenarios.store_two_splits split 1000 10 Scenarios.w0
               = Some (Raise (Scenarios.split_not_found
                                ("The split '" +:+ split
                                 +:+ "' does not exist for the config 'config' of the dataset.")
                                None), Scenarios.w0)) /\
              (split ∈ ["train"; "validation"] ->
               MoreScenarios.response_on Scenarios.hub_three_rows ModelScenarios.info_missing
                 ModelScenarios.store_two_splits split 1000 10 Scenarios.w0
               = Some (Raise (InfoError
                                "The info cannot be fetched for the config 'config' of the dataset."
                                (Some (OtherException "FileNotFoundError"
                                         FileNotFoundError_mro "no such file"))),
                       {| slept := []; hub_calls := 1 |}))).
  { intros split.
    destruct (split_names_feed_first_rows ModelScenarios.hub_split_names
                ModelScenarios.never_empty Scenarios.hub_three_rows
                ModelScenarios.info_missing Scenarios.features_list_of
                Scenarios.json_size_of Scenarios.cell_value_of Scenarios.row_items_of
                Scenarios.config_not_found Scenarios.split_not_found
                ModelScenarios.store_two_splits "dataset" "config" split
                "http://localhost/assets" None None 0%Z 1000%Z 2%Z 1%Z 10%Z "/assets" None
                ["train"; "validation"]
                (Scenarios.ok_entry (SplitNames.content_of computed)) Scenarios.w0 eq_refl)
      as (response & Hcompute & Hnames & _ & Hconsumer).
    assert (Hresponse : response = computed) by (injection Hcompute as <-; reflexivity).
    exists response. split; [exact Hcompute|]. split; [exact Hnames|].
    split; [exact Hresponse|]. subst response.
    destruct (Hconsumer Hentry eq_refl eq_refl) as [Hnot Hin]. split.
    - exact Hnot.
    - intros Hlisted.
      exact (Hin Hlisted
               (OtherException "FileNotFoundError" FileNotFoundError_mro "no such file")
               eq_refl). }
  destruct (Hfeed "test") as (response & Hcompute & Hnames & -> & Hnot & _).
  destruct (Hfeed "validation") as (_ & _ & _ & _ & _ & Hin).
  exists computed. split; [exact Hcompute|]. split; [exact Hnames|].
  split; [exact Hentry|]. split.
  - apply Hnot. apply (bool_decide_unpack _). vm_compute. exact I.
  - apply Hin. apply (bool_decide_unpack _). vm_compute. exact I.
Defined.

End SplitNamesSpec.

(** * datasets_preview_backend/models/config.py *)
Module ConfigSpec.
Import Config.

Section models.
Variables (Split Info : Type).
Variable Status400Error : string -> option exn -> exn.
Variable Status404Error : string -> option exn -> exn.
Variable DEFAULT_CONFIG_NAME : string.
Variable get_dataset_config_names : string -> outcome (list string).
Variable get_info : string -> string -> outcome Info.
Variable get_splits : string -> string -> Info -> outcome (list Split).
Variable is_FileNotFoundError : exn -> bool.

Local Abbreviation Config := (Config.Config Split Info).
Local Abbreviation named n configs :=
  (filter (fun config : Config => config_name _ _ config = n) configs).

Lemma filter_configs_str (configs : list Config) (n : string) :
  filter_configs Split Info Status404Error configs (Some (PyStr n))
  = match named n configs with
    | [] => Raise (Status404Error "config not found in dataset" None)
    | _ => Return (named n configs)
    end.
Proof. reflexivity. Qed.

Lemma named_nil (configs : list Config) (n : string) :
  named n configs = [] <-> forall c, c ∈ configs -> config_name _ _ c <> n.
Proof.
  split.
  - intros Hnil c Hin Hname.
    assert (Hc : c ∈ named n configs) by (apply list_elem_of_filter; auto).
    rewrite Hnil in Hc. inversion Hc.
  - intros Hall. destruct (named n configs) as [|c cs] eqn:Hf; [reflexivity|].
    assert (Hc : c ∈ named n configs) by (rewrite Hf; left).
    apply list_elem_of_filter in Hc as [Hname Hin]. destruct (Hall c Hin Hname).
Qed.

Lemma named_idemp (configs : list Config) (n : string) :
  named n (named n configs) = named n configs.
Proof.
  induction configs as [|c configs IH]; [reflexivity|].
  rewrite (filter_cons _ c configs).
  destruct (decide (config_name _ _ c = n)) as [Hc|Hc]; [|exact IH].
  rewrite (filter_cons _ c (named n configs)).
  destruct (decide (config_name _ _ c = n)); [|contradiction]. rewrite IH. reflexivity.
Qed.

(** X14.  [filter_configs]: without a name the list is returned as it is;
    a name that is not a string is a TypeError, even on an empty list; for a
    name borne by some config the result is the non-empty sub-list, in order,
    of the configs with that name, and filtering it again by the same name
    changes nothing; for a name borne by no config (in particular on the
    empty list) the 404 error is raised. *)
Theorem filter_configs_spec (configs : list Config) (n : string) :
  filter_configs Split Info Status404Error configs None = Return configs /\
  (forall v, filter_configs Split Info Status404Error configs (Some (PyOther v))
             = Raise (TypeError "config argument should be a string")) /\
  ((exists c, c ∈ configs /\ config_name _ _ c = n) ->
   exists found,
     filter_configs Split Info Status404Error configs (Some (PyStr n)) = Return found /\
     found <> [] /\
     found = named n configs /\
     Forall (fun c => config_name _ _ c = n /\ c ∈ configs) found /\
     filter_configs Split Info Status404Error found (Some (PyStr n)) = Return found) /\
  ((forall c, c ∈ configs -> config_name _ _ c <> n) ->
   filter_configs Split Info Status404Error configs (Some (PyStr n))
   = Raise (Status404Error "config not found in dataset" None)).
Proof.
  split; [reflexivity|]. split; [reflexivity|]. split.
  - intros (c & Hin & Hname).
    assert (Hne : named n configs <> []).
    { intros Hnil. exact (proj1 (named_nil configs n) Hnil c Hin Hname). }
    exists (named n configs). rewrite !filter_configs_str, named_idemp.
    destruct (named n configs) as [|c0 cs] eqn:Hf; [contradiction|].
    split; [reflexivity|]. split; [discriminate|]. split; [reflexivity|]. split; [|reflexivity].
    rewrite <- Hf. apply Forall_forall. intros x Hx.
    exact (proj1 (list_elem_of_filter _ _ _) Hx).
  - intros Hall. rewrite filter_configs_str.
    rewrite (proj2 (named_nil configs n) Hall). reflexivity.
Qed.

(** X15.  [get_config_names] never returns an empty list: it returns the
    names the library gives, or the default name alone when the library gives
    none.  When the library raises: a FileNotFoundError becomes the 404
    error and any other instance of [Exception] the 400 error, both chained
    to the cause; an exception that is neither (SystemExit raised by a
    dataset script, say) is not caught and leaves the function as it is. *)
Theorem get_config_names_spec (dataset_name : string) :
  match get_config_names Status400Error Status404Error DEFAULT_CONFIG_NAME
          get_dataset_config_names is_FileNotFoundError dataset_name with
  | Return names =>
      names <> [] /\
      (get_dataset_config_names dataset_name = Return names \/
       (get_dataset_config_names dataset_name = Return [] /\
        names = [DEFAULT_CONFIG_NAME]))
  | Raise e =>
      exists err,
        get_dataset_config_names dataset_name = Raise err /\
        e = if is_FileNotFoundError err
            then Status404Error "The dataset could not be found." (Some err)
            else if bool_decide ("Exception" ∈ mro err)
                 then Status400Error
                        "The config names could not be parsed from the dataset." (Some err)
                 else err
  end.
Proof.
  unfold get_config_names, is_Exception, isinstance.
  destruct (get_dataset_config_names dataset_name) as [[|n names]|err].
  - split; [discriminate|]. right. auto.
  - split; [discriminate|]. left. reflexivity.
  - destruct (is_FileNotFoundError err) eqn:Hfnf; [exists err; rewrite Hfnf; auto|].
    destruct (bool_decide ("Exception" ∈ mro err)) eqn:Hexc;
      exists err; rewrite Hfnf, Hexc; auto.
Qed.

(** An interruption while the config names are listed goes through; a
    parsing error becomes the 400 error. *)
Example get_config_names_interrupted :
  get_config_names ModelScenarios.status_400 ModelScenarios.status_404 "default"
    (fun _ => Raise ModelScenarios.keyboard_interrupt) ModelScenarios.is_file_not_found
    "dataset" = Raise ModelScenarios.keyboard_interrupt /\
  get_config_names ModelScenarios.status_400 ModelScenarios.status_404 "default"
    (fun _ => Raise (ValueError "bad script")) ModelScenarios.is_file_not_found
    "dataset"
  = Raise (ModelScenarios.status_400
             "The config names could not be parsed from the dataset."
             (Some (ValueError "bad script"))).
Proof. split; reflexivity. Qed.

Lemma get_configs_of_spec (dataset_name : string) (names : list string) (configs : list Config) :
  get_configs_of Split Info get_info get_splits dataset_name names = Return configs ->
  map (config_name _ _) configs = names /\
  Forall (fun c =>
            get_info dataset_name (config_name _ _ c) = Return (info _ _ c) /\
            get_splits dataset_name (config_name _ _ c) (info _ _ c)
              = Return (splits _ _ c)) configs.
Proof.
  revert configs. induction names as [|n names IH]; intros configs; simpl.
  - intros [= <-]. split; [reflexivity|constructor].
  - destruct (get_info dataset_name n) as [i|e] eqn:Hinfo; simpl; [|discriminate].
    destruct (get_splits dataset_name n i) as [sp|e] eqn:Hsplits; simpl; [|discriminate].
    destruct (get_configs_of _ _ _ _ dataset_name names) as [cs|e]; simpl; [|discriminate].
    intros [= <-]. destruct (IH cs eq_refl) as [Hnames Hall].
    split; [simpl; rewrite Hnames; reflexivity|].
    constructor; [simpl; auto|exact Hall].
Qed.

(** X16.  When [get_configs] succeeds it returns one config per name of
    [get_config_names], in order and under that name, each holding the info
    and the splits fetched for it; the list is not empty, and
    [filter_configs] finds a config in it exactly for those names. *)
Theorem get_configs_spec (dataset_name : string) (configs : list Config) :
  get_configs Split Info Status400Error Status404Error DEFAULT_CONFIG_NAME
    get_dataset_config_names get_info get_splits is_FileNotFoundError dataset_name
    = Return configs ->
  configs <> [] /\
  get_config_names Status400Error Status404Error DEFAULT_CONFIG_NAME
    get_dataset_config_names is_FileNotFoundError dataset_name
    = Return (map (config_name _ _) configs) /\
  Forall (fun c =>
            get_info dataset_name (config_name _ _ c) = Return (info _ _ c) /\
            get_splits dataset_name (config_name _ _ c) (info _ _ c)
              = Return (splits _ _ c)) configs /\
  forall n,
    n ∈ map (config_name _ _) configs <->
    exists found,
      filter_configs Split Info Status404Error configs (Some (PyStr n)) = Return found.
Proof.
  unfold get_configs. intros H.
  pose proof (get_config_names_spec dataset_name) as Hnames.
  destruct (get_config_names _ _ _ _ _ dataset_name) as [names|e]; [|discriminate H].
  simpl in H. destruct Hnames as [Hne _].
  destruct (get_configs_of_spec dataset_name names configs H) as [Hmap Hall].
  split; [intros ->; simpl in Hmap; congruence|].
  split; [rewrite Hmap; reflexivity|]. split; [exact Hall|].
  intros n. rewrite filter_configs_str. split.
  - intros Hin. apply list_elem_of_In, in_map_iff in Hin as (c & Hname & Hc).
    apply list_elem_of_In in Hc.
    destruct (named n configs) as [|c0 cs] eqn:Hf; [|eauto].
    destruct (proj1 (named_nil configs n) Hf c Hc Hname).
  - intros [found Hfound].
    destruct (named n configs) as [|c0 cs] eqn:Hf; [discriminate Hfound|].
    assert (Hc : c0 ∈ named n configs) by (rewrite Hf; left).
    apply list_elem_of_filter in Hc as [Hname Hin].
    apply list_elem_of_In, in_map_iff. exists c0. split; [exact Hname|].
    apply list_elem_of_In. exact Hin.
Qed.

End models.

Lemma get_configs_spec_witness :
  ModelScenarios.two_configs <> [] /\
  Config.get_config_names ModelScenarios.status_400 ModelScenarios.status_404 "default"
    ModelScenarios.config_names_of ModelScenarios.is_file_not_found "dataset"
  = Return (map (Config.config_name string nat) ModelScenarios.two_configs).
Proof.
  destruct (get_configs_spec string nat ModelScenarios.status_400 ModelScenarios.status_404
              "default" ModelScenarios.config_names_of ModelScenarios.info_of
              ModelScenarios.splits_of_config ModelScenarios.is_file_not_found
              "dataset" ModelScenarios.two_configs eq_refl) as (Hne & Hnames & _).
  split; [exact Hne|exact Hnames].
Defined.

End ConfigSpec.

(** * api/routes/valid.py: the list that [get_valid] returns *)
Module ValidMore.
Import Cache Graph Valid.

Lemma compare_not_Gt_trans (s1 s2 s3 : string) :
  String.compare s1 s2 <> Gt -> String.compare s2 s3 <> Gt -> String.compare s1 s3 <> Gt.
Proof.
  revert s2 s3. induction s1 as [|a s1 IH]; intros [|b s2] [|c s3]; simpl; try congruence.
  unfold Ascii.compare.
  destruct (N.compare_spec (Ascii.N_of_ascii a) (Ascii.N_of_ascii b)) as [Hab|Hab|Hab],
           (N.compare_spec (Ascii.N_of_ascii b) (Ascii.N_of_ascii c)) as [Hbc|Hbc|Hbc],
           (N.compare_spec (Ascii.N_of_ascii a) (Ascii.N_of_ascii c)) as [Hac|Hac|Hac];
    try congruence; try lia; apply IH.
Qed.

Lemma leb_not_Gt (s1 s2 : string) : str_le s1 s2 <-> String.compare s1 s2 <> Gt.
Proof.
  unfold str_le, String.leb. destruct (String.compare s1 s2); split; congruence.
Qed.

Lemma str_le_trans : Transitive str_le.
Proof.
  intros s1 s2 s3. rewrite !leb_not_Gt. apply compare_not_Gt_trans.
Qed.

Lemma str_le_total : Total str_le.
Proof. intros s1 s2. apply String.leb_total. Qed.

Lemma sorted_spec (datasets : gset string) :
  StronglySorted str_le (sorted datasets) /\ NoDup (sorted datasets).
Proof.
  unfold sorted. split.
  - apply (@StronglySorted_merge_sort _ str_le _ str_le_trans str_le_total).
  - rewrite merge_sort_Permutation. apply NoDup_elements.
Qed.

(** What the loop of [get_valid] leaves: nothing when no step is required,
    and otherwise the sorted set of the datasets that are valid for every
    required step. *)
Lemma get_valid_cases (graph : ProcessingGraph) (store : Store) :
  (get_processing_steps_required_by_dataset_viewer graph = [] /\
   get_valid graph store = []) \/
  (get_processing_steps_required_by_dataset_viewer graph <> [] /\
   exists ds,
     get_valid graph store = sorted ds /\
     forall dataset,
       dataset ∈ ds <->
       forall step,
         step ∈ get_processing_steps_required_by_dataset_viewer graph ->
         dataset ∈ get_valid_datasets (cache_kind step) store).
Proof.
  unfold get_valid.
  destruct (get_processing_steps_required_by_dataset_viewer graph) as [|step steps];
    [left; split; reflexivity|right].
  split; [discriminate|].
  destruct (ValidSpec.fold_filled store steps (get_valid_datasets (cache_kind step) store))
    as (ds & Hfold & Hds).
  exists ds. cbn [fold_left]. cbv zeta in Hfold |- *. rewrite Hfold.
  split; [reflexivity|]. intros d. rewrite Hds. split.
  - intros [Hstep Hrest] step' Hin. apply elem_of_cons in Hin as [->|Hin]; auto.
  - intros Hall. split; [apply Hall; left|].
    intros step' Hin. apply Hall. right. exact Hin.
Qed.

(** X17.  The list that [get_valid] returns is in ascending order of the
    string comparison, every element being below all the later ones, and it
    holds no dataset twice. *)
Theorem get_valid_sorted (graph : ProcessingGraph) (store : Store) :
  StronglySorted str_le (get_valid graph store) /\ NoDup (get_valid graph store).
Proof.
  destruct (get_valid_cases graph store) as [[_ ->]|(_ & ds & -> & _)].
  - split; constructor.
  - apply sorted_spec.
Qed.

Local Abbreviation required_kinds graph :=
  (map cache_kind (get_processing_steps_required_by_dataset_viewer graph)).

Lemma required_kinds_nil (graph : ProcessingGraph) :
  get_processing_steps_required_by_dataset_viewer graph = [] <->
  forall kind, kind ∉ required_kinds graph.
Proof.
  destruct (get_processing_steps_required_by_dataset_viewer graph) as [|step steps].
  - split; [|reflexivity]. intros _ kind Hin. inversion Hin.
  - split; [discriminate|]. intros Hno. destruct (Hno (cache_kind step)). left.
Qed.

Lemma for_all_kinds (steps : list ProcessingStep) (store : Store) (dataset : string) :
  (forall step, step ∈ steps -> dataset ∈ get_valid_datasets (cache_kind step) store) <->
  (forall kind, kind ∈ map cache_kind steps -> dataset ∈ get_valid_datasets kind store).
Proof.
  split.
  - intros Hall kind Hin. apply list_elem_of_fmap in Hin as (step & -> & Hstep). auto.
  - intros Hall step Hin. apply Hall. apply list_elem_of_fmap. eauto.
Qed.

(** X18.  [get_valid] depends on the required steps only through the set of
    their cache kinds: two graphs whose required steps have the same kinds,
    in whatever order and with whatever repetition, give the same list. *)
Theorem get_valid_same_kinds (graph1 graph2 : ProcessingGraph) (store : Store) :
  (forall kind, kind ∈ required_kinds graph1 <-> kind ∈ required_kinds graph2) ->
  get_valid graph1 store = get_valid graph2 store.
Proof.
  intros Hkinds.
  destruct (get_valid_cases graph1 store) as [[Hnil1 ->]|(Hne1 & ds1 & -> & Hds1)];
    destruct (get_valid_cases graph2 store) as [[Hnil2 ->]|(Hne2 & ds2 & -> & Hds2)].
  - reflexivity.
  - destruct Hne2. apply required_kinds_nil. intros kind Hin.
    apply Hkinds in Hin. exact (proj1 (required_kinds_nil graph1) Hnil1 kind Hin).
  - destruct Hne1. apply required_kinds_nil. intros kind Hin.
    apply Hkinds in Hin. exact (proj1 (required_kinds_nil graph2) Hnil2 kind Hin).
  - f_equal. apply set_eq. intros d. rewrite Hds1, Hds2, !for_all_kinds.
    split; intros Hall kind Hin; apply Hall, Hkinds, Hin.
Qed.

Lemma get_valid_same_kinds_witness :
  get_valid ModelScenarios.graph_reordered Scenarios.store_valid
  = get_valid Scenarios.graph_two_required Scenarios.store_valid.
Proof.
  apply (get_valid_same_kinds ModelScenarios.graph_reordered Scenarios.graph_two_required
           Scenarios.store_valid).
  intros kind.
  assert (H1 : required_kinds ModelScenarios.graph_reordered = ["S2"; "S1"; "S2"])
    by (vm_compute; reflexivity).
  assert (H2 : required_kinds Scenarios.graph_two_required = ["S1"; "S2"])
    by (vm_compute; reflexivity).
  rewrite H1, H2, !elem_of_cons, !elem_of_nil. tauto.
Defined.

(** X19.  Requiring more steps can only remove datasets, provided some step
    was required to begin with: when the required kinds of a graph are not
    empty and are among those of a second graph, every dataset valid for the
    second graph is valid for the first.  (With no required step the list is
    empty, hence the proviso.) *)
Theorem get_valid_more_steps (graph1 graph2 : ProcessingGraph) (store : Store)
    (dataset : string) :
  get_processing_steps_required_by_dataset_viewer graph1 <> [] ->
  (forall kind, kind ∈ required_kinds graph1 -> kind ∈ required_kinds graph2) ->
  dataset ∈ get_valid graph2 store -> dataset ∈ get_valid graph1 store.
Proof.
  intros Hne Hsub.
  destruct (get_valid_cases graph1 store) as [[Hnil1 _]|(_ & ds1 & -> & Hds1)];
    [contradiction|].
  destruct (get_valid_cases graph2 store) as [[_ ->]|(_ & ds2 & -> & Hds2)].
  - intros Hin. inversion Hin.
  - rewrite !ValidSpec.elem_of_sorted, Hds1, Hds2, !for_all_kinds.
    intros Hall kind Hin. apply Hall, Hsub, Hin.
Qed.

Lemma get_valid_more_steps_witness :
  "glue" ∈ get_valid ModelScenarios.graph_one_required Scenarios.store_valid.
Proof.
  apply (get_valid_more_steps ModelScenarios.graph_one_required Scenarios.graph_two_required
           Scenarios.store_valid "glue").
  - discriminate.
  - intros kind.
    assert (H1 : required_kinds ModelScenarios.graph_one_required = ["S1"])
      by (vm_compute; reflexivity).
    assert (H2 : required_kinds Scenarios.graph_two_required = ["S1"; "S2"])
      by (vm_compute; reflexivity).
    rewrite H1, H2, !elem_of_cons, !elem_of_nil. tauto.
  - apply (bool_decide_unpack _). vm_compute. exact I.
Defined.

End ValidMore.

(** * The migration of the cache kind: what each direction does *)
Module MigrationMore.
Import Migration.

Lemma update_many_lookup (old new : string) (responses : list Document) (i : nat) :
  update_many old new responses !! i
  = (fun doc => if String.eqb (kind doc) old then set_kind new doc else doc)
      <$> responses !! i.
Proof. unfold update_many. apply list_lookup_fmap. Qed.

Lemma update_many_none_left (old new : string) (responses : list Document) :
  old <> new ->
  Forall (fun doc => kind doc <> old) (update_many old new responses).
Proof.
  intros Hne. unfold update_many. apply Forall_fmap, Forall_forall. intros doc _. simpl.
  destruct (String.eqb_spec (kind doc) old) as [Heq|Hold]; simpl; [congruence|exact Hold].
Qed.

Lemma up_fixed (responses : list Document) :
  up responses = responses <-> Forall (fun doc => kind doc <> dataset_info) responses.
Proof.
  unfold up, update_many. induction responses as [|doc rest IH]; simpl.
  - split; [constructor|reflexivity].
  - rewrite Forall_cons, <- IH. split.
    + intros [= Hdoc Hrest]. split; [|exact Hrest].
      destruct (String.eqb_spec (kind doc) dataset_info) as [Heq|Hold]; [|exact Hold].
      rewrite <- Hdoc in Heq. discriminate Heq.
    + intros [Hdoc ->].
      destruct (String.eqb_spec (kind doc) dataset_info); [contradiction|reflexivity].
Qed.

Lemma down_fixed (responses : list Document) :
  down responses = responses <->
  Forall (fun doc => kind doc <> dataset_info_updated) responses.
Proof.
  unfold down, update_many. induction responses as [|doc rest IH]; simpl.
  - split; [constructor|reflexivity].
  - rewrite Forall_cons, <- IH. split.
    + intros [= Hdoc Hrest]. split; [|exact Hrest].
      destruct (String.eqb_spec (kind doc) dataset_info_updated) as [Heq|Hold]; [|exact Hold].
      rewrite <- Hdoc in Heq. discriminate Heq.
    + intros [Hdoc ->].
      destruct (String.eqb_spec (kind doc) dataset_info_updated); [contradiction|reflexivity].
Qed.

(** X20.  What [up] does to the collection: it keeps the number and the
    order of the documents; afterwards no document has the kind
    "/dataset-info"; a document of that kind has become the same document
    with the kind "dataset-info", and every other document is left as it
    was; running it again changes nothing, and it changes nothing at all
    exactly when no document had the old kind. *)
Theorem up_effect (responses : list Document) :
  length (up responses) = length responses /\
  Forall (fun doc => kind doc <> dataset_info) (up responses) /\
  (forall i doc,
     responses !! i = Some doc ->
     up responses !! i
     = Some (if bool_decide (kind doc = dataset_info)
             then {| kind := dataset_info_updated; fields := fields doc |}
             else doc)) /\
  up (up responses) = up responses /\
  (up responses = responses <-> Forall (fun doc => kind doc <> dataset_info) responses).
Proof.
  assert (Hnone : Forall (fun doc => kind doc <> dataset_info) (up responses))
    by (apply update_many_none_left; discriminate).
  split; [apply length_map|]. split; [exact Hnone|]. split; [|split].
  - intros i doc Hi. unfold up. rewrite update_many_lookup, Hi. simpl.
    destruct (String.eqb_spec (kind doc) dataset_info) as [Heq|Hold].
    + rewrite bool_decide_eq_true_2 by exact Heq. reflexivity.
    + rewrite bool_decide_eq_false_2 by exact Hold. reflexivity.
  - apply up_fixed, Hnone.
  - apply up_fixed.
Qed.

(** X21.  Rolling back after the migration is the same as rolling back
    directly, and migrating after a rollback the same as migrating directly:
    the documents of both kinds end up under one kind.  Hence [down] undoes
    [up] exactly when no document had the kind "dataset-info" beforehand,
    and [up] undoes [down] exactly when none had the kind "/dataset-info". *)
Theorem down_after_up (responses : list Document) :
  down (up responses) = down responses /\
  up (down responses) = up responses /\
  (down (up responses) = responses <->
   Forall (fun doc => kind doc <> dataset_info_updated) responses) /\
  (up (down responses) = responses <->
   Forall (fun doc => kind doc <> dataset_info) responses).
Proof.
  assert (Hdu : down (up responses) = down responses).
  { unfold down, up, update_many. rewrite map_map. apply map_ext. intros doc.
    destruct (String.eqb_spec (kind doc) dataset_info) as [Heq|Hold]; [|reflexivity].
    destruct doc as [k f]. simpl in Heq. subst k. reflexivity. }
  assert (Hud : up (down responses) = up responses).
  { unfold down, up, update_many. rewrite map_map. apply map_ext. intros doc.
    destruct (String.eqb_spec (kind doc) dataset_info_updated) as [Heq|Hold]; [|reflexivity].
    destruct doc as [k f]. simpl in Heq. subst k. reflexivity. }
  split; [exact Hdu|]. split; [exact Hud|]. rewrite Hdu, Hud.
  split; [apply down_fixed|apply up_fixed].
Qed.

(** On a collection that holds both kinds the rollback is not exact: the
    document that already had the new kind comes back with the old one. *)
Example rollback_merges_kinds :
  down (up ModelScenarios.responses_mixed) <> ModelScenarios.responses_mixed /\
  map kind (down (up ModelScenarios.responses_mixed)) = ["/dataset-info"; "/dataset-info"].
Proof. split; [discriminate|reflexivity]. Qed.

End MigrationMore.

(** * admin/routes/dataset_backfill.py: the answers of the route *)
Module EndpointSpec.
Import Cache Graph State Manager.

(** X22.  What the route does with a request.  An OK response is given
    only when the parameter check passed, the dataset is a non-empty string,
    the authentication check returned, the revision was resolved and the
    calls of libcommon.state returned; its tasks and the resulting cache and
    queue are theirs.  Otherwise there is a cause: the missing-parameter
    error, else the failure of the authentication check, else the failure of
    the revision look-up, else the failure of libcommon.state; in the first
    three cases the cache and the queue are as they were, in the last they
    are as libcommon.state left them.  The cause is answered as an error
    response, itself when it is a DatasetError or an AdminCustomError and
    wrapped in UnexpectedError when it is another instance of [Exception];
    a cause that is neither is raised past the route. *)
Theorem endpoint_response_cases
    (get_dataset_git_revision : string -> outcome string)
    (are_valid_parameters : list (option string) -> bool)
    (MissingRequiredParameterError : string -> exn)
    (UnexpectedError : string -> exn -> exn)
    (is_DatasetError_or_AdminCustomError : exn -> bool)
    (dataset_state_backfill : ProcessingGraph -> string -> string -> System ->
                              outcome Plan * System)
    (graph : ProcessingGraph)
    (dataset : option string) (auth_check : outcome unit) (sys : System) :
  let rejected :=
    negb (are_valid_parameters [dataset])
    || match dataset with None | Some EmptyString => true | _ => false end in
  let answer :=
    dataset_backfill_endpoint get_dataset_git_revision are_valid_parameters
      MissingRequiredParameterError UnexpectedError is_DatasetError_or_AdminCustomError
      dataset_state_backfill graph dataset auth_check sys in
  let caused_by (cause : exn) (sys' : System) : Prop :=
    if rejected
    then cause = MissingRequiredParameterError "Parameter 'dataset' is required" /\ sys' = sys
    else match auth_check with
         | Raise err => cause = err /\ sys' = sys
         | Return _ =>
             exists d,
               dataset = Some d /\
               ((get_dataset_git_revision d = Raise cause /\ sys' = sys) \/
                (exists revision,
                   get_dataset_git_revision d = Return revision /\
                   dataset_state_backfill graph d revision sys = (Raise cause, sys')))
         end in
  match answer.1 with
  | Return (OkResponse tasks) =>
      rejected = false /\
      exists d revision,
        dataset = Some d /\ (exists u, auth_check = Return u) /\
        get_dataset_git_revision d = Return revision /\
        dataset_state_backfill graph d revision sys = (Return tasks, answer.2)
  | Return (ErrorResponse e) =>
      exists cause,
        caused_by cause answer.2 /\
        ((is_DatasetError_or_AdminCustomError cause = true /\ e = cause) \/
         (is_DatasetError_or_AdminCustomError cause = false /\ "Exception" ∈ mro cause /\
          e = UnexpectedError "Unexpected error." cause))
  | Raise e =>
      caused_by e answer.2 /\
      is_DatasetError_or_AdminCustomError e = false /\ "Exception" ∉ mro e
  end.
Proof.
  intros rejected answer caused_by.
  assert (Hraise : forall cause sys',
            dataset_backfill_body get_dataset_git_revision are_valid_parameters
              MissingRequiredParameterError dataset_state_backfill graph dataset
              auth_check sys = (Raise cause, sys') ->
            caused_by cause sys').
  { intros cause sys'. unfold dataset_backfill_body, caused_by. fold rejected.
    destruct rejected eqn:Hrej; [intros [= <- <-]; auto|].
    destruct dataset as [d|];
      [|subst rejected; rewrite orb_true_r in Hrej; discriminate Hrej].
    destruct auth_check as [u|err]; [|intros [= <- <-]; auto].
    destruct (get_dataset_git_revision d) as [revision|err] eqn:Hrev.
    - intros Hplan. exists d. split; [reflexivity|]. right. eauto.
    - intros [= <- <-]. exists d. split; [reflexivity|]. left. auto. }
  assert (Hreturn : forall tasks sys',
            dataset_backfill_body get_dataset_git_revision are_valid_parameters
              MissingRequiredParameterError dataset_state_backfill graph dataset
              auth_check sys = (Return tasks, sys') ->
            rejected = false /\
            exists d revision,
              dataset = Some d /\ (exists u, auth_check = Return u) /\
              get_dataset_git_revision d = Return revision /\
              dataset_state_backfill graph d revision sys = (Return tasks, sys')).
  { intros tasks sys'. unfold dataset_backfill_body. fold rejected.
    destruct rejected eqn:Hrej; [intros [=]|].
    destruct dataset as [d|]; [|intros [=]].
    destruct auth_check as [u|err]; [|intros [=]].
    destruct (get_dataset_git_revision d) as [revision|err] eqn:Hrev; [|intros [=]].
    intros Hplan. split; [reflexivity|]. exists d, revision. eauto. }
  subst answer. unfold dataset_backfill_endpoint.
  destruct (dataset_backfill_body _ _ _ _ _ _ _ _) as [[tasks|cause] sys'] eqn:Hbody.
  - cbn [fst snd]. apply Hreturn. reflexivity.
  - specialize (Hraise cause sys' eq_refl).
    destruct (is_DatasetError_or_AdminCustomError cause) eqn:Hcls.
    + cbn [fst snd]. exists cause. split; [exact Hraise|]. left. auto.
    + unfold is_Exception, isinstance.
      destruct (bool_decide ("Exception" ∈ mro cause)) eqn:Hexc; cbn [fst snd].
      * exists cause. split; [exact Hraise|]. right.
        apply bool_decide_eq_true in Hexc. auto.
      * apply bool_decide_eq_false in Hexc. auto.
Qed.

End EndpointSpec.
